(** * Qualcomm OSM cpufreq driver (drivers/cpufreq/qcom-cpufreq-hw.c)

    A shallow embedding of the bring-up and runtime-control engine of the
    Operating State Manager driver: parameter generation, LUT programming
    with the MEM-ACC / APM crossover derivation, the ACD hand-over sequence,
    the runtime set/get operations and the LMh throttle notifier.

    Integers are [Z]; a C [u32] is a [Z] reduced modulo 2^32 where the
    source truncates.  Register accesses, firmware (SCM) calls and delays
    are effects of a small state-and-error monad over an abstract platform
    and are recorded in a trace. *)

From Stdlib Require Import ZArith Lia Bool Sorted.
From stdpp Require Import base tactics option list gmap.

Local Open Scope Z_scope.

(** ** Machine integers and bit fields *)

Definition u32 (z : Z) : Z := z mod 2 ^ 32.
Definition u8 (z : Z) : Z := z mod 2 ^ 8.

Definition INT_MAX : Z := 2 ^ 31 - 1.
Definition U8_MAX : Z := 255.

Definition BIT (n : Z) : Z := Z.shiftl 1 n.
Definition GENMASK (h l : Z) : Z := 2 ^ (h + 1) - 2 ^ l.

Fixpoint ffs_from (fuel : nat) (k : Z) (x : Z) : Z :=
  match fuel with
  | O => 0
  | S fuel' => if Z.testbit x k then k + 1 else ffs_from fuel' (k + 1) x
  end.

(** [ffs]: one plus the index of the least significant set bit, 0 for 0. *)
Definition ffs (x : Z) : Z := ffs_from 32 0 x.

(** [FIELD_PREP(mask, val)] and [FIELD_GET(mask, reg)] of linux/bitfield.h. *)
Definition FIELD_PREP (mask val : Z) : Z :=
  Z.land (Z.shiftl val (ffs mask - 1)) mask.
Definition FIELD_GET (mask reg : Z) : Z :=
  Z.shiftr (Z.land reg mask) (ffs mask - 1).

(** ** Constants of the driver *)

Definition LUT_MAX_ENTRIES : Z := 40.
Definition LUT_SRC_845 : Z := GENMASK 31 30.
Definition LUT_SRC_8998 : Z := GENMASK 27 26.
Definition LUT_PLL_DIV : Z := GENMASK 25 24.
Definition LUT_L_VAL : Z := GENMASK 7 0.
Definition LUT_CORE_COUNT : Z := GENMASK 18 16.
Definition LUT_VOLT_VC : Z := GENMASK 21 16.
Definition LUT_VOLT : Z := GENMASK 11 0.
Definition LUT_TURBO_IND : Z := 1.
Definition OSM_BOOT_TIME_US : Z := 5.

(** [SEQUENCER_REG(base, n)] is [(base + (n * 4))]; the macro leaves its
    argument [n] without parentheses. *)
Definition SEQUENCER_REG (base n : Z) : Z := base + n * 4.
Definition SEQ_APM_THRESH_VC : Z := 15.
Definition SEQ_APM_THRESH_PREVC : Z := 31.
Definition SEQ_MEM_ACC_LVAL : Z := 32.
Definition SEQ_MEM_ACC_0 : Z := 55.
Definition SEQ_APM_CROSSOVER_VC : Z := 72.
Definition SEQ_APM_PARAM : Z := 76.
Definition SEQ_MEM_ACC_CROSSOVER_VC : Z := 88.
Definition SEQ_MEM_ACC_MAX_LEVELS : Z := 4.
(** [SEQ_MEMACC_REG(base, n)] is [SEQUENCER_REG(base, SEQ_MEM_ACC_0 + n)],
    which the preprocessor expands to [(base + (SEQ_MEM_ACC_0 + n * 4))]:
    the four MEM-ACC registers sit at byte offsets 55, 59, 63 and 67. *)
Definition SEQ_MEMACC_REG (base n : Z) : Z := base + (SEQ_MEM_ACC_0 + n * 4).

Definition ACD_WRITE_CTL_UPDATE_EN : Z := BIT 0.
Definition ACD_WRITE_CTL_SELECT_SHIFT : Z := 1.

Definition HZ_PER_KHZ : Z := 1000.

Definition CPUFREQ_ENTRY_INVALID : Z := u32 (-1).
Definition CPUFREQ_TABLE_END : Z := u32 (-2).
Definition CPUFREQ_BOOST_FREQ : Z := 1.

Definition ENOENT : Z := 2.
Definition ENOMEM : Z := 12.
Definition ENODEV : Z := 19.
Definition EINVAL : Z := 22.
Definition ERANGE : Z := 34.
Definition ENODATA : Z := 61.
Definition ETIMEDOUT : Z := 110.

(** ** Structures *)

(** [struct qcom_cpufreq_soc_setup_data]: the offsets the modelled functions
    use. *)
Record qcom_cpufreq_soc_setup_data := {
  reg_osm_sequencer : Z;
  reg_override : Z;
  reg_spare : Z;
  reg_seq1 : Z;
}.

Record qcom_cpufreq_soc_acd_data := {
  tl_delay_reg : Z;
  acd_ctrl_reg : Z;
  softstart_reg : Z;
  ext_intf_reg : Z;
  auto_xfer_reg : Z;
  auto_xfer_cfg_reg : Z;
  auto_xfer_ctl_reg : Z;
  auto_xfer_sts_reg : Z;
  dcvs_sw_reg : Z;
  gfmux_cfg_reg : Z;
  write_ctl_reg : Z;
  write_sts_reg : Z;
  tl_delay_val : Z;
  acd_ctrl_val : Z;
  softstart_val : Z;
  ext_intf0_val : Z;
  ext_intf1_val : Z;
  auto_xfer_val : Z;
}.

Record qcom_cpufreq_hw_params := {
  volt_lut_val : Z;
  freq_lut_val : Z;
  override_val : Z;
  spare_val : Z;
}.

Record qcom_cpufreq_soc_data := {
  reg_enable : Z;
  reg_index : Z;
  reg_freq_lut : Z;
  reg_freq_lut_src_mask : Z;
  reg_volt_lut : Z;
  reg_current_vote : Z;
  reg_perf_state : Z;
  lut_row_size : Z;
  clk_hw_div : Z;
  uses_tz : bool;
  setup_regs : qcom_cpufreq_soc_setup_data;
  acd_data : qcom_cpufreq_soc_acd_data;
}.

Global Instance hw_params_inhabited : Inhabited qcom_cpufreq_hw_params :=
  populate {| volt_lut_val := 0; freq_lut_val := 0; override_val := 0; spare_val := 0 |}.

(** The msm8998 register map, the one variant that is programmed from the
    OS ([uses_tz = false]). *)
Definition msm8998_soc_data : qcom_cpufreq_soc_data := {|
  reg_enable := 0x4;
  reg_index := 0x150;
  reg_freq_lut := 0x154;
  reg_freq_lut_src_mask := LUT_SRC_8998;
  reg_volt_lut := 0x158;
  reg_current_vote := 0;
  reg_perf_state := 0xf10;
  lut_row_size := 32;
  clk_hw_div := 1;
  uses_tz := false;
  setup_regs := {|
    reg_osm_sequencer := 0x300;
    reg_override := 0x15c;
    reg_spare := 0x164;
    reg_seq1 := 0x48 |};
  acd_data := {|
    acd_ctrl_reg := 0x4;
    tl_delay_reg := 0x8;
    softstart_reg := 0x28;
    ext_intf_reg := 0x30;
    dcvs_sw_reg := 0x34;
    gfmux_cfg_reg := 0x3c;
    auto_xfer_cfg_reg := 0x80;
    auto_xfer_reg := 0x84;
    auto_xfer_ctl_reg := 0x88;
    auto_xfer_sts_reg := 0x8c;
    write_ctl_reg := 0x90;
    write_sts_reg := 0x94;
    tl_delay_val := 38417;
    acd_ctrl_val := 0x2b5ffd;
    softstart_val := 0x501;
    ext_intf0_val := 0x2cf9ae8;
    ext_intf1_val := 0x2cf9afe;
    auto_xfer_val := 0x15 |};
|}.

Definition qcom_soc_data : qcom_cpufreq_soc_data := {|
  reg_enable := 0x0;
  reg_index := 0;
  reg_freq_lut := 0x110;
  reg_freq_lut_src_mask := LUT_SRC_845;
  reg_volt_lut := 0x114;
  reg_current_vote := 0x704;
  reg_perf_state := 0x920;
  lut_row_size := 32;
  clk_hw_div := 2;
  uses_tz := true;
  setup_regs := {| reg_osm_sequencer := 0; reg_override := 0; reg_spare := 0; reg_seq1 := 0 |};
  acd_data := {|
    tl_delay_reg := 0; acd_ctrl_reg := 0; softstart_reg := 0; ext_intf_reg := 0;
    auto_xfer_reg := 0; auto_xfer_cfg_reg := 0; auto_xfer_ctl_reg := 0;
    auto_xfer_sts_reg := 0; dcvs_sw_reg := 0; gfmux_cfg_reg := 0;
    write_ctl_reg := 0; write_sts_reg := 0; tl_delay_val := 0; acd_ctrl_val := 0;
    softstart_val := 0; ext_intf0_val := 0; ext_intf1_val := 0; auto_xfer_val := 0 |};
|}.

(** ** Results of fallible code

    [Ok] is a normal return (return code 0 for the [int] functions), [Err e]
    a return of the negative errno [-e], and [Fault] an access outside an
    allocated array, which C leaves undefined. *)
Inductive result (A : Type) : Type :=
| Ok (a : A)
| Err (errno : Z)
| Fault.
Arguments Ok {A} a.
Arguments Err {A} errno.
Arguments Fault {A}.

(** ** Operating-point data read by [qcom_cpufreq_gen_params] *)

(** One operating point of the CPR power domain, with the device-tree
    properties the driver reads from its node. *)
Record opp_entry := {
  opp_rate : Z;                    (* Hz *)
  opp_voltage : Z;                 (* dev_pm_opp_get_voltage, microvolts *)
  opp_has_node : bool;             (* dev_pm_opp_get_of_node() != NULL *)
  opp_pll_override : option Z;     (* "qcom,pll-override" *)
  opp_spare_data : option Z;       (* "qcom,spare-data" *)
  opp_pll_div : option Z;          (* "qcom,pll-div" *)
}.

Record cpr_ext_data := {
  apm_threshold_uV : Z;
  mem_acc_threshold_uV : Z;
}.

(** What the power-domain side hands to [qcom_cpufreq_gen_params]. *)
Record genpd_source := {
  attach_ret : Z;                  (* devm_pm_opp_attach_genpd *)
  genpd_vdev_ok : bool;            (* !IS_ERR_OR_NULL( *genpd_cpr_vdev) *)
  cpr_data : option cpr_ext_data;  (* dev_get_drvdata *)
  gpd_opp_cnt : Z;                 (* dev_pm_opp_get_opp_count *)
  opps : list opp_entry;           (* available OPPs, ascending rate *)
}.

(** Modelled from the spec: dev_pm_opp_find_freq_ceil belongs to the OPP
    framework, which is not part of the driver.  The platform's list is
    ascending; the call returns its first available entry whose rate is at
    least the requested one. *)
Definition dev_pm_opp_find_freq_ceil (tbl : list opp_entry) (rate : Z) : option opp_entry :=
  find (fun o => rate <=? opp_rate o) tbl.

(** The out-parameters of [qcom_cpufreq_gen_params]. *)
Record gen_out := {
  hw_tbl : list qcom_cpufreq_hw_params;
  apm_vc : Z;
  acc_vc : Z;
  num_entries : Z;
}.

(** The local state of the loop of [qcom_cpufreq_gen_params]. *)
Record gen_loop := {
  g_i : Z;
  g_rate : Z;
  g_tbl : list qcom_cpufreq_hw_params;
  g_apm_vc : Z;
  g_acc_vc : Z;
}.

Section GenParams.
Variable soc_data : qcom_cpufreq_soc_data.
Variable xo_rate : Z.
Variable cpu_count : Z.

(** One row, from the body of the loop (source lines 564-603).  [div_u64]
    takes the divisor as a [u32]; a zero [xo_rate] traps in C and yields 0
    here (the probe reads the rate of the "xo" clock before any table is
    generated). *)
Definition gen_entry (i rate : Z) (o : opp_entry) (override millivolts : Z)
  : qcom_cpufreq_hw_params :=
  let spare := default 0 (opp_spare_data o) in
  let pll_div := default 0 (opp_pll_div o) in
  let volt := Z.lor (FIELD_PREP LUT_VOLT_VC i) (FIELD_PREP LUT_VOLT millivolts) in
  let f_src := u32 (Z.shiftl (if i =? 0 then 0 else 1)
                             (ffs (reg_freq_lut_src_mask soc_data) - 1)) in
  let freq := u32 (Z.lor f_src (rate / u32 xo_rate)) in
  let freq := Z.lor freq (FIELD_PREP LUT_CORE_COUNT cpu_count) in
  let freq := Z.lor freq (FIELD_PREP LUT_PLL_DIV pll_div) in
  {| volt_lut_val := volt; freq_lut_val := freq;
     override_val := override; spare_val := spare |}.

(** The loop [for (i = 0, rate = 1000; i <= gpd_opp_cnt; rate++, i++)].
    [fuel] bounds the number of iterations (gpd_opp_cnt + 1 suffice).
    The result is the loop state at the [break] or at the loop exit. *)
Fixpoint gen_loop_run (fuel : nat) (src : genpd_source) (apm_uV acc_uV : Z)
    (s : gen_loop) : result gen_loop :=
  match fuel with
  | O => Ok s
  | S fuel' =>
    if negb (g_i s <=? gpd_opp_cnt src) then Ok s else
    match dev_pm_opp_find_freq_ceil (opps src) (g_rate s) with
    | None => Ok s
    | Some o =>
      let i := g_i s in
      let rate := opp_rate o in
      if negb (opp_has_node o) then Err ENOENT else
      match opp_pll_override o with
      | None => Err EINVAL
      | Some override =>
        (* entry = *hw_tbl + i is written here; the array has gpd_opp_cnt rows *)
        if gpd_opp_cnt src <=? i then Fault else
        let millivolts := u32 (opp_voltage o) in
        let apm := if (apm_uV <=? millivolts) && (g_apm_vc s <? 0) then i else g_apm_vc s in
        let acc := if (acc_uV <=? millivolts) && (g_acc_vc s <? 0) then i else g_acc_vc s in
        let millivolts := millivolts / 1000 in
        if (millivolts <? 150) || (1400 <? millivolts) then Err EINVAL else
        gen_loop_run fuel' src apm_uV acc_uV
          {| g_i := i + 1; g_rate := rate + 1;
             g_tbl := g_tbl s ++ [gen_entry i rate o override millivolts];
             g_apm_vc := apm; g_acc_vc := acc |}
      end
    end
  end.

(** [qcom_cpufreq_gen_params].  [out] holds the caller's values of the
    out-parameters, which stay untouched on the paths that leave before
    they are written. *)
Definition qcom_cpufreq_gen_params (src : genpd_source) (out : gen_out) : result gen_out :=
  if negb (attach_ret src =? 0) then Err (- attach_ret src) else
  if negb (genpd_vdev_ok src) then Err EINVAL else
  match cpr_data src with
  | None => Err ENODATA
  | Some cpr =>
    let cnt := gpd_opp_cnt src in
    if cnt <? 2 then
      (if 0 <? cnt then Err EINVAL else if cnt =? 0 then Ok out else Err (- cnt))
    else
    let apm_uV := apm_threshold_uV cpr in
    if apm_uV <=? 0 then Err EINVAL else
    let '(acc_uV, acc0) :=
      if mem_acc_threshold_uV cpr <=? 0 then (INT_MAX, U8_MAX)
      else (mem_acc_threshold_uV cpr, -1) in
    match gen_loop_run (Z.to_nat cnt + 1) src apm_uV acc_uV
            {| g_i := 0; g_rate := 1000; g_tbl := [];
               g_apm_vc := -1; g_acc_vc := acc0 |} with
    | Ok s =>
      let acc := if negb (acc_uV =? INT_MAX) && (g_acc_vc s <? SEQ_MEM_ACC_MAX_LEVELS - 1)
                 then U8_MAX else g_acc_vc s in
      if g_i s <? cnt then Err EINVAL else
      Ok {| hw_tbl := g_tbl s; apm_vc := g_apm_vc s; acc_vc := acc;
            num_entries := u8 (g_i s) |}
    | Err e => Err e
    | Fault => Fault
    end
  end.
End GenParams.

(** ** Effects: platform, trace and monad *)

(** Calls into the OPP framework that return a status code. *)
Inductive opp_call : Type :=
| OppOfAddTable (cpu : Z)                     (* dev_pm_opp_of_add_table *)
| OppDisable (cpu rate : Z)                   (* dev_pm_opp_disable *)
| OppAdd (cpu freq_hz volt : Z)               (* dev_pm_opp_add *)
| OppAdjustVoltage (cpu freq_hz volt : Z)     (* dev_pm_opp_adjust_voltage *)
| OppEnable (cpu freq_hz : Z)                 (* dev_pm_opp_enable *)
| OppSetOpp (cpu freq_hz : Z).                (* dev_pm_opp_set_opp *)

(** What the driver does to the outside world, in program order.  Register
    reads are not recorded; a poll is recorded once, with its bounds. *)
Inductive event : Type :=
| EvWritel (val addr : Z)                     (* writel / writel_relaxed *)
| EvScmIoWritel (addr val : Z)                (* qcom_scm_io_writel *)
| EvPoll (addr mask sleep_us timeout_us : Z)  (* readl_poll_timeout *)
| EvUdelay (us : Z)
| EvOppCall (c : opp_call)
| EvThermalPressure (cpus : list Z) (capped_freq : Z)
| EvMutexLock
| EvMutexUnlock
| EvEnableIrq (irq : Z)
| EvModDelayedWork (delay_ms : Z).

Global Instance opp_call_eq_dec : EqDecision opp_call.
Proof. solve_decision. Defined.

Global Instance event_eq_dec : EqDecision event.
Proof. solve_decision. Defined.

(** The hardware and the kernel services behind the driver, over a state
    [D] the driver cannot see: registers may change on their own, firmware
    and OPP calls may fail.  [hw_opp_rates cpu] is the list of available
    OPP rates of the CPU device in Hz, ascending, if it has an OPP table. *)
Class Platform (D : Type) := {
  hw_readl : Z -> D -> Z * D;
  hw_writel : Z -> Z -> D -> D;
  hw_scm_io_writel : Z -> Z -> D -> Z * D;
  hw_udelay : Z -> D -> D;
  hw_get_cpu_device : Z -> D -> bool;
  hw_opp_rates : Z -> D -> option (list Z);
  hw_opp_call : opp_call -> D -> Z * D;
}.

Section Monad.
Context {D : Type}.

Record world := { hw : D; trace : list event }.

Definition M (A : Type) : Type := world -> result A * world.

Definition ret {A} (a : A) : M A := fun w => (Ok a, w).
Definition throw {A} (errno : Z) : M A := fun w => (Err errno, w).
Definition fault {A} : M A := fun w => (Fault, w).

Definition bind {A B} (m : M A) (k : A -> M B) : M B :=
  fun w =>
    match m w with
    | (Ok a, w') => k a w'
    | (Err e, w') => (Err e, w')
    | (Fault, w') => (Fault, w')
    end.

(** Run [m] and drop its return code, as a C call whose result is unused. *)
Definition ignore_ret {A} (m : M A) : M unit :=
  fun w =>
    match m w with
    | (Ok _, w') => (Ok tt, w')
    | (Err _, w') => (Ok tt, w')
    | (Fault, w') => (Fault, w')
    end.

Definition lift_result {A} (r : result A) : M A := fun w => (r, w).

Definition log (e : event) : M unit :=
  fun w => (Ok tt, {| hw := hw w; trace := trace w ++ [e] |}).

Definition with_hw {A} (f : D -> A * D) : M A :=
  fun w => let '(a, d) := f (hw w) in (Ok a, {| hw := d; trace := trace w |}).
End Monad.
Arguments world D : clear implicits.
Arguments M D A : clear implicits.

Notation "'let*' x := m 'in' k" := (bind m (fun x => k))
  (at level 10, x name, m at level 100, k at level 200).
Notation "m ;;; k" := (bind m (fun _ => k))
  (at level 200, k at level 200, right associativity).

Section Primitives.
Context {D : Type} `{Platform D}.

Definition writel (val addr : Z) : M D unit :=
  log (EvWritel (u32 val) addr) ;;;
  with_hw (fun d => (tt, hw_writel (u32 val) addr d)).

Definition readl (addr : Z) : M D Z :=
  with_hw (fun d => let '(v, d') := hw_readl addr d in (u32 v, d')).

Definition udelay (us : Z) : M D unit :=
  log (EvUdelay us) ;;;
  with_hw (fun d => (tt, hw_udelay us d)).

(** [qcom_scm_io_writel(addr, val)]: a non-zero return is an error. *)
Definition qcom_scm_io_writel (addr val : Z) : M D unit :=
  log (EvScmIoWritel (u32 addr) (u32 val)) ;;;
  let* r := with_hw (hw_scm_io_writel (u32 addr) (u32 val)) in
  if r =? 0 then ret tt else throw (- r).

(** The reads of one poll: read, test, and sleep before the next read
    while reads remain. *)
Fixpoint poll_reads (more : nat) (addr mask sleep_us : Z) (d : D) : bool * D :=
  let '(v, d') := hw_readl addr d in
  if negb (Z.land (u32 v) mask =? 0) then (true, d')
  else match more with
       | O => (false, d')
       | S more' => poll_reads more' addr mask sleep_us (hw_udelay sleep_us d')
       end.

(** Modelled from the spec: readl_poll_timeout is a macro of
    linux/iopoll.h, not part of the driver.  It reads the register every
    [sleep_us] for up to [timeout_us], until a bit of [mask] is set;
    running out of time is [-ETIMEDOUT]. *)
Definition readl_poll_timeout (addr mask sleep_us timeout_us : Z) : M D unit :=
  log (EvPoll addr mask sleep_us timeout_us) ;;;
  let* ok := with_hw (poll_reads (Z.to_nat (timeout_us / sleep_us)) addr mask sleep_us) in
  if ok : bool then ret tt else throw ETIMEDOUT.
End Primitives.

(** ** Driver data *)

(** [struct qcom_cpufreq_data]; the mutex and the work item appear as
    events, [cancel_throttle] is the flag as read under the lock. *)
Record qcom_cpufreq_data := {
  base : Z;
  soc_data : qcom_cpufreq_soc_data;
  throttle_irq : Z;
  cancel_throttle : bool;
}.

(** ** LUT programming: [qcom_cpufreq_hw_write_lut] *)

(** The locals the programming loop carries from row to row. *)
Record lut_loop := {
  last_spare : Z;
  acc_idx : Z;
  acc_val : list Z;
}.

(** The row written at LUT slot [i]: the real row, or the last real one
    once the table is exhausted (source lines 839-842). *)
Definition lut_entry (tbl : list qcom_cpufreq_hw_params) (num_entries i : Z)
  : qcom_cpufreq_hw_params :=
  if i <? num_entries then tbl !!! Z.to_nat i
  else tbl !!! Z.to_nat (num_entries - 1).

(** MEM-ACC pair recording at slot [i] (source lines 867-876). *)
Definition mem_acc_step (entry : qcom_cpufreq_hw_params) (i : Z) (s : lut_loop) : lut_loop :=
  if (spare_val entry <=? last_spare s) || (SEQ_MEM_ACC_MAX_LEVELS - 1 <=? acc_idx s)
  then s
  else
    {| last_spare := spare_val entry;
       acc_val := <[Z.to_nat (acc_idx s + 1) := i]>
                    (<[Z.to_nat (acc_idx s) := i - 1]> (acc_val s));
       acc_idx := acc_idx s + 2 |}.

(** The MEM-ACC side of the loop alone, without the register writes. *)
Fixpoint mem_acc_scan (n : nat) (i : Z) (tbl : list qcom_cpufreq_hw_params)
    (num_entries : Z) (s : lut_loop) : lut_loop :=
  match n with
  | O => s
  | S n' =>
    mem_acc_scan n' (i + 1) tbl num_entries
      (mem_acc_step (lut_entry tbl num_entries i) i s)
  end.

(** The customized MEM-ACC corner (source lines 899-911): one corner
    lower, override of the upper pair, sanitization of the lower values. *)
Definition mem_acc_customize (acc_vc : Z) (acc_val : list Z) : list Z :=
  let acc_vc := acc_vc - 1 in
  let acc_val :=
    if acc_vc <? acc_val !!! 3%nat
    then <[3%nat := acc_vc]> (<[2%nat := acc_vc - 1]> acc_val)
    else acc_val in
  let acc_val :=
    if acc_val !!! 2%nat <=? acc_val !!! 1%nat
    then <[1%nat := acc_val !!! 2%nat - 1]> acc_val
    else acc_val in
  let acc_val :=
    if acc_val !!! 1%nat <=? acc_val !!! 0%nat
    then <[0%nat := acc_val !!! 1%nat - 1]> acc_val
    else acc_val in
  acc_val.

(** Whether the customized corner is used (source line 887). *)
Definition mem_acc_is_custom (acc_vc : Z) : bool :=
  (0 <? acc_vc) && negb (acc_vc =? U8_MAX).

(** The locals at loop entry; [garbage] is the content of the
    uninitialised array [int acc_val[SEQ_MEM_ACC_MAX_LEVELS]]. *)
Definition lut_loop_init (garbage : Z * Z * Z * Z) : lut_loop :=
  let '(g0, g1, g2, g3) := garbage in
  {| last_spare := 1; acc_idx := 0; acc_val := [g0; g1; g2; g3] |}.

(** The four MEM-ACC values [qcom_cpufreq_hw_write_lut] sends to the
    sequencer for a generated table, or [None] when the sanity check on
    the number of crossovers fails. *)
Definition mem_acc_crossovers (out : gen_out) (garbage : Z * Z * Z * Z) : option (list Z) :=
  let s := mem_acc_scan (Z.to_nat LUT_MAX_ENTRIES) 0 (hw_tbl out) (num_entries out)
             (lut_loop_init garbage) in
  if acc_idx s <? SEQ_MEM_ACC_MAX_LEVELS - 1 then None
  else if mem_acc_is_custom (acc_vc out)
       then Some (mem_acc_customize (acc_vc out) (acc_val s))
       else Some (acc_val s).

(** The APM threshold corner sent to the sequencer (source lines 938-939). *)
Definition apm_threshold_vc (apm_vc : Z) : Z :=
  if apm_vc =? INT_MAX then LUT_MAX_ENTRIES - 1 else apm_vc.

(** The out-parameters as [qcom_cpufreq_hw_write_lut] initialises them. *)
Definition gen_out_init : gen_out :=
  {| hw_tbl := []; apm_vc := INT_MAX; acc_vc := U8_MAX; num_entries := 0 |}.

Section WriteLut.
Context {D : Type} `{Platform D}.
Variable ddata : qcom_cpufreq_data.
Variable xo_rate : Z.

Let sdata := soc_data ddata.
Let sregs := setup_regs (soc_data ddata).

(** The five register writes of slot [i]. *)
Definition lut_write_row (i : Z) (entry : qcom_cpufreq_hw_params) : M D unit :=
  let pos := i * lut_row_size sdata in
  writel i (base ddata + reg_index sdata + pos) ;;;
  writel (volt_lut_val entry) (base ddata + reg_volt_lut sdata + pos) ;;;
  writel (freq_lut_val entry) (base ddata + reg_freq_lut sdata + pos) ;;;
  writel (override_val entry) (base ddata + reg_override sregs + pos) ;;;
  writel (spare_val entry) (base ddata + reg_spare sregs + pos).

(** [for (i = 0; i < LUT_MAX_ENTRIES; i++)], [n] slots from slot [i] on. *)
Fixpoint lut_loop_run (n : nat) (i : Z) (tbl : list qcom_cpufreq_hw_params)
    (num_entries : Z) (s : lut_loop) : M D lut_loop :=
  match n with
  | O => ret s
  | S n' =>
    let entry := lut_entry tbl num_entries i in
    lut_write_row i entry ;;;
    lut_loop_run n' (i + 1) tbl num_entries (mem_acc_step entry i s)
  end.

(** [for (i = 0; i < SEQ_MEM_ACC_MAX_LEVELS; i++)] over the sequencer. *)
Fixpoint mem_acc_write (n : nat) (i : Z) (seq_addr : Z) (acc_val : list Z) : M D unit :=
  match n with
  | O => ret tt
  | S n' =>
    qcom_scm_io_writel (SEQ_MEMACC_REG seq_addr i) (acc_val !!! Z.to_nat i) ;;;
    mem_acc_write n' (i + 1) seq_addr acc_val
  end.

(** [qcom_cpufreq_hw_write_lut].  [osm_rsrc] is the start of the
    "osm-domainN" resource when the platform has it, [src] the
    power-domain data, [garbage] the initial content of [acc_val]. *)
Definition qcom_cpufreq_hw_write_lut (osm_rsrc : option Z) (src : genpd_source)
    (cpu_count : Z) (garbage : Z * Z * Z * Z) : M D unit :=
  match osm_rsrc with
  | None => throw ENODEV
  | Some start =>
    let seq_addr := u32 (start + reg_osm_sequencer sregs) in
    let* out := lift_result
      (qcom_cpufreq_gen_params sdata xo_rate cpu_count src gen_out_init) in
    if num_entries out <? 2 then throw EINVAL else
    let* s := lut_loop_run (Z.to_nat LUT_MAX_ENTRIES) 0 (hw_tbl out) (num_entries out)
                (lut_loop_init garbage) in
    if acc_idx s <? SEQ_MEM_ACC_MAX_LEVELS - 1 then throw EINVAL else
    let* acc_val :=
      (if mem_acc_is_custom (acc_vc out) then
         qcom_scm_io_writel (SEQUENCER_REG seq_addr SEQ_MEM_ACC_CROSSOVER_VC)
                            (num_entries out + 1) ;;;
         ret (mem_acc_customize (acc_vc out) (acc_val s))
       else ret (acc_val s)) in
    mem_acc_write (Z.to_nat SEQ_MEM_ACC_MAX_LEVELS) 0 seq_addr acc_val ;;;
    let top := acc_val !!! 3%nat in
    if (top <? 0) || (Z.of_nat (length (hw_tbl out)) <=? top) then fault else
    let acc_lval := FIELD_GET LUT_L_VAL (freq_lut_val (hw_tbl out !!! Z.to_nat top)) in
    qcom_scm_io_writel (SEQUENCER_REG seq_addr SEQ_MEM_ACC_LVAL) acc_lval ;;;
    let apm_vc := apm_threshold_vc (apm_vc out) in
    writel (num_entries out) (base ddata + reg_seq1 sregs) ;;;
    qcom_scm_io_writel (SEQUENCER_REG seq_addr SEQ_APM_CROSSOVER_VC) (num_entries out) ;;;
    qcom_scm_io_writel (SEQUENCER_REG seq_addr SEQ_APM_THRESH_VC) apm_vc ;;;
    qcom_scm_io_writel (SEQUENCER_REG seq_addr SEQ_APM_THRESH_PREVC) (apm_vc - 1) ;;;
    qcom_scm_io_writel (SEQUENCER_REG seq_addr SEQ_APM_PARAM)
                       (Z.lor 0x39 (Z.shiftl apm_vc 6))
  end.
End WriteLut.

(** ** ACD hand-over: [qcom_cpufreq_hw_acd_init] *)

(** [qcom_cpufreq_acd_regbit]: the bit of a sub-register, as a [u32]. *)
Definition qcom_cpufreq_acd_regbit (acd_reg_offset : Z) : Z :=
  u32 (BIT (acd_reg_offset / 4)).

Section Acd.
Context {D : Type} `{Platform D}.
Variable data : qcom_cpufreq_data.

Let aregs := acd_data (soc_data data).

Definition qcom_cpufreq_hw_acd_write_autoxfer (acd_base val : Z) : M D unit :=
  writel val (acd_base + auto_xfer_cfg_reg aregs) ;;;
  (* (Clear, then) Set AUTOXFER START *)
  writel 0 (acd_base + auto_xfer_reg aregs) ;;;
  writel 1 (acd_base + auto_xfer_reg aregs) ;;;
  (* Poll for status: if the first bit is set the transfer is done. *)
  readl_poll_timeout (acd_base + auto_xfer_sts_reg aregs) (BIT 0) 1 3.

Definition qcom_cpufreq_hw_acd_write_xfer (acd_base reg val : Z) : M D unit :=
  (* Write to the register, then initiate manual transfer *)
  writel val (acd_base + reg) ;;;
  (* Clear write control register *)
  writel 0 (acd_base + write_ctl_reg aregs) ;;;
  let regval := u32 (Z.shiftl (reg / 4) ACD_WRITE_CTL_SELECT_SHIFT) in
  let regval := Z.lor regval ACD_WRITE_CTL_UPDATE_EN in
  writel regval (acd_base + write_ctl_reg aregs) ;;;
  (* Wait until ACD Local Transfer is done *)
  readl_poll_timeout (acd_base + write_sts_reg aregs)
                     (qcom_cpufreq_acd_regbit reg) 1 3.

(** [acd_base] is the mapping of the "osm-acdN" iospace, [None] when the
    platform declares none. *)
Definition qcom_cpufreq_hw_acd_init (acd_base : option Z) : M D unit :=
  match acd_base with
  | None => ret tt    (* Skipping ACD initialization. *)
  | Some acd_base =>
    writel (tl_delay_val aregs) (acd_base + tl_delay_reg aregs) ;;;
    writel (acd_ctrl_val aregs) (acd_base + acd_ctrl_reg aregs) ;;;
    writel (softstart_val aregs) (acd_base + softstart_reg aregs) ;;;
    writel (ext_intf0_val aregs) (acd_base + ext_intf_reg aregs) ;;;
    writel (auto_xfer_val aregs) (acd_base + auto_xfer_ctl_reg aregs) ;;;
    let rmask :=
      Z.lor (Z.lor (Z.lor (qcom_cpufreq_acd_regbit (acd_ctrl_reg aregs))
                          (qcom_cpufreq_acd_regbit (tl_delay_reg aregs)))
                   (qcom_cpufreq_acd_regbit (softstart_reg aregs)))
            (qcom_cpufreq_acd_regbit (ext_intf_reg aregs)) in
    qcom_cpufreq_hw_acd_write_autoxfer acd_base rmask ;;;
    (* Switch CPUSS clock source to ACD clock *)
    qcom_cpufreq_hw_acd_write_xfer acd_base (gfmux_cfg_reg aregs) 1 ;;;
    (* (Set, then) Clear DCVS_SW *)
    qcom_cpufreq_hw_acd_write_xfer acd_base (dcvs_sw_reg aregs) 1 ;;;
    qcom_cpufreq_hw_acd_write_xfer acd_base (dcvs_sw_reg aregs) 0 ;;;
    (* Wait for clock switch time *)
    udelay 1 ;;;
    (* Program the final ACD external interface *)
    qcom_cpufreq_hw_acd_write_xfer acd_base (ext_intf_reg aregs) (ext_intf1_val aregs) ;;;
    (* Initiate transfer of the final ACD value *)
    let rmask := Z.lor rmask (qcom_cpufreq_acd_regbit (gfmux_cfg_reg aregs)) in
    writel rmask (acd_base + auto_xfer_cfg_reg aregs) ;;;
    (* Wait for ACD to stabilize. Same wait as the OSM boot time... *)
    udelay OSM_BOOT_TIME_US
  end.
End Acd.

(** ** Runtime control *)

Record cpufreq_frequency_table := {
  flags : Z;
  frequency : Z;
}.

Record cpufreq_policy := {
  cpu : Z;
  cpus : list Z;
  related_cpus : list Z;
  driver_data : qcom_cpufreq_data;
  freq_table : list cpufreq_frequency_table;
  cached_resolved_idx : Z;
}.

(** Modelled from the spec: dev_pm_opp_find_freq_exact, _floor and _ceil
    belong to the OPP framework.  Over the ascending list of available
    rates: the rate itself, the highest rate not above, the lowest rate not
    below; [None] when the table has no such rate ([-ERANGE]). *)
Definition opp_find_freq_exact (rates : list Z) (freq : Z) : option Z :=
  find (fun r => r =? freq) rates.
Definition opp_find_freq_floor (rates : list Z) (freq : Z) : option Z :=
  last (filter (fun r => r <= freq) rates).
Definition opp_find_freq_ceil (rates : list Z) (freq : Z) : option Z :=
  find (fun r => freq <=? r) rates.

(** [cpumask_first]: the lowest CPU of the mask, [nr_cpu_ids] if empty. *)
Definition cpumask_first (nr_cpu_ids : Z) (mask : list Z) : Z :=
  foldr Z.min nr_cpu_ids mask.

Section Runtime.
Context {D : Type} `{Platform D}.

(** A call into the OPP framework, with its status code. *)
Definition dev_pm_opp_ret (c : opp_call) : M D Z :=
  log (EvOppCall c) ;;;
  with_hw (hw_opp_call c).

(** The same where a non-zero status is returned to the caller. *)
Definition dev_pm_opp (c : opp_call) : M D unit :=
  let* r := dev_pm_opp_ret c in
  if r =? 0 then ret tt else throw (- r).

(** Run [m]; [true] if it returned 0. *)
Definition attempt {A} (m : M D A) : M D bool :=
  fun w =>
    match m w with
    | (Ok _, w') => (Ok true, w')
    | (Err _, w') => (Ok false, w')
    | (Fault, w') => (Fault, w')
    end.

Definition get_cpu_device (cpu : Z) : M D bool :=
  with_hw (fun d => (hw_get_cpu_device cpu d, d)).

Definition opp_rates (cpu : Z) : M D (option (list Z)) :=
  with_hw (fun d => (hw_opp_rates cpu d, d)).

(** [qcom_cpufreq_set_bw]. *)
Definition qcom_cpufreq_set_bw (policy : cpufreq_policy) (freq_khz : Z) : M D unit :=
  let freq_hz := freq_khz * 1000 in
  let* dev := get_cpu_device (cpu policy) in
  if negb dev then throw ENODEV else
  let* rates := opp_rates (cpu policy) in
  match rates with
  | None => throw ENODEV
  | Some rates =>
    match opp_find_freq_exact rates freq_hz with
    | None => throw ERANGE
    | Some _ => dev_pm_opp (OppSetOpp (cpu policy) freq_hz)
    end
  end.

(** [qcom_cpufreq_update_opp]. *)
Definition qcom_cpufreq_update_opp (icc_scaling_enabled : bool) (cpu_dev : Z)
    (freq_khz volt : Z) : M D unit :=
  let freq_hz := freq_khz * 1000 in
  (* Skip voltage update if the opp table is not available *)
  if negb icc_scaling_enabled then dev_pm_opp (OppAdd cpu_dev freq_hz volt)
  else
    dev_pm_opp (OppAdjustVoltage cpu_dev freq_hz volt) ;;;
    dev_pm_opp (OppEnable cpu_dev freq_hz).

(** [qcom_cpufreq_hw_target_index]; the return value is the C one. *)
Definition qcom_cpufreq_hw_target_index (icc_scaling_enabled : bool)
    (policy : cpufreq_policy) (index : Z) : M D Z :=
  let data := driver_data policy in
  match freq_table policy !! Z.to_nat index with
  | None => fault
  | Some row =>
    let freq := frequency row in
    writel index (base data + reg_perf_state (soc_data data)) ;;;
    (if icc_scaling_enabled
     then ignore_ret (qcom_cpufreq_set_bw policy freq)
     else ret tt) ;;;
    ret 0
  end.

(** [qcom_cpufreq_hw_get]; [registry] is [cpufreq_cpu_get_raw]. *)
Definition qcom_cpufreq_hw_get (registry : gmap Z cpufreq_policy) (cpu : Z) : M D Z :=
  match registry !! cpu with
  | None => ret 0
  | Some policy =>
    let data := driver_data policy in
    let* index := readl (base data + reg_perf_state (soc_data data)) in
    let index := Z.min index (LUT_MAX_ENTRIES - 1) in
    match freq_table policy !! Z.to_nat index with
    | None => fault
    | Some row => ret (frequency row)
    end
  end.

(** [qcom_cpufreq_hw_fast_switch]. *)
Definition qcom_cpufreq_hw_fast_switch (policy : cpufreq_policy) (target_freq : Z)
  : M D Z :=
  let data := driver_data policy in
  let index := cached_resolved_idx policy in
  writel index (base data + reg_perf_state (soc_data data)) ;;;
  match freq_table policy !! Z.to_nat index with
  | None => fault
  | Some row => ret (frequency row)
  end.
End Runtime.

(** ** Reading the LUT back: [qcom_cpufreq_hw_read_lut] *)

Definition set_frequency (f : Z) (row : cpufreq_frequency_table) : cpufreq_frequency_table :=
  {| flags := flags row; frequency := f |}.

Record read_lut_out := {
  rl_table : list cpufreq_frequency_table;
  rl_icc_scaling_enabled : bool;
}.

Section ReadLut.
Context {D : Type} `{Platform D}.
Variable drv_data : qcom_cpufreq_data.
Variable xo_rate cpu_hw_rate : Z.
Variable cpu_dev : Z.

Let soc := soc_data drv_data.

(** The loop over the LUT rows, [n] rows from row [i] on; the result is
    the row index at the [break] or at the end, with the table. *)
Fixpoint read_lut_loop (icc : bool) (n : nat) (i prev_freq : Z)
    (table : list cpufreq_frequency_table)
  : M D (Z * list cpufreq_frequency_table) :=
  match n with
  | O => ret (i, table)
  | S n' =>
    let* data := readl (base drv_data + reg_freq_lut soc + i * lut_row_size soc) in
    let src := Z.shiftr (Z.land data (reg_freq_lut_src_mask soc))
                        (ffs (reg_freq_lut_src_mask soc) - 1) in
    let lval := FIELD_GET LUT_L_VAL data in
    let core_count := FIELD_GET LUT_CORE_COUNT data in
    let* data := readl (base drv_data + reg_volt_lut soc + i * lut_row_size soc) in
    let volt := u32 (FIELD_GET LUT_VOLT data * 1000) in
    let freq := if src =? 0 then u32 (cpu_hw_rate / 1000)
                else u32 (xo_rate * lval / 1000) in
    let* table :=
      (if negb (freq =? prev_freq) && negb (core_count =? LUT_TURBO_IND) then
         let* ok := attempt (qcom_cpufreq_update_opp icc cpu_dev freq volt) in
         ret (alter (set_frequency (if ok : bool then freq else CPUFREQ_ENTRY_INVALID))
                    (Z.to_nat i) table)
       else if core_count =? LUT_TURBO_IND then
         ret (alter (set_frequency CPUFREQ_ENTRY_INVALID) (Z.to_nat i) table)
       else ret table) in
    (* Two of the same frequencies with the same core counts means end of table *)
    if (0 <? i) && (prev_freq =? freq) then
      match table !! Z.to_nat (i - 1) with
      | None => fault
      | Some prev =>
        let* table :=
          (if frequency prev =? CPUFREQ_ENTRY_INVALID then
             let* ok := attempt (qcom_cpufreq_update_opp icc cpu_dev prev_freq volt) in
             if ok : bool
             then ret (<[Z.to_nat (i - 1) :=
                          {| flags := CPUFREQ_BOOST_FREQ; frequency := prev_freq |}]> table)
             else ret table
           else ret table) in
        ret (i, table)
      end
    else read_lut_loop icc n' (i + 1) freq table
  end.

(** The loop [for (rate = 0; ; rate++)] of [qcom_cpufreq_hw_read_lut] over
    the rates of the operating-point table: dev_pm_opp_find_freq_ceil moves
    [rate] up to the next operating point and the loop breaks when there is
    none; otherwise that point is disabled (the status of
    dev_pm_opp_disable is not looked at) and the search goes on from
    [rate + 1].  The source loop has no bound of its own; every step leaves
    one more rate below [rate], so the [fuel] that [opp_disable_all] gives,
    one step for each rate and one for the lookup that fails, is never used
    up ([opp_disable_walk_fuel]). *)
Fixpoint opp_disable_walk (fuel : nat) (rates : list Z) (rate : Z) : M D unit :=
  match fuel with
  | O => ret tt
  | S fuel' =>
    match opp_find_freq_ceil rates rate with
    | None => ret tt  (* IS_ERR(opp): break *)
    | Some rate =>
      ignore_ret (dev_pm_opp (OppDisable cpu_dev rate)) ;;;
      opp_disable_walk fuel' rates (rate + 1)
    end
  end.

Definition opp_disable_all (rates : list Z) : M D unit :=
  opp_disable_walk (S (length rates)) rates 0.

Definition qcom_cpufreq_hw_read_lut : M D read_lut_out :=
  let table := replicate (Z.to_nat (LUT_MAX_ENTRIES + 1)) {| flags := 0; frequency := 0 |} in
  let* r := dev_pm_opp_ret (OppOfAddTable cpu_dev) in
  let* icc :=
    (if r =? 0 then
       (* Disable all opps and cross-validate against LUT later *)
       let* rates := opp_rates cpu_dev in
       opp_disable_all (default [] rates) ;;;
       ret true
     else if negb (r =? - ENODEV) then throw (- r)
     else ret false) in
  let* it := read_lut_loop icc (Z.to_nat LUT_MAX_ENTRIES) 0 0 table in
  let '(i, table) := it in
  ret {| rl_table := alter (set_frequency CPUFREQ_TABLE_END) (Z.to_nat i) table;
         rl_icc_scaling_enabled := icc |}.
End ReadLut.

(** ** LMh throttle notifier *)

Section Throttle.
Context {D : Type} `{Platform D}.
Variable nr_cpu_ids : Z.

Definition qcom_lmh_get_throttle_freq (data : qcom_cpufreq_data) : M D Z :=
  let* val := readl (base data + reg_current_vote (soc_data data)) in
  ret (u32 (Z.land val 0x3FF * 19200)).

(** First half of [qcom_lmh_dcvs_notify]: the throttled frequency read
    from the hardware, normalised against the OPP table of the first CPU
    and published as thermal pressure.  The result is [throttled_freq]. *)
Definition lmh_throttled_freq (data : qcom_cpufreq_data) (policy : cpufreq_policy)
  : M D Z :=
  let cpu := cpumask_first nr_cpu_ids (cpus policy) in
  let* dev := get_cpu_device cpu in
  let* freq := qcom_lmh_get_throttle_freq data in
  let freq_hz := u32 (freq * HZ_PER_KHZ) in
  let* rates := opp_rates cpu in
  let freq_hz :=
    match (if dev : bool then rates else None) with
    | None => freq_hz       (* no device or no table: not -ERANGE *)
    | Some rates =>
      match opp_find_freq_floor rates freq_hz with
      | Some r => r
      | None => default freq_hz (opp_find_freq_ceil rates freq_hz)
      end
    end in
  let throttled_freq := freq_hz / HZ_PER_KHZ in
  (* Update thermal pressure (the boost frequencies are accepted) *)
  log (EvThermalPressure (related_cpus policy) throttled_freq) ;;;
  ret throttled_freq.

(** Second half, under [throttle_lock]: stop, re-arm the interrupt, or
    poll again in 10 ms. *)
Definition lmh_rearm (registry : gmap Z cpufreq_policy) (data : qcom_cpufreq_data)
    (policy : cpufreq_policy) (throttled_freq : Z) : M D unit :=
  let cpu := cpumask_first nr_cpu_ids (cpus policy) in
  log EvMutexLock ;;;
  (if cancel_throttle data then ret tt
   else
     let* requested := qcom_cpufreq_hw_get registry cpu in
     if requested <=? throttled_freq
     then log (EvEnableIrq (throttle_irq data))
     else log (EvModDelayedWork 10)) ;;;
  log EvMutexUnlock.

(** [qcom_lmh_dcvs_notify], the body of one poll ([qcom_lmh_dcvs_poll]). *)
Definition qcom_lmh_dcvs_notify (registry : gmap Z cpufreq_policy)
    (data : qcom_cpufreq_data) (policy : cpufreq_policy) : M D unit :=
  let* throttled_freq := lmh_throttled_freq data policy in
  lmh_rearm registry data policy throttled_freq.
End Throttle.

(** ** OSM bring-up: [qcom_cpufreq_hw_osm_setup] *)

Definition CYCLE_COUNTER_CLK_RATIO : Z := GENMASK 5 1.
Definition OSM_XO_RATIO_VAL : Z := 10 - 1.
Definition CYCLE_COUNTER_USE_XO_EDGE : Z := BIT 8.

(* FSM Boost Control *)
Definition CC_BOOST_EN : Z := BIT 0.
Definition PS_BOOST_EN : Z := BIT 1.
Definition DCVS_BOOST_EN : Z := BIT 2.
Definition BOOST_TIMER_REG_HI : Z := GENMASK 31 16.
Definition BOOST_TIMER_REG_LO : Z := GENMASK 15 0.

Definition PLL_WAIT_LOCK_TIME_NS : Z := 2000.
Definition SAFE_FREQ_WAIT_NS : Z := 1000.
Definition DEXT_DECREMENT_WAIT_NS : Z := 200.

Definition BOOST_SYNC_DELAY : Z := 5.

Definition HYSTERESIS_UP_MASK : Z := GENMASK 31 16.
Definition HYSTERESIS_DN_MASK : Z := GENMASK 15 0.
Definition HYSTERESIS_CC_NS : Z := 200.
Definition HYSTERESIS_LLM_NS : Z := 65535.

(* FSM Droop Control *)
Definition PC_RET_EXIT_DROOP_EN : Z := BIT 3.
Definition WFX_DROOP_EN : Z := BIT 4.
Definition DCVS_DROOP_EN : Z := BIT 5.
Definition DROOP_TIMER1 : Z := GENMASK 31 16.
Definition DROOP_TIMER0 : Z := GENMASK 15 0.
Definition DROOP_CTRL_VAL : Z := Z.lor (Z.lor (BIT 3) (BIT 17)) (BIT 31).
Definition DROOP_TIMER_NS : Z := 100.
Definition DROOP_WAIT_RELEASE_TIMER_NS : Z := 50.
Definition DROOP_RELEASE_TIMER_NS : Z := 1.

(* PLL Override Control *)
Definition PLL_OVERRIDE_DROOP_EN : Z := BIT 0.

(** [struct qcom_cpufreq_soc_setup_data], continued: the offsets that only
    [qcom_cpufreq_hw_osm_setup] uses. *)
Record qcom_cpufreq_soc_setup_tunables := {
  reg_cc_zero_behav : Z;
  reg_spm_cc_hyst : Z;
  reg_spm_cc_dcvs_dis : Z;
  reg_spm_core_ret_map : Z;
  reg_llm_freq_vote_hyst : Z;
  reg_llm_volt_vote_hyst : Z;
  reg_llm_intf_dcvs_dis : Z;
  reg_pdn_fsm_ctrl : Z;
  reg_cc_boost_timer : Z;
  reg_dcvs_boost_timer : Z;
  reg_ps_boost_timer : Z;
  boost_timer_reg_len : Z;
  reg_boost_sync_delay : Z;
  reg_droop_ctrl : Z;
  reg_droop_release_ctrl : Z;
  reg_droop_unstall_ctrl : Z;
  reg_droop_wait_release_ctrl : Z;
  reg_droop_timer_ctrl : Z;
  reg_droop_sync_delay : Z;
  reg_pll_override : Z;
  reg_cycle_counter : Z;
}.

(** The same offsets of [msm8998_soc_data.setup_regs]. *)
Definition msm8998_setup_tunables : qcom_cpufreq_soc_setup_tunables := {|
  reg_cc_zero_behav := 0x0c;
  reg_spm_cc_hyst := 0x1c;
  reg_spm_cc_dcvs_dis := 0x20;
  reg_spm_core_ret_map := 0x24;
  reg_llm_freq_vote_hyst := 0x2c;
  reg_llm_volt_vote_hyst := 0x30;
  reg_llm_intf_dcvs_dis := 0x34;
  reg_pdn_fsm_ctrl := 0x70;
  reg_cc_boost_timer := 0x74;
  reg_dcvs_boost_timer := 0x84;
  reg_ps_boost_timer := 0x94;
  boost_timer_reg_len := 0x4;
  reg_boost_sync_delay := 0xa0;
  reg_droop_ctrl := 0xa4;
  reg_droop_release_ctrl := 0xa8;
  reg_droop_unstall_ctrl := 0xac;
  reg_droop_wait_release_ctrl := 0xb0;
  reg_droop_timer_ctrl := 0xb8;
  reg_droop_sync_delay := 0xbc;
  reg_pll_override := 0xc0;
  reg_cycle_counter := 0xf00;
|}.

Section OsmSetup.
Context {D : Type} `{Platform D}.

(** [qcom_cpufreq_hw_boost_setup]: the three timer registers of one boost
    FSM, [len] bytes apart. *)
Definition qcom_cpufreq_hw_boost_setup (timer0_addr len : Z) : M D unit :=
  (* timer_reg0 *)
  let val := FIELD_PREP BOOST_TIMER_REG_LO PLL_WAIT_LOCK_TIME_NS in
  let val := Z.lor val (FIELD_PREP BOOST_TIMER_REG_HI SAFE_FREQ_WAIT_NS) in
  writel val timer0_addr ;;;
  (* timer_reg1 *)
  let val := FIELD_PREP BOOST_TIMER_REG_LO PLL_WAIT_LOCK_TIME_NS in
  let val := Z.lor val (FIELD_PREP BOOST_TIMER_REG_HI PLL_WAIT_LOCK_TIME_NS) in
  writel val (timer0_addr + len) ;;;
  (* timer_reg2 *)
  let val := FIELD_PREP BOOST_TIMER_REG_LO DEXT_DECREMENT_WAIT_NS in
  writel val (timer0_addr + 2 * len).

Variable drv_data : qcom_cpufreq_data.
Variable xo_rate : Z.
(** The rest of [&drv_data->soc_data->setup_regs]. *)
Variable setup_regs' : qcom_cpufreq_soc_setup_tunables.

(** [qcom_cpufreq_hw_osm_setup].  [osm_rsrc] and [acd_base] are the
    "osm-domainN" resource and the "osm-acdN" mapping of the instance
    [index]; [src] and [garbage] are as for [qcom_cpufreq_hw_write_lut]. *)
Definition qcom_cpufreq_hw_osm_setup (osm_rsrc acd_base : option Z)
    (src : genpd_source) (cpu_count : Z) (garbage : Z * Z * Z * Z) : M D unit :=
  let b := base drv_data in
  qcom_cpufreq_hw_write_lut drv_data xo_rate osm_rsrc src cpu_count garbage ;;;
  (* Set OSM to XO clock ratio and use XO edge for the cycle counter *)
  let val := FIELD_PREP CYCLE_COUNTER_CLK_RATIO OSM_XO_RATIO_VAL in
  let val := Z.lor val CYCLE_COUNTER_USE_XO_EDGE in
  (* Enable the CPU cycle counter *)
  let val := Z.lor val (BIT 0) in
  writel val (b + reg_cycle_counter setup_regs') ;;;
  (* CoreCount DCVS Policy: Wait time for frequency inc/decrement *)
  let val := FIELD_PREP HYSTERESIS_UP_MASK HYSTERESIS_CC_NS in
  let val := Z.lor val (FIELD_PREP HYSTERESIS_DN_MASK HYSTERESIS_CC_NS) in
  writel val (b + reg_spm_cc_hyst setup_regs') ;;;
  (* Set the frequency index 0 and override for cluster power collapse *)
  writel (BIT 0) (b + reg_cc_zero_behav setup_regs') ;;;
  (* Treat cores in retention as active *)
  writel 0 (b + reg_spm_core_ret_map setup_regs') ;;;
  (* Enable CoreCount based DCVS *)
  writel 0 (b + reg_spm_cc_dcvs_dis setup_regs') ;;;
  (* CoreCount DCVS-LLM Policy: Wait time for frequency inc/decrement *)
  let val := FIELD_PREP HYSTERESIS_UP_MASK HYSTERESIS_LLM_NS in
  let val := Z.lor val (FIELD_PREP HYSTERESIS_DN_MASK HYSTERESIS_LLM_NS) in
  writel val (b + reg_llm_freq_vote_hyst setup_regs') ;;;
  (* CoreCount DCVS-LLM Policy: Wait time for voltage inc/decrement *)
  let val := FIELD_PREP HYSTERESIS_UP_MASK HYSTERESIS_LLM_NS in
  let val := Z.lor val (FIELD_PREP HYSTERESIS_DN_MASK HYSTERESIS_LLM_NS) in
  writel val (b + reg_llm_volt_vote_hyst setup_regs') ;;;
  (* Enable LLM frequency+voltage voting *)
  writel 0 (b + reg_llm_intf_dcvs_dis setup_regs') ;;;
  (* Setup Boost FSM Timers *)
  qcom_cpufreq_hw_boost_setup (b + reg_cc_boost_timer setup_regs')
                              (boost_timer_reg_len setup_regs') ;;;
  qcom_cpufreq_hw_boost_setup (b + reg_dcvs_boost_timer setup_regs')
                              (boost_timer_reg_len setup_regs') ;;;
  qcom_cpufreq_hw_boost_setup (b + reg_ps_boost_timer setup_regs')
                              (boost_timer_reg_len setup_regs') ;;;
  (* PLL signal timing control for Boost *)
  writel BOOST_SYNC_DELAY (b + reg_boost_sync_delay setup_regs') ;;;
  (* Setup WFx and PC/RET droop unstall *)
  let val := FIELD_PREP DROOP_TIMER1 DROOP_TIMER_NS in
  let val := Z.lor val (FIELD_PREP DROOP_TIMER0 DROOP_TIMER_NS) in
  writel val (b + reg_droop_unstall_ctrl setup_regs') ;;;
  (* Setup WFx and PC/RET droop wait-to-release *)
  let val := FIELD_PREP DROOP_TIMER1 DROOP_WAIT_RELEASE_TIMER_NS in
  let val := Z.lor val (FIELD_PREP DROOP_TIMER0 DROOP_WAIT_RELEASE_TIMER_NS) in
  writel val (b + reg_droop_wait_release_ctrl setup_regs') ;;;
  (* PLL signal timing control for Droop *)
  writel 1 (b + reg_droop_sync_delay setup_regs') ;;;
  (* Setup DCVS timers *)
  writel DROOP_RELEASE_TIMER_NS (b + reg_droop_release_ctrl setup_regs') ;;;
  writel DROOP_TIMER_NS (b + reg_droop_timer_ctrl setup_regs') ;;;
  (* Setup Droop control *)
  let* val := readl (b + reg_droop_ctrl setup_regs') in
  let val := Z.lor val DROOP_CTRL_VAL in
  writel val (b + reg_droop_ctrl setup_regs') ;;;
  (* Enable CC-Boost, DCVS-Boost, PS-Boost, WFx, PC/RET, DCVS FSM *)
  let* val := readl (b + reg_pdn_fsm_ctrl setup_regs') in
  let val := Z.lor val (Z.lor (Z.lor CC_BOOST_EN PS_BOOST_EN) DCVS_BOOST_EN) in
  let val := Z.lor val (Z.lor (Z.lor WFX_DROOP_EN PC_RET_EXIT_DROOP_EN) DCVS_DROOP_EN) in
  writel val (b + reg_pdn_fsm_ctrl setup_regs') ;;;
  (* Enable PLL Droop Override *)
  let val := PLL_OVERRIDE_DROOP_EN in
  writel val (b + reg_pll_override setup_regs') ;;;
  (* Initialize the Adaptive Clock Distribution *)
  qcom_cpufreq_hw_acd_init drv_data acd_base ;;;
  (* We're ready: enable the OSM and give it time to boot (5uS) *)
  writel 1 (b + reg_enable (soc_data drv_data)) ;;;
  udelay OSM_BOOT_TIME_US.

(** The test of [qcom_cpufreq_hw_cpu_init] that follows the bring-up
    (source line 1547): "HW should be in enabled state to proceed". *)
Definition osm_hw_enabled : M D bool :=
  let* val := readl (base drv_data + reg_enable (soc_data drv_data)) in
  ret (negb (Z.land val 0x1 =? 0)).
End OsmSetup.

(** ** CPUs of a frequency domain: [qcom_get_related_cpus] *)

(** What the device tree holds for one possible CPU. *)
Record cpu_of_node := {
  cpu_id : Z;
  cpu_has_node : bool;          (* of_cpu_device_node_get(cpu) != NULL *)
  cpu_freq_domain : option Z;   (* args[0] of "qcom,freq-domain"; None: ret < 0 *)
}.

(** [for_each_possible_cpu(cpu)] over the mask [m] and the counter.  The
    domain number read from the device tree is a [u32], so the [int] index
    is compared as one. *)
Fixpoint related_cpus_loop (possible : list cpu_of_node) (index : Z)
    (m : gset Z) (count : Z) : gset Z * Z :=
  match possible with
  | [] => (m, count)
  | c :: rest =>
    if negb (cpu_has_node c) then related_cpus_loop rest index m count else
    match cpu_freq_domain c with
    | None => related_cpus_loop rest index m count
    | Some dom =>
      if u32 index =? u32 dom
      then related_cpus_loop rest index ({[ cpu_id c ]} ∪ m) (count + 1)
      else related_cpus_loop rest index m count
    end
  end.

(** [qcom_get_related_cpus]: the value returned and the mask left in [m]. *)
Definition qcom_get_related_cpus (possible : list cpu_of_node) (index : Z)
    (m : gset Z) : Z * gset Z :=
  let '(m', count) := related_cpus_loop possible index m 0 in
  (if 0 <? count then count else - EINVAL, m').

(** ** Probing: [qcom_cpufreq_hw_driver_probe] *)

Definition EPROBE_DEFER : Z := 517.

(** What the kernel answers to the probe.  A clock is its rate in Hz
    ([inl]) or the error of [clk_get] ([inr], the positive errno). *)
Record probe_env := {
  pe_cpu_dev : bool;                         (* get_cpu_device(0) != NULL *)
  pe_soc_data : option qcom_cpufreq_soc_data; (* of_device_get_match_data *)
  pe_scm_available : bool;                   (* qcom_scm_is_available *)
  pe_pd_node : bool;                         (* of_parse_phandle(.., "power-domains", 0) != NULL *)
  pe_pd_dev_bound : bool;                    (* pd_dev && pd_dev->dev.driver && device_is_bound *)
  pe_clk_xo : Z + Z;                         (* clk_get(.., "xo") *)
  pe_clk_alternate : Z + Z;                  (* clk_get(.., "alternate") *)
  pe_find_icc_paths : Z;                     (* dev_pm_opp_of_find_icc_paths *)
  pe_register_driver : Z;                    (* cpufreq_register_driver *)
}.

(** The value returned, the two globals as far as they were assigned, and
    whether the cpufreq driver was handed to [cpufreq_register_driver]. *)
Record probe_out := {
  po_ret : Z;
  po_xo_rate : option Z;
  po_cpu_hw_rate : option Z;
  po_register_called : bool;
}.

Definition probe_return (ret : Z) (xo hw_rate : option Z) : probe_out :=
  {| po_ret := ret; po_xo_rate := xo; po_cpu_hw_rate := hw_rate;
     po_register_called := false |}.

Definition qcom_cpufreq_hw_driver_probe (env : probe_env) : probe_out :=
  if negb (pe_cpu_dev env) then probe_return (- EPROBE_DEFER) None None else
  match pe_soc_data env with
  | None => probe_return (- EINVAL) None None
  | Some soc_data =>
    let pd_ret :=
      if negb (uses_tz soc_data) then
        (* When the OSM is not pre-programmed from TZ, we will need to
           program the sequencer through SCM calls. *)
        if negb (pe_scm_available env) then Some (- EPROBE_DEFER)
        (* pd_node is NULL here: ret = PTR_ERR(pd_node) is 0 *)
        else if negb (pe_pd_node env) then Some 0
        else if negb (pe_pd_dev_bound env) then Some (- EPROBE_DEFER)
        else None
      else None in
    match pd_ret with
    | Some ret => probe_return ret None None
    | None =>
      match pe_clk_xo env with
      | inr e => probe_return (- e) None None
      | inl xo =>
        match pe_clk_alternate env with
        | inr e => probe_return (- e) (Some xo) None
        | inl alt =>
          let clk_div := clk_hw_div soc_data in
          let clk_div := if clk_div =? 0 then clk_div + 1 else clk_div in
          let cpu_hw_rate := alt / clk_div in
          (* Check for optional interconnect paths on CPU0 *)
          if negb (pe_find_icc_paths env =? 0)
          then probe_return (pe_find_icc_paths env) (Some xo) (Some cpu_hw_rate)
          else {| po_ret := pe_register_driver env; po_xo_rate := Some xo;
                  po_cpu_hw_rate := Some cpu_hw_rate; po_register_called := true |}
        end
      end
    end
  end.

(** ** LMh interrupt set-up and tear-down *)

Definition ENXIO : Z := 6.

(** What the two functions do to the interrupt line, the lock and the
    polling work, in program order. *)
Inductive lmh_action : Type :=
| LmhMutexInit
| LmhInitDeferrableWork
| LmhRequestThreadedIrq (irq : Z)
| LmhSetAffinityHint (irq : Z) (cpus : list Z)
| LmhMutexLock
| LmhMutexUnlock
| LmhCancelDelayedWorkSync
| LmhFreeIrq (irq : Z).

Definition with_throttle_irq (irq : Z) (data : qcom_cpufreq_data) : qcom_cpufreq_data :=
  {| base := base data; soc_data := soc_data data;
     throttle_irq := irq; cancel_throttle := cancel_throttle data |}.

Definition with_cancel_throttle (c : bool) (data : qcom_cpufreq_data) : qcom_cpufreq_data :=
  {| base := base data; soc_data := soc_data data;
     throttle_irq := throttle_irq data; cancel_throttle := c |}.

(** [qcom_cpufreq_hw_lmh_init]: the value returned, the driver data as
    left, and the actions.  [get_irq] is what platform_get_irq_optional
    returns and [request_ret] what request_threaded_irq does; the status of
    irq_set_affinity_hint is only logged.  The back pointer [data->policy]
    is the policy argument of the notifier. *)
Definition qcom_cpufreq_hw_lmh_init (policy : cpufreq_policy)
    (get_irq request_ret : Z)
  : Z * qcom_cpufreq_data * list lmh_action :=
  let data := with_throttle_irq get_irq (driver_data policy) in
  (* Look for LMh interrupt. *)
  if throttle_irq data =? - ENXIO then (0, data, []) else
  if throttle_irq data <? 0 then (throttle_irq data, data, []) else
  let data := with_cancel_throttle false data in
  let acts := [LmhMutexInit; LmhInitDeferrableWork;
               LmhRequestThreadedIrq (throttle_irq data)] in
  if negb (request_ret =? 0) then (0, data, acts) else
  (0, data, acts ++ [LmhSetAffinityHint (throttle_irq data) (cpus policy)]).

(** [qcom_cpufreq_hw_lmh_exit]. *)
Definition qcom_cpufreq_hw_lmh_exit (data : qcom_cpufreq_data)
  : qcom_cpufreq_data * list lmh_action :=
  if throttle_irq data <=? 0 then (data, []) else
  (with_cancel_throttle true data,
   [LmhMutexLock; LmhMutexUnlock; LmhCancelDelayedWorkSync;
    LmhFreeIrq (throttle_irq data)]).

(** * Specification vocabulary *)

(** ** The MEM-ACC scan *)

(** The spare value the programming loop sees at slot [i]. *)
Definition slot_spare (tbl : list qcom_cpufreq_hw_params) (num i : Z) : Z :=
  spare_val (lut_entry tbl num i).

(** What the loop has recorded once the slots below [i] are done: nothing
    (no slot above level 1), the first crossover [j], or both crossovers
    [j] and [k], each the first slot whose spare value exceeds the
    previous level. *)
Definition scan_inv (tbl : list qcom_cpufreq_hw_params) (num : Z)
    (g : Z * Z * Z * Z) (i : Z) (s : lut_loop) : Prop :=
  (acc_idx s = 0 /\ last_spare s = 1 /\
   (forall m, 0 <= m < i -> slot_spare tbl num m <= 1) /\
   s = lut_loop_init g)
  \/ (exists j g2 g3,
        acc_idx s = 2 /\ acc_val s = [j - 1; j; g2; g3] /\
        0 <= j < i /\ last_spare s = slot_spare tbl num j /\
        1 < slot_spare tbl num j /\
        (forall m, 0 <= m < j -> slot_spare tbl num m <= 1) /\
        (forall m, j < m < i -> slot_spare tbl num m <= slot_spare tbl num j))
  \/ (exists j k,
        acc_idx s = 4 /\ acc_val s = [j - 1; j; k - 1; k] /\
        0 <= j < k /\ k < i /\
        1 < slot_spare tbl num j < slot_spare tbl num k /\
        (forall m, 0 <= m < j -> slot_spare tbl num m <= 1) /\
        (forall m, j < m < k -> slot_spare tbl num m <= slot_spare tbl num j)).

(** The data-model invariant of the generated rows: at least two rows,
    corner 0 at spare value 1, spare values non-decreasing with the corner,
    and two level transitions among the rows the LUT can hold. *)
Definition valid_row_table (out : gen_out) : Prop :=
  2 <= num_entries out <= Z.of_nat (length (hw_tbl out)) /\
  spare_val (hw_tbl out !!! 0%nat) = 1 /\
  (forall i j, 0 <= i <= j -> j < num_entries out ->
     spare_val (hw_tbl out !!! Z.to_nat i) <= spare_val (hw_tbl out !!! Z.to_nat j)) /\
  (exists i j, 0 <= i < j /\ j < num_entries out /\ j < LUT_MAX_ENTRIES /\
     1 < spare_val (hw_tbl out !!! Z.to_nat i) < spare_val (hw_tbl out !!! Z.to_nat j)).

(** Four indices, non-negative and strictly ascending. *)
Definition mem_acc_strictly_ordered (acc : list Z) : Prop :=
  exists a0 a1 a2 a3,
    acc = [a0; a1; a2; a3] /\ 0 <= a0 /\ a0 < a1 /\ a1 < a2 /\ a2 < a3.

(** ** Traces *)

(** [m] leaves the trace it finds in place and appends to it. *)
Definition extends {D A} (m : M D A) : Prop :=
  forall w, exists t, trace (snd (m w)) = trace w ++ t.

(** Whenever [m] returns normally it has appended exactly [t]. *)
Definition emits {D A} (m : M D A) (t : list event) : Prop :=
  forall w a, fst (m w) = Ok a -> trace (snd (m w)) = trace w ++ t.

(** The last [n] events of a trace. *)
Definition trace_tail (n : nat) (tr : list event) : list event :=
  drop (length tr - n) tr.

(** The register writes of LUT slot [i], in program order. *)
Definition lut_row_events (ddata : qcom_cpufreq_data) (i : Z)
    (entry : qcom_cpufreq_hw_params) : list event :=
  let pos := i * lut_row_size (soc_data ddata) in
  [ EvWritel (u32 i) (base ddata + reg_index (soc_data ddata) + pos);
    EvWritel (u32 (volt_lut_val entry)) (base ddata + reg_volt_lut (soc_data ddata) + pos);
    EvWritel (u32 (freq_lut_val entry)) (base ddata + reg_freq_lut (soc_data ddata) + pos);
    EvWritel (u32 (override_val entry))
             (base ddata + reg_override (setup_regs (soc_data ddata)) + pos);
    EvWritel (u32 (spare_val entry))
             (base ddata + reg_spare (setup_regs (soc_data ddata)) + pos) ].

Fixpoint lut_events (ddata : qcom_cpufreq_data) (n : nat) (i : Z)
    (tbl : list qcom_cpufreq_hw_params) (num : Z) : list event :=
  match n with
  | O => []
  | S n' => lut_row_events ddata i (lut_entry tbl num i)
            ++ lut_events ddata n' (i + 1) tbl num
  end.

(** The events of a complete LUT programming, for the generated table
    [out] and the four MEM-ACC values [acc] sent to the sequencer at
    [seq_addr]. *)
Definition write_lut_events (ddata : qcom_cpufreq_data) (seq_addr : Z)
    (out : gen_out) (acc : list Z) : list event :=
  let scm n val := EvScmIoWritel (u32 (SEQUENCER_REG seq_addr n)) (u32 val) in
  let memacc n val := EvScmIoWritel (u32 (SEQ_MEMACC_REG seq_addr n)) (u32 val) in
  let apm := apm_threshold_vc (apm_vc out) in
  lut_events ddata (Z.to_nat LUT_MAX_ENTRIES) 0 (hw_tbl out) (num_entries out)
  ++ (if mem_acc_is_custom (acc_vc out)
      then [scm SEQ_MEM_ACC_CROSSOVER_VC (num_entries out + 1)] else [])
  ++ [ memacc 0 (acc !!! 0%nat); memacc 1 (acc !!! 1%nat);
       memacc 2 (acc !!! 2%nat); memacc 3 (acc !!! 3%nat) ]
  ++ [ scm SEQ_MEM_ACC_LVAL
           (FIELD_GET LUT_L_VAL
                      (freq_lut_val (hw_tbl out !!! Z.to_nat (acc !!! 3%nat))));
       EvWritel (u32 (num_entries out))
                (base ddata + reg_seq1 (setup_regs (soc_data ddata)));
       scm SEQ_APM_CROSSOVER_VC (num_entries out);
       scm SEQ_APM_THRESH_VC apm;
       scm SEQ_APM_THRESH_PREVC (apm - 1);
       scm SEQ_APM_PARAM (Z.lor 0x39 (Z.shiftl apm 6)) ].

(** The events of an auto-transfer of [val]: the mask to the config
    register, the start bit cleared then set, the status poll on bit 0
    every 1 us for up to 3 us. *)
Definition autoxfer_events (aregs : qcom_cpufreq_soc_acd_data) (acd_base val : Z)
  : list event :=
  [ EvWritel (u32 val) (acd_base + auto_xfer_cfg_reg aregs);
    EvWritel 0 (acd_base + auto_xfer_reg aregs);
    EvWritel 1 (acd_base + auto_xfer_reg aregs);
    EvPoll (acd_base + auto_xfer_sts_reg aregs) (BIT 0) 1 3 ].

(** The events of a manual transfer of [val] to the sub-register [reg]. *)
Definition xfer_events (aregs : qcom_cpufreq_soc_acd_data) (acd_base reg val : Z)
  : list event :=
  [ EvWritel (u32 val) (acd_base + reg);
    EvWritel 0 (acd_base + write_ctl_reg aregs);
    EvWritel (u32 (Z.lor (u32 (Z.shiftl (reg / 4) ACD_WRITE_CTL_SELECT_SHIFT))
                         ACD_WRITE_CTL_UPDATE_EN))
             (acd_base + write_ctl_reg aregs);
    EvPoll (acd_base + write_sts_reg aregs) (qcom_cpufreq_acd_regbit reg) 1 3 ].

(** The mask of the four registers programmed first. *)
Definition acd_rmask (aregs : qcom_cpufreq_soc_acd_data) : Z :=
  Z.lor (Z.lor (Z.lor (qcom_cpufreq_acd_regbit (acd_ctrl_reg aregs))
                      (qcom_cpufreq_acd_regbit (tl_delay_reg aregs)))
               (qcom_cpufreq_acd_regbit (softstart_reg aregs)))
        (qcom_cpufreq_acd_regbit (ext_intf_reg aregs)).

(** The events of a complete ACD initialization. *)
Definition acd_init_events (aregs : qcom_cpufreq_soc_acd_data) (acd_base : Z)
  : list event :=
  [ EvWritel (u32 (tl_delay_val aregs)) (acd_base + tl_delay_reg aregs);
    EvWritel (u32 (acd_ctrl_val aregs)) (acd_base + acd_ctrl_reg aregs);
    EvWritel (u32 (softstart_val aregs)) (acd_base + softstart_reg aregs);
    EvWritel (u32 (ext_intf0_val aregs)) (acd_base + ext_intf_reg aregs);
    EvWritel (u32 (auto_xfer_val aregs)) (acd_base + auto_xfer_ctl_reg aregs) ]
  ++ autoxfer_events aregs acd_base (acd_rmask aregs)
  ++ xfer_events aregs acd_base (gfmux_cfg_reg aregs) 1
  ++ xfer_events aregs acd_base (dcvs_sw_reg aregs) 1
  ++ xfer_events aregs acd_base (dcvs_sw_reg aregs) 0
  ++ [ EvUdelay 1 ]
  ++ xfer_events aregs acd_base (ext_intf_reg aregs) (ext_intf1_val aregs)
  ++ [ EvWritel (u32 (Z.lor (acd_rmask aregs)
                            (qcom_cpufreq_acd_regbit (gfmux_cfg_reg aregs))))
                (acd_base + auto_xfer_cfg_reg aregs);
       EvUdelay OSM_BOOT_TIME_US ].

(** ** Frequency tables *)

(** The number of rows before the [CPUFREQ_TABLE_END] marker. *)
Fixpoint entry_count (table : list cpufreq_frequency_table) : Z :=
  match table with
  | [] => 0
  | row :: rest =>
    if frequency row =? CPUFREQ_TABLE_END then 0 else 1 + entry_count rest
  end.

(** The shape [qcom_cpufreq_hw_read_lut] gives the resolved table:
    [LUT_MAX_ENTRIES + 1] rows, the end marker among them. *)
Definition resolved_table (table : list cpufreq_frequency_table) : Prop :=
  Z.of_nat (length table) = LUT_MAX_ENTRIES + 1 /\
  entry_count table <= LUT_MAX_ENTRIES.

(** The frequency [qcom_cpufreq_hw_get] reports for [cpu] on hardware
    state [d]: what the policy has requested, unless the hardware changed
    the register. *)
Definition requested_freq {D} `{Platform D} (registry : gmap Z cpufreq_policy)
    (cpu : Z) (d : D) : result Z :=
  fst (qcom_cpufreq_hw_get registry cpu {| hw := d; trace := [] |}).

(** ** Throttle states *)

Inductive throttle_mode : Type := IrqArmed | Polling | Cancelled.

(** The state a poll leaves the notifier in, read off what it did under
    the lock: stopped on cancellation, interrupt re-enabled, or another
    poll scheduled. *)
Definition mode_after_poll (data : qcom_cpufreq_data) (locked : list event)
  : throttle_mode :=
  if cancel_throttle data then Cancelled
  else if bool_decide (EvEnableIrq (throttle_irq data) ∈ locked) then IrqArmed
  else Polling.

(** ** Concrete platforms and tables *)

(** A register file: every register reads back what was last written to it
    (0 if never written), firmware calls and votes succeed. *)
Global Instance regfile_platform : Platform (gmap Z Z) := {|
  hw_readl addr d := (default 0 (d !! addr), d);
  hw_writel val addr d := <[addr := val]> d;
  hw_scm_io_writel addr val d := (0, d);
  hw_udelay us d := d;
  hw_get_cpu_device cpu d := true;
  hw_opp_rates cpu d := None;
  hw_opp_call c d := (0, d);
|}.

(** A device that is always ready: every register reads all-ones. *)
Global Instance ready_platform : Platform unit := {|
  hw_readl addr d := (2 ^ 32 - 1, d);
  hw_writel val addr d := d;
  hw_scm_io_writel addr val d := (0, d);
  hw_udelay us d := d;
  hw_get_cpu_device cpu d := true;
  hw_opp_rates cpu d := None;
  hw_opp_call c d := (0, d);
|}.

(** A register file behind an OPP framework that knows the rates of the
    CPUs and refuses every call with [-EINVAL]; [refused] counts them. *)
Record refusing := { regs : gmap Z Z; refused : Z }.

Global Instance refusing_platform : Platform refusing := {|
  hw_readl addr d := (default 0 (regs d !! addr), d);
  hw_writel val addr d := {| regs := <[addr := val]> (regs d); refused := refused d |};
  hw_scm_io_writel addr val d := (0, d);
  hw_udelay us d := d;
  hw_get_cpu_device cpu d := true;
  hw_opp_rates cpu d := Some [300000000; 600000000; 900000000];
  hw_opp_call c d := (- EINVAL, {| regs := regs d; refused := refused d + 1 |});
|}.

Definition boot_world : world (gmap Z Z) := {| hw := ∅; trace := [] |}.

Definition mk_opp (rate uV spare : Z) : opp_entry :=
  {| opp_rate := rate; opp_voltage := uV; opp_has_node := true;
     opp_pll_override := Some 0x4000; opp_spare_data := Some spare;
     opp_pll_div := None |}.

(** Three operating points at 500/600/700 mV on MEM-ACC levels 1, 2, 3,
    APM threshold 750 mV, no MEM-ACC threshold. *)
Definition three_levels_src : genpd_source :=
  {| attach_ret := 0; genpd_vdev_ok := true;
     cpr_data := Some {| apm_threshold_uV := 750000; mem_acc_threshold_uV := 0 |};
     gpd_opp_cnt := 3;
     opps := [mk_opp 300000000 500000 1; mk_opp 600000000 600000 2;
              mk_opp 900000000 700000 3] |}.

Definition three_levels_out : gen_out :=
  {| hw_tbl :=
       [{| volt_lut_val := 500; freq_lut_val := 262159;
           override_val := 16384; spare_val := 1 |};
        {| volt_lut_val := 66136; freq_lut_val := 67371039;
           override_val := 16384; spare_val := 2 |};
        {| volt_lut_val := 131772; freq_lut_val := 67371054;
           override_val := 16384; spare_val := 3 |}];
     apm_vc := -1; acc_vc := U8_MAX; num_entries := 3 |}.

(** Five operating points at 500..900 mV on MEM-ACC levels 1, 2, 2, 2, 3,
    APM threshold 750 mV, MEM-ACC threshold 800 mV (reached at corner 3). *)
Definition custom_acc_src : genpd_source :=
  {| attach_ret := 0; genpd_vdev_ok := true;
     cpr_data := Some {| apm_threshold_uV := 750000; mem_acc_threshold_uV := 800000 |};
     gpd_opp_cnt := 5;
     opps := [mk_opp 300000000 500000 1; mk_opp 600000000 600000 2;
              mk_opp 900000000 700000 2; mk_opp 1200000000 800000 2;
              mk_opp 1500000000 900000 3] |}.

Definition custom_acc_out : gen_out :=
  {| hw_tbl :=
       [{| volt_lut_val := 500; freq_lut_val := 262159;
           override_val := 16384; spare_val := 1 |};
        {| volt_lut_val := 66136; freq_lut_val := 67371039;
           override_val := 16384; spare_val := 2 |};
        {| volt_lut_val := 131772; freq_lut_val := 67371054;
           override_val := 16384; spare_val := 2 |};
        {| volt_lut_val := 197408; freq_lut_val := 67371070;
           override_val := 16384; spare_val := 2 |};
        {| volt_lut_val := 263044; freq_lut_val := 67371086;
           override_val := 16384; spare_val := 3 |}];
     apm_vc := 3; acc_vc := 3; num_entries := 5 |}.

Definition msm8998_data : qcom_cpufreq_data :=
  {| base := 0x17900000; soc_data := msm8998_soc_data;
     throttle_irq := 33; cancel_throttle := false |}.

(** The physical start of the "osm-domain0" resource and the mapping of
    "osm-acd0" used in the examples. *)
Definition osm_domain0 : Z := 0x179c0000.
Definition osm_acd0 : Z := 0x179f0000.

(** A resolved table of three frequencies (kHz), and its policy on CPU 0. *)
Definition demo_table : list cpufreq_frequency_table :=
  [ {| flags := 0; frequency := 300000 |};
    {| flags := 0; frequency := 600000 |};
    {| flags := 0; frequency := 900000 |};
    {| flags := 0; frequency := CPUFREQ_TABLE_END |} ]
  ++ replicate 37 {| flags := 0; frequency := 0 |}.

Definition demo_policy : cpufreq_policy :=
  {| cpu := 0; cpus := [0; 1; 2; 3]; related_cpus := [0; 1; 2; 3];
     driver_data := msm8998_data; freq_table := demo_table;
     cached_resolved_idx := 0 |}.

Definition demo_registry : gmap Z cpufreq_policy := {[ 0 := demo_policy ]}.

(** A throttled domain on the sdm845 register map: CPU 0 has requested row
    2 (900 MHz) and the hardware votes [vote] * 19.2 MHz. *)
Definition sdm845_data (cancel : bool) : qcom_cpufreq_data :=
  {| base := 0x17d43000; soc_data := qcom_soc_data;
     throttle_irq := 33; cancel_throttle := cancel |}.

Definition sdm845_policy (cancel : bool) : cpufreq_policy :=
  {| cpu := 0; cpus := [0; 1; 2; 3]; related_cpus := [0; 1; 2; 3];
     driver_data := sdm845_data cancel; freq_table := demo_table;
     cached_resolved_idx := 0 |}.

Definition sdm845_registry (cancel : bool) : gmap Z cpufreq_policy :=
  {[ 0 := sdm845_policy cancel ]}.

Definition throttled_world (vote : Z) : world (gmap Z Z) :=
  {| hw := {[ 0x17d43000 + 0x920 := 2; 0x17d43000 + 0x704 := vote ]}; trace := [] |}.

(** ** The operating points behind a generated table *)

(** The first [n] operating points met from [rate] upwards, each found by
    dev_pm_opp_find_freq_ceil just above the previous one: the walk of the
    loop of [qcom_cpufreq_gen_params], which starts at 1000 Hz. *)
Fixpoint opp_walk (n : nat) (tbl : list opp_entry) (rate : Z) : list opp_entry :=
  match n with
  | O => []
  | S n' =>
    match dev_pm_opp_find_freq_ceil tbl rate with
    | None => []
    | Some o => o :: opp_walk n' tbl (opp_rate o + 1)
    end
  end.

(** The operating points a generation with [gpd_opp_cnt] rows visits. *)
Definition visited_opps (src : genpd_source) : list opp_entry :=
  opp_walk (Z.to_nat (gpd_opp_cnt src)) (opps src) 1000.

(** The voltage of an operating point as the generator holds it, in
    microvolts and in millivolts. *)
Definition opp_uV (o : opp_entry) : Z := u32 (opp_voltage o).
Definition opp_mV (o : opp_entry) : Z := u32 (opp_voltage o) / 1000.

(** The rows generated for the operating points [vis], the first of them
    at corner [i]. *)
Fixpoint gen_rows (soc : qcom_cpufreq_soc_data) (xo_rate cpu_count : Z) (i : Z)
    (vis : list opp_entry) : list qcom_cpufreq_hw_params :=
  match vis with
  | [] => []
  | o :: rest =>
    gen_entry soc xo_rate cpu_count i (opp_rate o) o
              (default 0 (opp_pll_override o)) (opp_mV o)
    :: gen_rows soc xo_rate cpu_count (i + 1) rest
  end.

(** What the generator accepts of an operating point. *)
Definition opp_accepted (o : opp_entry) : Prop :=
  opp_has_node o = true /\ is_Some (opp_pll_override o) /\ 150 <= opp_mV o <= 1400.

(** [k] is the first corner of [vis] whose voltage reaches [thr]. *)
Definition first_crossing (thr : Z) (vis : list opp_entry) (k : nat) : Prop :=
  (exists o, vis !! k = Some o /\ thr <= opp_uV o) /\
  (forall j o, (j < k)%nat -> vis !! j = Some o -> opp_uV o < thr).

(** A threshold corner after the operating points [vis], the first at
    corner [i]: a corner already found stays, otherwise the first crossing. *)
Definition corner_after (thr i cur : Z) (vis : list opp_entry) : Z :=
  if cur <? 0 then
    match list_find (fun o => thr <= opp_uV o) vis with
    | Some (k, _) => i + Z.of_nat k
    | None => cur
    end
  else cur.

(** ** Runs that cannot fault *)

(** [m] never leaves the bounds of an array. *)
Definition no_fault {D A} (m : M D A) : Prop :=
  forall w, fst (m w) <> Fault.

(** A register file behind a firmware that refuses every sequencer write
    with [-EPERM]. *)
Record locked_firmware := { lf_regs : gmap Z Z }.

Global Instance locked_firmware_platform : Platform locked_firmware := {|
  hw_readl addr d := (default 0 (lf_regs d !! addr), d);
  hw_writel val addr d := {| lf_regs := <[addr := val]> (lf_regs d) |};
  hw_scm_io_writel addr val d := (-1, d);
  hw_udelay us d := d;
  hw_get_cpu_device cpu d := true;
  hw_opp_rates cpu d := None;
  hw_opp_call c d := (0, d);
|}.

(** No operating point at all, and two operating points on the same
    MEM-ACC level. *)
Definition no_opp_src : genpd_source :=
  {| attach_ret := 0; genpd_vdev_ok := true;
     cpr_data := Some {| apm_threshold_uV := 750000; mem_acc_threshold_uV := 0 |};
     gpd_opp_cnt := 0; opps := [] |}.

Definition flat_spare_src : genpd_source :=
  {| attach_ret := 0; genpd_vdev_ok := true;
     cpr_data := Some {| apm_threshold_uV := 750000; mem_acc_threshold_uV := 0 |};
     gpd_opp_cnt := 2;
     opps := [mk_opp 300000000 500000 1; mk_opp 600000000 600000 1] |}.

(** [m] returns normally or with the error [e], nothing else. *)
Definition fails_only_with {D A} (e : Z) (m : M D A) : Prop :=
  forall w, (exists a, fst (m w) = Ok a) \/ fst (m w) = Err e.

(** ** An OPP framework with a table *)

(** A register file behind an OPP framework that knows three rates for
    every CPU and accepts every call. *)
Record with_opps := { wo_regs : gmap Z Z }.

Global Instance with_opps_platform : Platform with_opps := {|
  hw_readl addr d := (default 0 (wo_regs d !! addr), d);
  hw_writel val addr d := {| wo_regs := <[addr := val]> (wo_regs d) |};
  hw_scm_io_writel addr val d := (0, d);
  hw_udelay us d := d;
  hw_get_cpu_device cpu d := true;
  hw_opp_rates cpu d := Some [300000000; 600000000; 900000000];
  hw_opp_call c d := (0, d);
|}.

(** ** CPUs of a frequency domain *)

(** Whether the device tree puts the CPU in the frequency domain [index]. *)
Definition in_freq_domain (index : Z) (c : cpu_of_node) : bool :=
  cpu_has_node c &&
  match cpu_freq_domain c with
  | Some dom => u32 index =? u32 dom
  | None => false
  end.

(** Eight CPUs in two clusters, as on msm8998: CPUs 0-3 in domain 0 and
    CPUs 4-7 in domain 1; CPU 5 has no device-tree node. *)
Definition octa_core : list cpu_of_node :=
  [ {| cpu_id := 0; cpu_has_node := true; cpu_freq_domain := Some 0 |};
    {| cpu_id := 1; cpu_has_node := true; cpu_freq_domain := Some 0 |};
    {| cpu_id := 2; cpu_has_node := true; cpu_freq_domain := Some 0 |};
    {| cpu_id := 3; cpu_has_node := true; cpu_freq_domain := Some 0 |};
    {| cpu_id := 4; cpu_has_node := true; cpu_freq_domain := Some 1 |};
    {| cpu_id := 5; cpu_has_node := false; cpu_freq_domain := Some 1 |};
    {| cpu_id := 6; cpu_has_node := true; cpu_freq_domain := Some 1 |};
    {| cpu_id := 7; cpu_has_node := true; cpu_freq_domain := Some 1 |} ].

(** ** Probing *)

(** A probe environment in which everything is in place. *)
Definition ready_probe_env (soc : qcom_cpufreq_soc_data) : probe_env :=
  {| pe_cpu_dev := true; pe_soc_data := Some soc; pe_scm_available := true;
     pe_pd_node := true; pe_pd_dev_bound := true;
     pe_clk_xo := inl 19200000; pe_clk_alternate := inl 300000000;
     pe_find_icc_paths := 0; pe_register_driver := 0 |}.

(** The same with the "power-domains" property missing from the CPU node. *)
Definition no_power_domain_env (soc : qcom_cpufreq_soc_data) : probe_env :=
  {| pe_cpu_dev := true; pe_soc_data := Some soc; pe_scm_available := true;
     pe_pd_node := false; pe_pd_dev_bound := false;
     pe_clk_xo := inl 19200000; pe_clk_alternate := inl 300000000;
     pe_find_icc_paths := 0; pe_register_driver := 0 |}.

(** ** OSM bring-up *)

(** The three timer writes of one boost FSM. *)
Definition boost_timer_events (timer0_addr len : Z) : list event :=
  [ EvWritel 0x03e807d0 timer0_addr;
    EvWritel 0x07d007d0 (timer0_addr + len);
    EvWritel 0xc8 (timer0_addr + 2 * len) ].

(** The register writes between LUT programming and ACD initialization,
    in program order; [droop] and [fsm] are the values read from the droop
    control and the FSM control registers. *)
Definition osm_tunable_events (b : Z) (t : qcom_cpufreq_soc_setup_tunables)
    (droop fsm : Z) : list event :=
  [ EvWritel 0x113 (b + reg_cycle_counter t);
    EvWritel 0x00c800c8 (b + reg_spm_cc_hyst t);
    EvWritel 1 (b + reg_cc_zero_behav t);
    EvWritel 0 (b + reg_spm_core_ret_map t);
    EvWritel 0 (b + reg_spm_cc_dcvs_dis t);
    EvWritel 0xffffffff (b + reg_llm_freq_vote_hyst t);
    EvWritel 0xffffffff (b + reg_llm_volt_vote_hyst t);
    EvWritel 0 (b + reg_llm_intf_dcvs_dis t) ]
  ++ boost_timer_events (b + reg_cc_boost_timer t) (boost_timer_reg_len t)
  ++ boost_timer_events (b + reg_dcvs_boost_timer t) (boost_timer_reg_len t)
  ++ boost_timer_events (b + reg_ps_boost_timer t) (boost_timer_reg_len t)
  ++ [ EvWritel 5 (b + reg_boost_sync_delay t);
       EvWritel 0x00640064 (b + reg_droop_unstall_ctrl t);
       EvWritel 0x00320032 (b + reg_droop_wait_release_ctrl t);
       EvWritel 1 (b + reg_droop_sync_delay t);
       EvWritel 1 (b + reg_droop_release_ctrl t);
       EvWritel 100 (b + reg_droop_timer_ctrl t);
       EvWritel (u32 (Z.lor droop 0x80020008)) (b + reg_droop_ctrl t);
       EvWritel (u32 (Z.lor fsm 0x3f)) (b + reg_pdn_fsm_ctrl t);
       EvWritel 1 (b + reg_pll_override t) ].


(** [e] is a write to the register at [addr]. *)
Definition writes_to (addr : Z) (e : event) : Prop :=
  match e with
  | EvWritel _ a => a = addr
  | _ => False
  end.

(** Every event [m] appends satisfies [P]. *)
Definition confined {D A} (P : event -> Prop) (m : M D A) : Prop :=
  forall w, exists t, trace (snd (m w)) = trace w ++ t /\ Forall P t.

(** Every event [m] appends satisfies [P], unless [m] returns normally. *)
Definition confined_unless_ok {D A} (P : event -> Prop) (m : M D A) : Prop :=
  forall w, exists t, trace (snd (m w)) = trace w ++ t /\
                      ((exists a, fst (m w) = Ok a) \/ Forall P t).

(** ** Frequency words of the LUT *)

(** The clock source and the frequency in kHz that
    [qcom_cpufreq_hw_read_lut] derives from a frequency word of the LUT. *)
Definition lut_src (soc : qcom_cpufreq_soc_data) (data : Z) : Z :=
  Z.shiftr (Z.land data (reg_freq_lut_src_mask soc))
           (ffs (reg_freq_lut_src_mask soc) - 1).

Definition lut_freq_khz (soc : qcom_cpufreq_soc_data) (xo_rate cpu_hw_rate data : Z) : Z :=
  if lut_src soc data =? 0 then u32 (cpu_hw_rate / 1000)
  else u32 (xo_rate * FIELD_GET LUT_L_VAL data / 1000).

(** ** The walk that disables the operating points *)

(** The rates at which the loop [for (rate = 0; ; rate++)] of
    [qcom_cpufreq_hw_read_lut] stops, in the order it meets them:
    dev_pm_opp_find_freq_ceil from [rate], then from one above what it
    found. *)
Fixpoint rate_walk (fuel : nat) (rates : list Z) (rate : Z) : list Z :=
  match fuel with
  | O => []
  | S fuel' =>
    match opp_find_freq_ceil rates rate with
    | None => []
    | Some r => r :: rate_walk fuel' rates (r + 1)
    end
  end.

(** ** Register files *)

(** The driver data of an msm8998 frequency domain mapped at [b]. *)
Definition msm8998_domain (b irq : Z) (c : bool) : qcom_cpufreq_data :=
  {| base := b; soc_data := msm8998_soc_data; throttle_irq := irq; cancel_throttle := c |}.

(** On a register file, [m] leaves the register at [a] as it finds it. *)
Definition keeps {A} (a : Z) (m : M (gmap Z Z) A) : Prop :=
  forall w, hw (snd (m w)) !! a = hw w !! a.

(** * Properties *)

(** ** Runs and traces *)

Section TraceFacts.
Context {D : Type} `{Platform D}.

Lemma extends_ret {A} (a : A) : extends (ret a : M D A).
Proof. intros w. exists []. cbn. now rewrite app_nil_r. Qed.

Lemma extends_throw {A} e : extends (@throw D A e).
Proof. intros w. exists []. cbn. now rewrite app_nil_r. Qed.

Lemma extends_fault {A} : extends (@fault D A).
Proof. intros w. exists []. cbn. now rewrite app_nil_r. Qed.

Lemma extends_lift_result {A} (r : result A) : extends (lift_result r : M D A).
Proof. intros w. exists []. cbn. now rewrite app_nil_r. Qed.

Lemma extends_log e : extends (log e : M D unit).
Proof. intros w. exists [e]. reflexivity. Qed.

Lemma extends_with_hw {A} (f : D -> A * D) : extends (with_hw f).
Proof.
  intros w. exists []. unfold with_hw. destruct (f (hw w)). cbn.
  now rewrite app_nil_r.
Qed.

Lemma extends_bind {A B} (m : M D A) (k : A -> M D B) :
  extends m -> (forall a, extends (k a)) -> extends (bind m k).
Proof.
  intros Hm Hk w. unfold bind. destruct (Hm w) as [t Ht].
  destruct (m w) as [[a | e |] w']; cbn in *.
  - destruct (Hk a w') as [t' Ht']. exists (t ++ t').
    now rewrite Ht', Ht, app_assoc.
  - now exists t.
  - now exists t.
Qed.

Lemma extends_ignore_ret {A} (m : M D A) : extends m -> extends (ignore_ret m).
Proof.
  intros Hm w. unfold ignore_ret. destruct (Hm w) as [t Ht].
  destruct (m w) as [[a | e |] w']; cbn in *; now exists t.
Qed.

Lemma extends_if {A} (b : bool) (m1 m2 : M D A) :
  extends m1 -> extends m2 -> extends (if b then m1 else m2).
Proof. now destruct b. Qed.
End TraceFacts.

Ltac solve_extends :=
  repeat first
    [ apply extends_ret | apply extends_throw | apply extends_fault
    | apply extends_lift_result | apply extends_log | apply extends_with_hw
    | apply extends_ignore_ret | apply extends_if
    | apply extends_bind; [| intros ?]
    | match goal with |- extends (match ?x with _ => _ end) => destruct x end ].

Section PrimitiveFacts.
Context {D : Type} `{Platform D}.

Lemma writel_run val addr (w : world D) :
  writel val addr w =
  (Ok tt, {| hw := hw_writel (u32 val) addr (hw w);
             trace := trace w ++ [EvWritel (u32 val) addr] |}).
Proof. reflexivity. Qed.

Lemma extends_writel val addr : extends (writel (D := D) val addr).
Proof. unfold writel. solve_extends. Qed.

Lemma extends_udelay us : extends (udelay (D := D) us).
Proof. unfold udelay. solve_extends. Qed.

Lemma extends_readl addr : extends (readl (D := D) addr).
Proof. unfold readl. solve_extends. Qed.

Lemma extends_scm addr val : extends (qcom_scm_io_writel (D := D) addr val).
Proof. unfold qcom_scm_io_writel. solve_extends. Qed.

Lemma extends_poll addr mask sleep_us timeout_us :
  extends (readl_poll_timeout (D := D) addr mask sleep_us timeout_us).
Proof. unfold readl_poll_timeout. solve_extends. Qed.
End PrimitiveFacts.

Section EmitFacts.
Context {D : Type} `{Platform D}.

Lemma bind_inv {A B} (m : M D A) (k : A -> M D B) w b w' :
  bind m k w = (Ok b, w') ->
  exists a w1, m w = (Ok a, w1) /\ k a w1 = (Ok b, w').
Proof.
  unfold bind. destruct (m w) as [[a | e |] w1]; intros Hrun; try discriminate.
  now exists a, w1.
Qed.

Lemma bind_Ok_inv {A B} (m : M D A) (k : A -> M D B) w b :
  fst (bind m k w) = Ok b ->
  exists a, fst (m w) = Ok a /\ bind m k w = k a (snd (m w)).
Proof.
  unfold bind. destruct (m w) as [[a | e |] w1]; cbn; intros Hrun; try discriminate.
  now exists a.
Qed.

Lemma emits_ret {A} (a : A) : emits (ret a : M D A) [].
Proof. intros w b _. cbn. now rewrite app_nil_r. Qed.

Lemma emits_bind {A B} (m : M D A) (k : A -> M D B) t1 t2 :
  emits m t1 -> (forall a, emits (k a) t2) -> emits (bind m k) (t1 ++ t2).
Proof.
  intros Hm Hk w b Hok.
  destruct (bind_Ok_inv m k w b Hok) as (a & Ha & Heq).
  rewrite Heq in Hok |- *.
  rewrite (Hk a _ b Hok), (Hm w a Ha). now rewrite app_assoc.
Qed.

Lemma emits_writel val addr : emits (writel (D := D) val addr) [EvWritel (u32 val) addr].
Proof. intros w a _. now rewrite writel_run. Qed.

Lemma emits_udelay us : emits (udelay (D := D) us) [EvUdelay us].
Proof. intros w a _. reflexivity. Qed.

Lemma emits_poll addr mask sleep_us timeout_us :
  emits (readl_poll_timeout (D := D) addr mask sleep_us timeout_us)
        [EvPoll addr mask sleep_us timeout_us].
Proof.
  intros w a _. unfold readl_poll_timeout, bind, log, with_hw. cbn.
  destruct (poll_reads _ _ _ _ _) as [[|] d]; reflexivity.
Qed.
End EmitFacts.

Lemma run_eq_inv {D A} (a b : A) (w1 w2 : world D) :
  (Ok a, w1) = (Ok b, w2) -> a = b /\ w1 = w2.
Proof. intros [= -> ->]. now split. Qed.

(** Inversion of a run that returned normally. *)
Ltac inv_bind H :=
  let a := fresh "a" in
  let w := fresh "w" in
  let Hm := fresh "Hm" in
  apply bind_inv in H; destruct H as (a & w & Hm & H).

Ltac inv_ret H := unfold ret in H; injection H as ? ?; subst.

Lemma trace_tail_app (n : nat) (pre s : list event) :
  length s = n -> trace_tail n (pre ++ s) = s.
Proof.
  intros <-. unfold trace_tail. rewrite length_app.
  replace (length pre + length s - length s)%nat with (length pre) by lia.
  apply drop_app_length.
Qed.

(** ** Generated tables *)

Section GenFacts.
Variable sdata : qcom_cpufreq_soc_data.
Variable xo_rate cpu_count : Z.

(** The loop fills one row per iteration: [i] is the number of rows. *)
Lemma gen_loop_run_rows fuel src apm_uV acc_uV : forall s s',
  g_i s = Z.of_nat (length (g_tbl s)) ->
  gen_loop_run sdata xo_rate cpu_count fuel src apm_uV acc_uV s = Ok s' ->
  g_i s' = Z.of_nat (length (g_tbl s')).
Proof.
  induction fuel as [| fuel IH]; intros s s' Hlen Hrun; cbn in Hrun.
  - now inversion Hrun; subst.
  - destruct (negb (g_i s <=? gpd_opp_cnt src)); [now inversion Hrun; subst |].
    destruct (dev_pm_opp_find_freq_ceil (opps src) (g_rate s)) as [o |];
      [| now inversion Hrun; subst].
    destruct (negb (opp_has_node o)); [discriminate |].
    destruct (opp_pll_override o) as [override |]; [| discriminate].
    destruct (gpd_opp_cnt src <=? g_i s); [discriminate |].
    destruct (_ || _) in Hrun; [discriminate |].
    apply IH in Hrun; [exact Hrun |].
    cbn [g_i g_tbl]. rewrite length_app, Nat2Z.inj_add. cbn [length]. lia.
Qed.

(** The entry count handed back is the row count, as a [u8]. *)
Lemma gen_params_num_entries src out :
  qcom_cpufreq_gen_params sdata xo_rate cpu_count src gen_out_init = Ok out ->
  num_entries out = u8 (Z.of_nat (length (hw_tbl out))).
Proof.
  unfold qcom_cpufreq_gen_params. intros Hgen.
  destruct (negb (attach_ret src =? 0)); [discriminate |].
  destruct (negb (genpd_vdev_ok src)); [discriminate |].
  destruct (cpr_data src) as [cpr |]; [| discriminate].
  destruct (gpd_opp_cnt src <? 2).
  { destruct (0 <? gpd_opp_cnt src); [discriminate |].
    destruct (gpd_opp_cnt src =? 0); [| discriminate].
    inversion Hgen; subst. reflexivity. }
  destruct (apm_threshold_uV cpr <=? 0); [discriminate |].
  destruct (if mem_acc_threshold_uV cpr <=? 0 then _ else _) as [acc_uV acc0].
  destruct (gen_loop_run _ _ _ _ _ _ _ _) as [s | e |] eqn:Hrun; try discriminate.
  destruct (g_i s <? gpd_opp_cnt src); [discriminate |].
  inversion Hgen; subst; cbn.
  f_equal. eapply gen_loop_run_rows; [| exact Hrun]. reflexivity.
Qed.

Lemma gen_params_last_row src out :
  qcom_cpufreq_gen_params sdata xo_rate cpu_count src gen_out_init = Ok out ->
  2 <= num_entries out ->
  is_Some (hw_tbl out !! Z.to_nat (num_entries out - 1)).
Proof.
  intros Hgen Hnum. apply gen_params_num_entries in Hgen.
  apply lookup_lt_is_Some. unfold u8 in Hgen.
  pose proof (Z.mod_le (Z.of_nat (length (hw_tbl out))) (2 ^ 8)) as Hle.
  lia.
Qed.
End GenFacts.

Section ApmFacts.
Variable sdata : qcom_cpufreq_soc_data.
Variable xo_rate cpu_count : Z.

Lemma find_freq_ceil_In tbl rate o :
  dev_pm_opp_find_freq_ceil tbl rate = Some o -> In o tbl.
Proof.
  unfold dev_pm_opp_find_freq_ceil. induction tbl as [| x tbl IH]; cbn; [discriminate |].
  destruct (rate <=? opp_rate x).
  - intros [= ->]. now left.
  - intros Hfind. right. now apply IH.
Qed.

(** While no voltage reaches the threshold the loop leaves [apm_vc] at
    the -1 it was reset to. *)
Lemma gen_loop_run_apm_unreached fuel src apm_uV acc_uV : forall s s',
  (forall o, In o (opps src) -> u32 (opp_voltage o) < apm_uV) ->
  g_apm_vc s = -1 ->
  gen_loop_run sdata xo_rate cpu_count fuel src apm_uV acc_uV s = Ok s' ->
  g_apm_vc s' = -1.
Proof.
  induction fuel as [| fuel IH]; intros s s' Hlow Hapm Hrun; cbn in Hrun.
  - now inversion Hrun; subst.
  - destruct (negb (g_i s <=? gpd_opp_cnt src)); [now inversion Hrun; subst |].
    destruct (dev_pm_opp_find_freq_ceil (opps src) (g_rate s)) as [o |] eqn:Hfind;
      [| now inversion Hrun; subst].
    destruct (negb (opp_has_node o)); [discriminate |].
    destruct (opp_pll_override o) as [override |]; [| discriminate].
    destruct (gpd_opp_cnt src <=? g_i s); [discriminate |].
    destruct (_ || _) in Hrun; [discriminate |].
    apply IH in Hrun; [exact Hrun | exact Hlow |].
    cbn [g_apm_vc]. apply find_freq_ceil_In in Hfind. apply Hlow in Hfind.
    destruct (Z.leb_spec apm_uV (u32 (opp_voltage o))); [lia |]. exact Hapm.
Qed.

(** When no operating point reaches the APM threshold, a generated table
    carries [apm_vc = -1], never the [INT_MAX] that the default to the
    last LUT slot tests for: the corner sent to the sequencer is -1. *)
Lemma gen_params_apm_unreached src cpr out :
  cpr_data src = Some cpr ->
  (forall o, In o (opps src) -> u32 (opp_voltage o) < apm_threshold_uV cpr) ->
  qcom_cpufreq_gen_params sdata xo_rate cpu_count src gen_out_init = Ok out ->
  2 <= num_entries out ->
  apm_vc out = -1 /\ apm_threshold_vc (apm_vc out) = -1.
Proof.
  unfold qcom_cpufreq_gen_params. intros Hcpr Hlow Hgen Hnum. rewrite Hcpr in Hgen.
  destruct (negb (attach_ret src =? 0)); [discriminate |].
  destruct (negb (genpd_vdev_ok src)); [discriminate |].
  destruct (gpd_opp_cnt src <? 2).
  { destruct (0 <? gpd_opp_cnt src); [discriminate |].
    destruct (gpd_opp_cnt src =? 0); [| discriminate].
    inversion Hgen; subst. cbn in Hnum. lia. }
  destruct (apm_threshold_uV cpr <=? 0); [discriminate |].
  destruct (if mem_acc_threshold_uV cpr <=? 0 then _ else _) as [acc_uV acc0].
  destruct (gen_loop_run _ _ _ _ _ _ _ _) as [s | e |] eqn:Hrun; try discriminate.
  destruct (g_i s <? gpd_opp_cnt src); [discriminate |].
  inversion Hgen; subst; cbn [apm_vc].
  apply gen_loop_run_apm_unreached in Hrun; [| exact Hlow | reflexivity].
  rewrite Hrun. split; reflexivity.
Qed.
End ApmFacts.

(** ** The MEM-ACC scan *)

Section ScanFacts.
Variable tbl : list qcom_cpufreq_hw_params.
Variable num : Z.

Lemma scan_inv_init g : scan_inv tbl num g 0 (lut_loop_init g).
Proof.
  left. destruct g as [[[g0 g1] g2] g3]. cbn. repeat split; intros; lia.
Qed.

Lemma scan_inv_step g i s :
  0 <= i -> scan_inv tbl num g i s ->
  scan_inv tbl num g (i + 1) (mem_acc_step (lut_entry tbl num i) i s).
Proof.
  intros Hi Hinv. unfold mem_acc_step. fold (slot_spare tbl num i).
  destruct Hinv as [(Hidx & Hlast & Hlow & Hs) | [(j & g2 & g3 & Hidx & Hval & Hj & Hlast & Hgt & Hlow & Hmid) | (j & k & Hidx & Hval & Hjk & Hk & Hgt & Hlow & Hmid)]].
  - rewrite Hidx, Hlast. unfold SEQ_MEM_ACC_MAX_LEVELS.
    destruct (Z.leb_spec (slot_spare tbl num i) 1) as [Hle | Hlt]; cbn [orb].
    + left. repeat split; auto. intros m Hm.
      destruct (Z.eq_dec m i) as [-> | Hne]; [exact Hle | apply Hlow; lia].
    + replace (4 - 1 <=? 0) with false by reflexivity.
      right; left. subst s. destruct g as [[[g0 g1] g2] g3]. cbn.
      exists i, g2, g3. repeat split; auto; try lia.
  - rewrite Hidx, Hlast. unfold SEQ_MEM_ACC_MAX_LEVELS.
    destruct (Z.leb_spec (slot_spare tbl num i) (slot_spare tbl num j)) as [Hle | Hlt]; cbn [orb].
    + right; left. exists j, g2, g3. repeat split; auto; try lia.
      intros m Hm. destruct (Z.eq_dec m i) as [-> | Hne]; [exact Hle | apply Hmid; lia].
    + replace (4 - 1 <=? 2) with false by reflexivity.
      right; right. exists j, i. cbn. rewrite Hval. cbn.
      repeat split; auto; try lia.
  - right; right. rewrite Hidx. unfold SEQ_MEM_ACC_MAX_LEVELS.
    replace (4 - 1 <=? 4) with true by reflexivity. rewrite orb_true_r.
    exists j, k. repeat split; auto; try lia.
Qed.

Lemma scan_inv_run g n : forall i s,
  0 <= i -> scan_inv tbl num g i s ->
  scan_inv tbl num g (i + Z.of_nat n) (mem_acc_scan n i tbl num s).
Proof.
  induction n as [| n IH]; intros i s Hi Hinv.
  - cbn [mem_acc_scan]. replace (i + Z.of_nat 0) with i by lia. exact Hinv.
  - cbn [mem_acc_scan].
    replace (i + Z.of_nat (S n)) with ((i + 1) + Z.of_nat n) by lia.
    apply IH; [lia |]. now apply scan_inv_step.
Qed.

(** The state after the forty slots. *)
Lemma scan_inv_final g :
  scan_inv tbl num g LUT_MAX_ENTRIES
    (mem_acc_scan (Z.to_nat LUT_MAX_ENTRIES) 0 tbl num (lut_loop_init g)).
Proof.
  change LUT_MAX_ENTRIES with (0 + Z.of_nat (Z.to_nat 40)) at 1.
  apply scan_inv_run; [lia | apply scan_inv_init].
Qed.
End ScanFacts.

(** Case analysis on a comparison of the goal whose operands are free of
    conditionals, innermost tests first. *)
Ltac no_cond t :=
  lazymatch t with
  | context [if _ then _ else _] => fail
  | _ => idtac
  end.

Ltac case_cmp :=
  match goal with
  | |- context [?a <? ?b] => no_cond a; no_cond b; destruct (Z.ltb_spec a b)
  | |- context [?a <=? ?b] => no_cond a; no_cond b; destruct (Z.leb_spec a b)
  | |- context [?a =? ?b] => no_cond a; no_cond b; destruct (Z.eqb_spec a b)
  end; cbn.

Lemma slot_spare_real tbl num i :
  i < num -> slot_spare tbl num i = spare_val (tbl !!! Z.to_nat i).
Proof.
  intros Hi. unfold slot_spare, lut_entry.
  destruct (Z.ltb_spec i num); [reflexivity | lia].
Qed.

Lemma slot_spare_padding tbl num i :
  num <= i -> slot_spare tbl num i = spare_val (tbl !!! Z.to_nat (num - 1)).
Proof.
  intros Hi. unfold slot_spare, lut_entry.
  destruct (Z.ltb_spec i num); [lia | reflexivity].
Qed.

(** On a valid table the scan records both pairs, at the two first slots
    [j < k] where the spare value rises, both real rows past corner 0. *)
Lemma mem_acc_scan_valid out g :
  valid_row_table out ->
  exists j k,
    1 <= j < k /\ k < num_entries out /\ k < LUT_MAX_ENTRIES /\
    let s := mem_acc_scan (Z.to_nat LUT_MAX_ENTRIES) 0 (hw_tbl out) (num_entries out)
               (lut_loop_init g) in
    acc_idx s = 4 /\ acc_val s = [j - 1; j; k - 1; k].
Proof.
  intros (Hnum & H0 & Hmono & (i & j & Hij & Hjn & Hj40 & Hlev)).
  set (tbl := hw_tbl out) in *. set (num := num_entries out) in *.
  pose proof (scan_inv_final tbl num g) as Hinv.
  assert (Hi : slot_spare tbl num i = spare_val (tbl !!! Z.to_nat i))
    by (apply slot_spare_real; lia).
  assert (Hj : slot_spare tbl num j = spare_val (tbl !!! Z.to_nat j))
    by (apply slot_spare_real; lia).
  assert (Hz : slot_spare tbl num 0 = 1)
    by (rewrite slot_spare_real by lia; exact H0).
  destruct Hinv as [(_ & _ & Hlow & _) | [(j0 & g2 & g3 & _ & _ & Hj0 & _ & Hgt & Hlow & Hmid) | (j0 & k0 & Hidx & Hval & Hjk & Hk & Hgt & Hlow & Hmid)]].
  - specialize (Hlow i). unfold LUT_MAX_ENTRIES in *. lia.
  - exfalso.
    assert (j0 <= i).
    { destruct (Z_le_gt_dec j0 i); [assumption |]. specialize (Hlow i). lia. }
    assert (slot_spare tbl num j <= slot_spare tbl num j0)
      by (apply Hmid; unfold LUT_MAX_ENTRIES in *; lia).
    assert (slot_spare tbl num j0 <= slot_spare tbl num i).
    { rewrite Hi, (slot_spare_real tbl num j0) by lia. apply Hmono; lia. }
    lia.
  - exists j0, k0.
    assert (j0 <> 0) by (intros ->; lia).
    assert (k0 < num).
    { destruct (Z_lt_ge_dec k0 num) as [| Hge]; [assumption | exfalso].
      rewrite (slot_spare_padding tbl num k0) in Hgt by lia.
      destruct (Z_lt_ge_dec j0 (num - 1)).
      - specialize (Hmid (num - 1)).
        rewrite (slot_spare_real tbl num (num - 1)) in Hmid by lia. lia.
      - destruct (Z_lt_ge_dec j0 num).
        + rewrite (slot_spare_real tbl num j0) in Hgt by lia.
          replace j0 with (num - 1) in Hgt by lia. lia.
        + rewrite (slot_spare_padding tbl num j0) in Hgt by lia. lia. }
    cbn zeta. repeat split; auto; lia.
Qed.

(** The customized corner applied to two recorded pairs: the upper pair
    ends at the lower of [k] and the decremented candidate, and each value
    below is pulled down just as far as needed. *)
Lemma mem_acc_customize_pairs acc_vc j k :
  j < k ->
  exists b0 b1 b2 b3,
    mem_acc_customize acc_vc [j - 1; j; k - 1; k] = [b0; b1; b2; b3] /\
    b3 = Z.min k (acc_vc - 1) /\ b2 = b3 - 1 /\
    b1 = Z.min j (b2 - 1) /\ b0 = b1 - 1.
Proof.
  intros Hjk. unfold mem_acc_customize. cbn.
  repeat case_cmp; do 4 eexists; (split; [reflexivity | lia]).
Qed.

(** ** LUT programming runs *)

Section LutTrace.
Context {D : Type} `{Platform D}.
Variable ddata : qcom_cpufreq_data.

Lemma lut_write_row_run i entry (w : world D) :
  exists d, lut_write_row ddata i entry w =
            (Ok tt, {| hw := d; trace := trace w ++ lut_row_events ddata i entry |}).
Proof.
  eexists. unfold lut_write_row, bind. rewrite !writel_run. cbn.
  rewrite <- !app_assoc. reflexivity.
Qed.

(** The loop always completes; it performs the writes of [lut_events] and
    leaves the locals of the MEM-ACC scan. *)
Lemma lut_loop_run_spec n tbl num : forall i s (w : world D),
  exists d, lut_loop_run ddata n i tbl num s w =
            (Ok (mem_acc_scan n i tbl num s),
             {| hw := d; trace := trace w ++ lut_events ddata n i tbl num |}).
Proof.
  induction n as [| n IH]; intros i s w.
  - exists (hw w). cbn. rewrite app_nil_r. now destruct w.
  - cbn [lut_loop_run mem_acc_scan lut_events]. unfold bind at 1.
    destruct (lut_write_row_run i (lut_entry tbl num i) w) as [d ->].
    destruct (IH (i + 1) (mem_acc_step (lut_entry tbl num i) i s)
                {| hw := d; trace := trace w ++ lut_row_events ddata i (lut_entry tbl num i) |})
      as [d' ->].
    exists d'. cbn [trace]. now rewrite <- app_assoc.
Qed.

Lemma lut_events_length n tbl num : forall i,
  length (lut_events ddata n i tbl num) = (5 * n)%nat.
Proof. induction n as [| n IH]; intros i; cbn; [reflexivity | rewrite IH; lia]. Qed.

(** The five events of slot [i + k] sit at offset [5 * k]. *)
Lemma lut_events_lookup n tbl num : forall i (k r : nat),
  (k < n)%nat -> (r < 5)%nat ->
  lut_events ddata n i tbl num !! (5 * k + r)%nat
  = lut_row_events ddata (i + Z.of_nat k) (lut_entry tbl num (i + Z.of_nat k)) !! r.
Proof.
  induction n as [| n IH]; intros i k r Hk Hr; [lia |].
  cbn [lut_events]. destruct k as [| k].
  - rewrite lookup_app_l by (cbn; lia).
    replace (i + Z.of_nat 0) with i by lia.
    replace (5 * 0 + r)%nat with r by lia. reflexivity.
  - rewrite lookup_app_r by (cbn; lia).
    replace (5 * S k + r - length (lut_row_events ddata i (lut_entry tbl num i)))%nat
      with (5 * k + r)%nat by (cbn; lia).
    rewrite IH by lia.
    replace (i + 1 + Z.of_nat k) with (i + Z.of_nat (S k)) by lia. reflexivity.
Qed.
End LutTrace.

Section WriteLutFacts.
Context {D : Type} `{Platform D}.
Variable ddata : qcom_cpufreq_data.
Variable xo_rate : Z.

Lemma extends_mem_acc_write n seq_addr acc : forall i,
  extends (mem_acc_write (D := D) n i seq_addr acc).
Proof.
  induction n as [| n IH]; intros i; cbn [mem_acc_write].
  - apply extends_ret.
  - apply extends_bind; [apply extends_scm | intros _; apply IH].
Qed.

(** Once the table is generated with two entries or more, the run starts
    with the writes of the forty LUT slots, whatever happens later. *)
Lemma write_lut_trace start src cpu_count g out (w : world D) :
  qcom_cpufreq_gen_params (soc_data ddata) xo_rate cpu_count src gen_out_init = Ok out ->
  2 <= num_entries out ->
  exists rest,
    trace (snd (qcom_cpufreq_hw_write_lut ddata xo_rate (Some start) src cpu_count g w))
    = trace w
      ++ lut_events ddata (Z.to_nat LUT_MAX_ENTRIES) 0 (hw_tbl out) (num_entries out)
      ++ rest.
Proof.
  intros Hgen Hnum. unfold qcom_cpufreq_hw_write_lut.
  unfold bind at 1, lift_result. rewrite Hgen.
  destruct (Z.ltb_spec (num_entries out) 2) as [| _]; [lia |].
  unfold bind at 1.
  destruct (lut_loop_run_spec ddata (Z.to_nat LUT_MAX_ENTRIES) (hw_tbl out)
              (num_entries out) 0 (lut_loop_init g) w) as [d ->].
  match goal with
  | |- exists rest, trace (snd (?m ?w1)) = _ =>
    assert (Hext : extends m);
      [| destruct (Hext w1) as [t Ht]; exists t; rewrite Ht; cbn [trace];
         now rewrite app_assoc ]
  end.
  repeat first
    [ apply extends_throw | apply extends_fault | apply extends_ret
    | apply extends_scm | apply extends_writel | apply extends_mem_acc_write
    | apply extends_if | apply extends_bind; [| intros ?] ].
Qed.
End WriteLutFacts.

Section WriteLutRun.
Context {D : Type} `{Platform D}.
Variable ddata : qcom_cpufreq_data.
Variable xo_rate : Z.

Lemma emits_fault {A} t : emits (fault : M D A) t.
Proof. intros w a Hok. discriminate Hok. Qed.

Lemma emits_scm addr val :
  emits (qcom_scm_io_writel (D := D) addr val) [EvScmIoWritel (u32 addr) (u32 val)].
Proof.
  intros w a _. unfold qcom_scm_io_writel, bind, log, with_hw. cbn.
  destruct (hw_scm_io_writel _ _ _) as [r d]. cbn. destruct (r =? 0); reflexivity.
Qed.

Lemma emits_mem_acc_write seq_addr acc :
  emits (mem_acc_write (D := D) (Z.to_nat SEQ_MEM_ACC_MAX_LEVELS) 0 seq_addr acc)
        [ EvScmIoWritel (u32 (SEQ_MEMACC_REG seq_addr 0)) (u32 (acc !!! 0%nat));
          EvScmIoWritel (u32 (SEQ_MEMACC_REG seq_addr 1)) (u32 (acc !!! 1%nat));
          EvScmIoWritel (u32 (SEQ_MEMACC_REG seq_addr 2)) (u32 (acc !!! 2%nat));
          EvScmIoWritel (u32 (SEQ_MEMACC_REG seq_addr 3)) (u32 (acc !!! 3%nat)) ].
Proof.
  change (Z.to_nat SEQ_MEM_ACC_MAX_LEVELS) with 4%nat. cbn [mem_acc_write].
  repeat (apply (emits_bind _ _ [_]); [apply emits_scm | intros _]).
  apply emits_ret.
Qed.

Lemma emits_run {A} (m : M D A) t w a w' :
  emits m t -> m w = (Ok a, w') -> trace w' = trace w ++ t.
Proof.
  intros Hemit Hrun. specialize (Hemit w a). rewrite Hrun in Hemit.
  now apply Hemit.
Qed.

(** A run that returns 0 has generated a table, found the two MEM-ACC
    crossovers and performed exactly the events of [write_lut_events]. *)
Lemma write_lut_success start src cpu_count g (w w' : world D) :
  qcom_cpufreq_hw_write_lut ddata xo_rate (Some start) src cpu_count g w = (Ok tt, w') ->
  exists out acc,
    qcom_cpufreq_gen_params (soc_data ddata) xo_rate cpu_count src gen_out_init = Ok out /\
    2 <= num_entries out /\
    mem_acc_crossovers out g = Some acc /\
    trace w'
    = trace w
      ++ write_lut_events ddata
           (u32 (start + reg_osm_sequencer (setup_regs (soc_data ddata)))) out acc.
Proof.
  unfold qcom_cpufreq_hw_write_lut. set (seq_addr := u32 _). intros Hrun.
  inv_bind Hrun. rename a into out. unfold lift_result in Hm.
  injection Hm as Hgen <-.
  destruct (Z.ltb_spec (num_entries out) 2) as [| Hnum]; [discriminate |].
  inv_bind Hrun. rename a into s.
  destruct (lut_loop_run_spec ddata (Z.to_nat LUT_MAX_ENTRIES) (hw_tbl out)
              (num_entries out) 0 (lut_loop_init g) w) as [d Hloop].
  rewrite Hloop in Hm. apply run_eq_inv in Hm as [Hs Hw1].
  destruct (acc_idx s <? SEQ_MEM_ACC_MAX_LEVELS - 1) eqn:Hidx; [discriminate Hrun |].
  inv_bind Hrun. rename a into acc.
  exists out, acc. split; [exact Hgen |]. split; [exact Hnum |].
  assert (Hacc : mem_acc_crossovers out g = Some acc /\
                 trace w1
                 = (trace w ++ lut_events ddata (Z.to_nat LUT_MAX_ENTRIES) 0 (hw_tbl out)
                                 (num_entries out))
                   ++ (if mem_acc_is_custom (acc_vc out)
                       then [EvScmIoWritel
                               (u32 (SEQUENCER_REG seq_addr SEQ_MEM_ACC_CROSSOVER_VC))
                               (u32 (num_entries out + 1))]
                       else [])).
  { unfold mem_acc_crossovers. rewrite Hs, Hidx. clear Hs.
    assert (Htr1 : trace w0 = trace w ++ lut_events ddata (Z.to_nat LUT_MAX_ENTRIES) 0
                                           (hw_tbl out) (num_entries out))
      by (now rewrite <- Hw1).
    destruct (mem_acc_is_custom (acc_vc out)).
    - inv_bind Hm. inv_ret Hm.
      apply (emits_run _ _ _ _ _ (emits_scm _ _)) in Hm0.
      split; [reflexivity | now rewrite Hm0, Htr1].
    - inv_ret Hm. split; [reflexivity | now rewrite Htr1, app_nil_r]. }
  destruct Hacc as [Hacc Htr1]. split; [exact Hacc |].
  eassert (Hemit : trace w' = trace w1 ++ _).
  { eapply emits_run; [| exact Hrun].
    eapply emits_bind; [apply emits_mem_acc_write | intros _].
    destruct (_ || _); [apply emits_fault |].
    eapply emits_bind; [apply emits_scm | intros _].
    eapply emits_bind; [apply emits_writel | intros _].
    do 3 (eapply emits_bind; [apply emits_scm | intros _]).
    apply emits_scm. }
  rewrite Hemit, Htr1. unfold write_lut_events. rewrite <- !app_assoc. reflexivity.
Qed.
End WriteLutRun.

(** On every platform, a LUT programming that succeeds on a table whose
    voltages all stay below the APM threshold ends by sending -1, -2 and
    0x39 | (-1 << 6) as APM threshold corner, predecessor and parameter. *)
Lemma write_lut_apm_unreached {D : Type} `{Platform D} (ddata : qcom_cpufreq_data)
    (xo_rate start cpu_count : Z) (src : genpd_source) (cpr : cpr_ext_data)
    (g : Z * Z * Z * Z) (w w' : world D) :
  cpr_data src = Some cpr ->
  (forall o, In o (opps src) -> u32 (opp_voltage o) < apm_threshold_uV cpr) ->
  qcom_cpufreq_hw_write_lut ddata xo_rate (Some start) src cpu_count g w = (Ok tt, w') ->
  let seq_addr := u32 (start + reg_osm_sequencer (setup_regs (soc_data ddata))) in
  trace_tail 3 (trace w')
  = [ EvScmIoWritel (u32 (SEQUENCER_REG seq_addr SEQ_APM_THRESH_VC)) (u32 (-1));
      EvScmIoWritel (u32 (SEQUENCER_REG seq_addr SEQ_APM_THRESH_PREVC)) (u32 (-2));
      EvScmIoWritel (u32 (SEQUENCER_REG seq_addr SEQ_APM_PARAM)) (u32 (-7)) ].
Proof.
  intros Hcpr Hlow Hrun seq_addr.
  destruct (write_lut_success ddata xo_rate start src cpu_count g w w' Hrun)
    as (out & acc & Hgen & Hnum & _ & Htr).
  destruct (gen_params_apm_unreached _ _ _ _ _ _ Hcpr Hlow Hgen Hnum) as [_ Hapm].
  rewrite Htr. unfold write_lut_events. fold seq_addr. rewrite Hapm.
  rewrite !app_assoc.
  match goal with
  | |- trace_tail 3 (?pre ++ [?e1; ?e2; ?e3; ?e4; ?e5; ?e6]) = _ =>
    change (pre ++ [e1; e2; e3; e4; e5; e6])
      with (pre ++ [e1; e2; e3] ++ [e4; e5; e6]);
    rewrite (app_assoc pre)
  end.
  now rewrite trace_tail_app.
Qed.

(** ** The ACD transfers *)

Section AcdFacts.
Context {D : Type} `{Platform D}.
Variable data : qcom_cpufreq_data.

Lemma emits_acd_write_autoxfer acd_base val :
  emits (qcom_cpufreq_hw_acd_write_autoxfer (D := D) data acd_base val)
        (autoxfer_events (acd_data (soc_data data)) acd_base val).
Proof.
  unfold qcom_cpufreq_hw_acd_write_autoxfer, autoxfer_events.
  repeat (apply (emits_bind _ _ [_]); [apply emits_writel | intros _]).
  apply emits_poll.
Qed.

Lemma emits_acd_write_xfer acd_base reg val :
  emits (qcom_cpufreq_hw_acd_write_xfer (D := D) data acd_base reg val)
        (xfer_events (acd_data (soc_data data)) acd_base reg val).
Proof.
  unfold qcom_cpufreq_hw_acd_write_xfer, xfer_events.
  repeat (apply (emits_bind _ _ [_]); [apply emits_writel | intros _]).
  apply emits_poll.
Qed.

Lemma emits_acd_init acd_base :
  emits (qcom_cpufreq_hw_acd_init (D := D) data (Some acd_base))
        (acd_init_events (acd_data (soc_data data)) acd_base).
Proof.
  unfold qcom_cpufreq_hw_acd_init, acd_init_events.
  repeat (apply (emits_bind _ _ [_]); [apply emits_writel | intros _]).
  fold (acd_rmask (acd_data (soc_data data))).
  apply emits_bind; [apply emits_acd_write_autoxfer | intros _].
  do 3 (apply emits_bind; [apply emits_acd_write_xfer | intros _]).
  apply (emits_bind _ _ [_]); [apply emits_udelay | intros _].
  apply emits_bind; [apply emits_acd_write_xfer | intros _].
  apply (emits_bind _ _ [_]); [apply emits_writel | intros _].
  apply emits_udelay.
Qed.
End AcdFacts.

(** On a register file nothing ever sets the status bit: the first
    auto-transfer polls four times, times out, and the initialization
    stops there with [-ETIMEDOUT]. *)
Example acd_init_times_out :
  let r := qcom_cpufreq_hw_acd_init msm8998_data (Some osm_acd0) boot_world in
  let aregs := acd_data (soc_data msm8998_data) in
  fst r = Err ETIMEDOUT /\
  trace (snd r)
  = [ EvWritel 38417 (osm_acd0 + 0x8); EvWritel 0x2b5ffd (osm_acd0 + 0x4);
      EvWritel 0x501 (osm_acd0 + 0x28); EvWritel 0x2cf9ae8 (osm_acd0 + 0x30);
      EvWritel 0x15 (osm_acd0 + 0x88) ]
    ++ autoxfer_events aregs osm_acd0 (acd_rmask aregs).
Proof. split; vm_compute; reflexivity. Qed.

(** ** Frequency tables *)

Lemma entry_count_nonneg table : 0 <= entry_count table.
Proof.
  induction table as [| row rest IH]; cbn; [lia |].
  destruct (frequency row =? CPUFREQ_TABLE_END); lia.
Qed.

Lemma entry_count_le_length table : entry_count table <= Z.of_nat (length table).
Proof.
  induction table as [| row rest IH]; cbn [entry_count length]; [lia |].
  destruct (frequency row =? CPUFREQ_TABLE_END); lia.
Qed.

(** The count stops at the first end marker. *)
Lemma entry_count_marker table : forall (n : nat) row,
  table !! n = Some row -> frequency row = CPUFREQ_TABLE_END ->
  entry_count table <= Z.of_nat n.
Proof.
  induction table as [| r rest IH]; intros n row Hlook Hend; [discriminate |].
  cbn [entry_count]. destruct n as [| n]; cbn in Hlook.
  - injection Hlook as ->. rewrite Hend, Z.eqb_refl. lia.
  - destruct (frequency r =? CPUFREQ_TABLE_END); [lia |].
    specialize (IH n row Hlook Hend). lia.
Qed.

Lemma entry_count_lookup table i :
  0 <= i < entry_count table -> is_Some (table !! Z.to_nat i).
Proof.
  intros Hi. apply lookup_lt_is_Some.
  pose proof (entry_count_le_length table). lia.
Qed.

(** ** Runtime control *)

Section RuntimeFacts.
Context {D : Type} `{Platform D}.

Lemma ignore_ret_run {A} (m : M D A) (w : world D) :
  fst (m w) <> Fault -> ignore_ret m w = (Ok tt, snd (m w)).
Proof.
  unfold ignore_ret. destruct (m w) as [[a | e |] w']; cbn; intros Hnf;
    [reflexivity | reflexivity | congruence].
Qed.

Lemma dev_pm_opp_not_fault c (w : world D) : fst (dev_pm_opp c w) <> Fault.
Proof.
  unfold dev_pm_opp, dev_pm_opp_ret, bind, log, with_hw. cbn.
  destruct (hw_opp_call c (hw w)) as [r d]. destruct (r =? 0); discriminate.
Qed.

Lemma extends_dev_pm_opp c : extends (dev_pm_opp (D := D) c).
Proof. unfold dev_pm_opp, dev_pm_opp_ret. solve_extends. Qed.

Lemma set_bw_not_fault policy freq_khz (w : world D) :
  fst (qcom_cpufreq_set_bw policy freq_khz w) <> Fault.
Proof.
  unfold qcom_cpufreq_set_bw, bind, get_cpu_device, opp_rates, with_hw. cbn.
  destruct (hw_get_cpu_device (cpu policy) (hw w)); cbn; [| discriminate].
  destruct (hw_opp_rates (cpu policy) (hw w)) as [rates |]; [| discriminate].
  destruct (opp_find_freq_exact rates (freq_khz * 1000)); [| discriminate].
  apply dev_pm_opp_not_fault.
Qed.

Lemma extends_set_bw policy freq_khz :
  extends (qcom_cpufreq_set_bw (D := D) policy freq_khz).
Proof.
  unfold qcom_cpufreq_set_bw, get_cpu_device, opp_rates.
  repeat first
    [ apply extends_dev_pm_opp | apply extends_throw | apply extends_with_hw
    | apply extends_if | apply extends_bind; [| intros ?]
    | match goal with |- extends (match ?x with _ => _ end) => destruct x end ].
Qed.

(** [qcom_cpufreq_hw_get] neither writes a register nor leaves a trace. *)
Lemma hw_get_trace registry cpu (w : world D) :
  trace (snd (qcom_cpufreq_hw_get registry cpu w)) = trace w.
Proof.
  unfold qcom_cpufreq_hw_get. destruct (registry !! cpu) as [policy |]; [| reflexivity].
  unfold bind, readl, with_hw. destruct (hw_readl _ (hw w)) as [v d]. cbn.
  destruct (freq_table policy !! _); reflexivity.
Qed.

Lemma hw_get_result registry cpu (w : world D) :
  fst (qcom_cpufreq_hw_get registry cpu w) = requested_freq registry cpu (hw w).
Proof.
  unfold requested_freq, qcom_cpufreq_hw_get.
  destruct (registry !! cpu) as [policy |]; [| reflexivity].
  unfold bind, readl, with_hw. cbn. destruct (hw_readl _ (hw w)) as [v d]. cbn.
  destruct (freq_table policy !! _); reflexivity.
Qed.
(** A set-index request on a row of the table returns 0 after writing the
    index; the bandwidth vote, if any, only adds to the trace. *)
Lemma target_index_run icc policy index row (w : world D) :
  freq_table policy !! Z.to_nat index = Some row ->
  exists w2 t,
    qcom_cpufreq_hw_target_index icc policy index w = (Ok 0, w2) /\
    trace w2 = trace w ++ EvWritel (u32 index)
                 (base (driver_data policy) + reg_perf_state (soc_data (driver_data policy)))
               :: t.
Proof.
  intros Hrow. unfold qcom_cpufreq_hw_target_index. rewrite Hrow.
  unfold bind at 1. rewrite writel_run. destruct icc.
  - unfold bind at 1. rewrite ignore_ret_run by apply set_bw_not_fault.
    match goal with
    | |- context [qcom_cpufreq_set_bw ?p ?f ?w1] =>
      destruct (extends_set_bw p f w1) as [t Ht]
    end.
    eexists _, t. split; [reflexivity |].
    rewrite Ht. cbn [trace]. now rewrite <- app_assoc.
  - eexists _, []. split; reflexivity.
Qed.

(** Where the calls into the OPP framework leave the registers alone, a
    bandwidth vote does not change what a register reads. *)
Lemma set_bw_keeps_registers policy freq_khz (w : world D) a :
  (forall c a d, fst (hw_readl a (snd (hw_opp_call c d))) = fst (hw_readl a d)) ->
  fst (hw_readl a (hw (snd (qcom_cpufreq_set_bw policy freq_khz w))))
  = fst (hw_readl a (hw w)).
Proof.
  intros Hopp.
  unfold qcom_cpufreq_set_bw, bind, get_cpu_device, opp_rates, with_hw. cbn.
  destruct (hw_get_cpu_device (cpu policy) (hw w)); cbn; [| reflexivity].
  destruct (hw_opp_rates (cpu policy) (hw w)) as [rates |]; [| reflexivity].
  destruct (opp_find_freq_exact rates (freq_khz * 1000)); [| reflexivity].
  unfold dev_pm_opp, dev_pm_opp_ret, bind, log, with_hw. cbn.
  specialize (Hopp (OppSetOpp (cpu policy) (freq_khz * 1000)) a (hw w)).
  destruct (hw_opp_call _ (hw w)) as [r d]. cbn [snd] in Hopp.
  destruct (r =? 0); exact Hopp.
Qed.

(** After [qcom_cpufreq_hw_target_index] every register reads what it reads
    right after the write of the index. *)
Lemma target_index_registers icc policy index row (w : world D) a :
  (forall c a d, fst (hw_readl a (snd (hw_opp_call c d))) = fst (hw_readl a d)) ->
  freq_table policy !! Z.to_nat index = Some row ->
  fst (hw_readl a (hw (snd (qcom_cpufreq_hw_target_index icc policy index w))))
  = fst (hw_readl a
           (hw_writel (u32 index)
              (base (driver_data policy) + reg_perf_state (soc_data (driver_data policy)))
              (hw w))).
Proof.
  intros Hopp Hrow. unfold qcom_cpufreq_hw_target_index. rewrite Hrow.
  unfold bind at 1. rewrite writel_run. destruct icc.
  - unfold bind at 1. rewrite ignore_ret_run by apply set_bw_not_fault.
    cbn [ret snd]. now rewrite set_bw_keeps_registers.
  - reflexivity.
Qed.
End RuntimeFacts.

(** ** The resolved table *)

Section ReadLutFacts.
Context {D : Type} `{Platform D}.
Variable drv_data : qcom_cpufreq_data.
Variable xo_rate cpu_hw_rate cpu_dev : Z.

(** The loop keeps the size of the table and stops at a row of the LUT. *)
Lemma read_lut_loop_shape icc n : forall i prev_freq table w i' table' w',
  read_lut_loop drv_data xo_rate cpu_hw_rate cpu_dev icc n i prev_freq table w
    = (Ok (i', table'), w') ->
  length table' = length table /\ i <= i' <= i + Z.of_nat n.
Proof.
  induction n as [| n IH]; intros i prev_freq table w i' table' w' Hrun;
    cbn [read_lut_loop] in Hrun.
  - inv_ret Hrun. split; [reflexivity | lia].
  - inv_bind Hrun. inv_bind Hrun. inv_bind Hrun.
    match type of Hm1 with _ = (Ok ?t, _) => rename t into table1 end.
    assert (Hlen1 : length table1 = length table).
    { destruct (_ && _) in Hm1.
      - inv_bind Hm1. inv_ret Hm1. apply length_alter.
      - destruct (_ =? LUT_TURBO_IND) in Hm1; inv_ret Hm1;
          [apply length_alter | reflexivity]. }
    destruct (_ && _) in Hrun.
    + destruct (table1 !! Z.to_nat (i - 1)) as [prev |]; [| discriminate].
      inv_bind Hrun. inv_ret Hrun. split; [| lia].
      rewrite <- Hlen1. clear - Hm2.
      destruct (_ =? CPUFREQ_ENTRY_INVALID) in Hm2.
      * inv_bind Hm2. destruct a; inv_ret Hm2; [apply length_insert | reflexivity].
      * inv_ret Hm2. reflexivity.
    + apply IH in Hrun. destruct Hrun as [Hlen Hi].
      split; [congruence | lia].
Qed.

(** [qcom_cpufreq_hw_read_lut] hands over a resolved table. *)
Lemma read_lut_resolved w out w' :
  qcom_cpufreq_hw_read_lut drv_data xo_rate cpu_hw_rate cpu_dev w = (Ok out, w') ->
  resolved_table (rl_table out).
Proof.
  unfold qcom_cpufreq_hw_read_lut. intros Hrun.
  inv_bind Hrun. inv_bind Hrun. inv_bind Hrun.
  destruct a1 as [i table]. inv_ret Hrun. cbn [rl_table].
  apply read_lut_loop_shape in Hm1. destruct Hm1 as [Hlen Hi].
  rewrite length_replicate in Hlen. unfold resolved_table.
  rewrite length_alter, Hlen. split; [unfold LUT_MAX_ENTRIES; lia |].
  assert (Hlt : (Z.to_nat i < length table)%nat)
    by (rewrite Hlen; unfold LUT_MAX_ENTRIES in *; lia).
  apply lookup_lt_is_Some in Hlt. destruct Hlt as [row Hrow].
  pose proof (entry_count_marker
                (alter (set_frequency CPUFREQ_TABLE_END) (Z.to_nat i) table)
                (Z.to_nat i) (set_frequency CPUFREQ_TABLE_END row)) as Hcount.
  rewrite list_lookup_alter_eq, Hrow in Hcount.
  specialize (Hcount eq_refl eq_refl). unfold LUT_MAX_ENTRIES in *. lia.
Qed.
End ReadLutFacts.

(** ** The throttle notifier *)

Section ThrottleFacts.
Context {D : Type} `{Platform D}.
Variable nr_cpu_ids : Z.

(** The first half of a poll always completes and publishes the throttled
    frequency it returns. *)
Lemma lmh_throttled_freq_run data policy (w : world D) :
  exists throttled w1,
    lmh_throttled_freq nr_cpu_ids data policy w = (Ok throttled, w1) /\
    trace w1 = trace w ++ [EvThermalPressure (related_cpus policy) throttled].
Proof.
  unfold lmh_throttled_freq, qcom_lmh_get_throttle_freq, get_cpu_device, opp_rates,
    bind, readl, with_hw, log, ret. cbn.
  destruct (hw_readl _ (hw w)) as [v d]. cbn.
  eexists _, _. split; reflexivity.
Qed.

(** The locked half of a poll on cancellation. *)
Lemma lmh_rearm_cancelled registry data policy throttled (w1 : world D) :
  cancel_throttle data = true ->
  lmh_rearm nr_cpu_ids registry data policy throttled w1
  = (Ok tt, {| hw := hw w1; trace := trace w1 ++ [EvMutexLock; EvMutexUnlock] |}).
Proof.
  intros Hc. unfold lmh_rearm, bind, log, ret. cbn. rewrite Hc. cbn.
  now rewrite <- app_assoc.
Qed.

(** The locked half of a poll otherwise: one action between lock and
    unlock, chosen by comparing with the requested frequency. *)
Lemma lmh_rearm_active registry data policy throttled requested (w1 : world D) :
  cancel_throttle data = false ->
  requested_freq registry (cpumask_first nr_cpu_ids (cpus policy)) (hw w1) = Ok requested ->
  exists w4,
    lmh_rearm nr_cpu_ids registry data policy throttled w1 = (Ok tt, w4) /\
    trace w4
    = trace w1 ++ [ EvMutexLock;
                    if requested <=? throttled then EvEnableIrq (throttle_irq data)
                    else EvModDelayedWork 10;
                    EvMutexUnlock ].
Proof.
  intros Hc Hreq. unfold lmh_rearm. rewrite Hc.
  unfold bind at 1. unfold log at 1. cbn match.
  set (w2 := {| hw := hw w1; trace := trace w1 ++ [EvMutexLock] |}).
  unfold bind at 1. unfold bind at 1.
  pose proof (hw_get_result registry (cpumask_first nr_cpu_ids (cpus policy)) w2) as Hres.
  pose proof (hw_get_trace registry (cpumask_first nr_cpu_ids (cpus policy)) w2) as Htr.
  cbn [hw w2] in Hres. rewrite Hreq in Hres.
  destruct (qcom_cpufreq_hw_get registry _ w2) as [res w3].
  cbn [fst snd] in Hres, Htr. subst res.
  destruct (requested <=? throttled); unfold log; cbn;
    (eexists; split; [reflexivity |]; cbn; rewrite Htr; cbn;
     rewrite <- !app_assoc; reflexivity).
Qed.
End ThrottleFacts.

(** ** The example tables *)

Lemma three_levels_generated :
  qcom_cpufreq_gen_params msm8998_soc_data 19200000 4 three_levels_src gen_out_init
  = Ok three_levels_out.
Proof. vm_compute. reflexivity. Qed.

Lemma three_levels_valid : valid_row_table three_levels_out.
Proof.
  unfold valid_row_table. cbn [three_levels_out hw_tbl num_entries length].
  split; [lia |]. split; [reflexivity |]. split.
  - intros i j Hij Hj.
    assert (Hi' : i = 0 \/ i = 1 \/ i = 2) by lia.
    assert (Hj' : j = 0 \/ j = 1 \/ j = 2) by lia.
    destruct Hi' as [-> | [-> | ->]], Hj' as [-> | [-> | ->]];
      try lia; vm_compute; discriminate.
  - exists 1, 2. unfold LUT_MAX_ENTRIES. repeat split; try lia; vm_compute; reflexivity.
Qed.

Lemma demo_table_resolved : resolved_table demo_table.
Proof. split; vm_compute; [reflexivity | discriminate]. Qed.

(** * The claims *)

(** ** C1: ordering of the MEM-ACC indices *)

(** C1, as amended: on every valid row table the derivation produces
    exactly four MEM-ACC indices with a0 < a1 <= a2 < a3.  Without a
    customized threshold all four are non-negative; after the
    customized-threshold adjustment and cascade repair they are strictly
    ascending, and all non-negative whenever the resulting upper high bound
    a3 is at least 3. *)
Theorem mem_acc_crossovers_ordered (out : gen_out) (g : Z * Z * Z * Z) :
  valid_row_table out ->
  exists a0 a1 a2 a3,
    mem_acc_crossovers out g = Some [a0; a1; a2; a3] /\
    a0 < a1 /\ a1 <= a2 /\ a2 < a3 /\
    if mem_acc_is_custom (acc_vc out)
    then a1 < a2 /\ (3 <= a3 -> 0 <= a0)
    else 0 <= a0.
Proof.
  intros Hvalid.
  destruct (mem_acc_scan_valid out g Hvalid) as (j & k & Hjk & Hkn & Hk40 & Hidx & Hval).
  unfold mem_acc_crossovers. rewrite Hidx, Hval.
  replace (4 <? SEQ_MEM_ACC_MAX_LEVELS - 1) with false by reflexivity.
  destruct (mem_acc_is_custom (acc_vc out)).
  - destruct (mem_acc_customize_pairs (acc_vc out) j k) as (b0 & b1 & b2 & b3 & -> & H3 & H2 & H1 & H0); [lia |].
    exists b0, b1, b2, b3. split; [reflexivity | lia].
  - exists (j - 1), j, (k - 1), k. split; [reflexivity | lia].
Qed.

Lemma mem_acc_crossovers_ordered_witness :
  valid_row_table three_levels_out /\
  exists a0 a1 a2 a3,
    mem_acc_crossovers three_levels_out (0, 0, 0, 0) = Some [a0; a1; a2; a3] /\
    a0 < a1 /\ a1 <= a2 /\ a2 < a3 /\
    if mem_acc_is_custom (acc_vc three_levels_out)
    then a1 < a2 /\ (3 <= a3 -> 0 <= a0)
    else 0 <= a0.
Proof.
  split; [exact three_levels_valid |].
  exact (mem_acc_crossovers_ordered three_levels_out (0, 0, 0, 0) three_levels_valid).
Defined.

(** C1, counterexample: three rows on MEM-ACC levels 1, 2, 3 form a valid
    table, and without a customized threshold the derivation yields
    0, 1, 1, 2, which is not strictly ascending. *)
Lemma mem_acc_adjacent_levels_not_strict :
  qcom_cpufreq_gen_params msm8998_soc_data 19200000 4 three_levels_src gen_out_init
    = Ok three_levels_out /\
  valid_row_table three_levels_out /\
  mem_acc_crossovers three_levels_out (0, 0, 0, 0) = Some [0; 1; 1; 2] /\
  ~ mem_acc_strictly_ordered [0; 1; 1; 2].
Proof.
  split; [exact three_levels_generated |].
  split; [exact three_levels_valid |].
  split; [vm_compute; reflexivity |].
  intros (a0 & a1 & a2 & a3 & Heq & H0 & H1 & H2 & H3).
  injection Heq as <- <- <- <-. lia.
Qed.

(** ** C2: the customized MEM-ACC corner *)

(** The parts of the adjustment that hold for every candidate: the
    candidate is lowered by exactly one; when the lowered value is below
    the upper pair's low bound the upper pair becomes (adjusted - 1,
    adjusted); and the repaired values are strictly ascending. *)
Lemma mem_acc_customize_adjusts acc_vc j k :
  j < k ->
  exists b0 b1 b2 b3,
    mem_acc_customize acc_vc [j - 1; j; k - 1; k] = [b0; b1; b2; b3] /\
    (acc_vc - 1 < k - 1 -> b2 = acc_vc - 1 - 1 /\ b3 = acc_vc - 1) /\
    (k <= acc_vc - 1 -> b2 = k - 1 /\ b3 = k) /\
    b0 < b1 /\ b1 < b2 /\ b2 < b3.
Proof.
  intros Hjk.
  destruct (mem_acc_customize_pairs acc_vc j k Hjk)
    as (b0 & b1 & b2 & b3 & Heq & H3 & H2 & H1 & H0).
  exists b0, b1, b2, b3. split; [exact Heq | lia].
Qed.

(** The lowest candidate the generator lets through is corner 3.  When it
    lies below the upper pair it always drives the lowest index to -1. *)
Lemma mem_acc_customize_candidate_3 j k :
  1 <= j < k -> 2 < k ->
  mem_acc_customize 3 [j - 1; j; k - 1; k] = [-1; 0; 1; 2].
Proof.
  intros Hjk Hk.
  destruct (mem_acc_customize_pairs 3 j k) as (b0 & b1 & b2 & b3 & -> & H3 & H2 & H1 & H0);
    [lia |].
  repeat f_equal; lia.
Qed.

(** C2, failing input: five rows on MEM-ACC levels 1, 2, 2, 2, 3 with the
    MEM-ACC threshold reached at corner 3.  The candidate 3 passes the
    generator's guard, the recorded pairs are (0,1) and (3,4), and the
    adjustment leaves -1, 0, 1, 2: the run succeeds and sends 0xFFFFFFFF
    as the first MEM-ACC index, to [SEQ_MEMACC_REG(seq_addr, 0)], which is
    0x179c0337 (sequencer base 0x179c0300 plus 55). *)
Lemma mem_acc_customize_negative_index :
  qcom_cpufreq_gen_params msm8998_soc_data 19200000 4 custom_acc_src gen_out_init
    = Ok custom_acc_out /\
  mem_acc_is_custom (acc_vc custom_acc_out) = true /\
  acc_val (mem_acc_scan (Z.to_nat LUT_MAX_ENTRIES) 0 (hw_tbl custom_acc_out)
             (num_entries custom_acc_out) (lut_loop_init (0, 0, 0, 0)))
    = [0; 1; 3; 4] /\
  mem_acc_crossovers custom_acc_out (0, 0, 0, 0) = Some [-1; 0; 1; 2] /\
  let r := qcom_cpufreq_hw_write_lut msm8998_data 19200000 (Some osm_domain0)
             custom_acc_src 4 (0, 0, 0, 0) boot_world in
  fst r = Ok tt /\
  trace (snd r) !! 201%nat
    = Some (EvScmIoWritel (SEQ_MEMACC_REG (osm_domain0 + 0x300) 0) (2 ^ 32 - 1)).
Proof.
  repeat split; vm_compute; reflexivity.
Qed.

(** ** C3: the APM threshold corner *)

(** C3, failing input: three operating points at 500, 600 and 700 mV
    against an APM threshold of 750 mV.  No voltage reaches the threshold,
    the generated [apm_vc] is -1, and the run succeeds with 0xFFFFFFFF sent
    as the APM threshold corner (0xFFFFFFFE as its predecessor), not 39. *)
Lemma apm_threshold_unreached_not_defaulted :
  (forall o, In o (opps three_levels_src) -> u32 (opp_voltage o) < 750000) /\
  qcom_cpufreq_gen_params msm8998_soc_data 19200000 4 three_levels_src gen_out_init
    = Ok three_levels_out /\
  apm_vc three_levels_out = -1 /\
  let r := qcom_cpufreq_hw_write_lut msm8998_data 19200000 (Some osm_domain0)
             three_levels_src 4 (0, 0, 0, 0) boot_world in
  let seq_addr := osm_domain0 + 0x300 in
  fst r = Ok tt /\
  trace_tail 3 (trace (snd r))
    = [ EvScmIoWritel (SEQUENCER_REG seq_addr SEQ_APM_THRESH_VC) (2 ^ 32 - 1);
        EvScmIoWritel (SEQUENCER_REG seq_addr SEQ_APM_THRESH_PREVC) (2 ^ 32 - 2);
        EvScmIoWritel (SEQUENCER_REG seq_addr SEQ_APM_PARAM) (2 ^ 32 - 7) ] /\
  2 ^ 32 - 1 <> LUT_MAX_ENTRIES - 1.
Proof.
  split.
  { intros o Hin. cbn in Hin.
    destruct Hin as [<- | [<- | [<- | []]]]; vm_compute; reflexivity. }
  split; [exact three_levels_generated |].
  split; [reflexivity |].
  cbv zeta. split; [vm_compute; reflexivity |].
  split; [vm_compute; reflexivity |].
  vm_compute. discriminate.
Qed.

(** ** C4: padding of the LUT *)

(** C4: once the table is generated, for every padding slot i with
    num_entries <= i <= 39 the writes of slot i to the voltage, frequency,
    override and spare arrays carry the fields of the last real row, the
    one at index num_entries - 1.  The events of slot i follow the write of
    the slot number to the index array, at offset 5 * i of the run. *)
Theorem lut_padding_repeats_last_row {D : Type} `{Platform D}
    (ddata : qcom_cpufreq_data) (xo_rate start cpu_count : Z)
    (src : genpd_source) (g : Z * Z * Z * Z) (out : gen_out)
    (w : world D) (i : Z) :
  qcom_cpufreq_gen_params (soc_data ddata) xo_rate cpu_count src gen_out_init = Ok out ->
  2 <= num_entries out ->
  num_entries out <= i <= LUT_MAX_ENTRIES - 1 ->
  let tr := trace (snd (qcom_cpufreq_hw_write_lut ddata xo_rate (Some start) src
                          cpu_count g w)) in
  let sdata := soc_data ddata in
  let pos := i * lut_row_size sdata in
  let slot (r : nat) := tr !! (length (trace w) + (5 * Z.to_nat i + r))%nat in
  exists last,
    hw_tbl out !! Z.to_nat (num_entries out - 1) = Some last /\
    slot 0%nat = Some (EvWritel (u32 i) (base ddata + reg_index sdata + pos)) /\
    slot 1%nat = Some (EvWritel (u32 (volt_lut_val last))
                                (base ddata + reg_volt_lut sdata + pos)) /\
    slot 2%nat = Some (EvWritel (u32 (freq_lut_val last))
                                (base ddata + reg_freq_lut sdata + pos)) /\
    slot 3%nat = Some (EvWritel (u32 (override_val last))
                                (base ddata + reg_override (setup_regs sdata) + pos)) /\
    slot 4%nat = Some (EvWritel (u32 (spare_val last))
                                (base ddata + reg_spare (setup_regs sdata) + pos)).
Proof.
  intros Hgen Hnum Hi tr sdata pos slot.
  destruct (gen_params_last_row _ _ _ _ _ Hgen Hnum) as [last Hlast].
  exists last. split; [exact Hlast |].
  destruct (write_lut_trace ddata xo_rate start src cpu_count g out w Hgen Hnum)
    as [rest Htr].
  assert (Hentry : lut_entry (hw_tbl out) (num_entries out) i = last).
  { unfold lut_entry. destruct (Z.ltb_spec i (num_entries out)); [lia |].
    now apply list_lookup_total_correct. }
  assert (Hslot : forall r, (r < 5)%nat ->
            slot r = lut_row_events ddata i last !! r).
  { intros r Hr. unfold slot, tr. rewrite Htr.
    rewrite lookup_app_r by lia.
    replace (length (trace w) + (5 * Z.to_nat i + r) - length (trace w))%nat
      with (5 * Z.to_nat i + r)%nat by lia.
    rewrite lookup_app_l
      by (rewrite lut_events_length; unfold LUT_MAX_ENTRIES in *; lia).
    rewrite lut_events_lookup by (unfold LUT_MAX_ENTRIES in *; lia).
    replace (0 + Z.of_nat (Z.to_nat i)) with i by lia.
    now rewrite Hentry. }
  rewrite !Hslot by lia. repeat split.
Qed.

Lemma lut_padding_repeats_last_row_witness :
  qcom_cpufreq_gen_params (soc_data msm8998_data) 19200000 4 three_levels_src
    gen_out_init = Ok three_levels_out /\
  2 <= num_entries three_levels_out /\
  num_entries three_levels_out <= 17 <= LUT_MAX_ENTRIES - 1 /\
  let tr := trace (snd (qcom_cpufreq_hw_write_lut msm8998_data 19200000
                          (Some osm_domain0) three_levels_src 4 (0, 0, 0, 0)
                          boot_world)) in
  tr !! 86%nat = Some (EvWritel 131772 (0x17900000 + 0x158 + 17 * 32)) /\
  tr !! 87%nat = Some (EvWritel 67371054 (0x17900000 + 0x154 + 17 * 32)) /\
  tr !! 88%nat = Some (EvWritel 16384 (0x17900000 + 0x15c + 17 * 32)) /\
  tr !! 89%nat = Some (EvWritel 3 (0x17900000 + 0x164 + 17 * 32)).
Proof.
  assert (Hnum : 2 <= num_entries three_levels_out) by (cbn; lia).
  assert (Hi : num_entries three_levels_out <= 17 <= LUT_MAX_ENTRIES - 1)
    by (cbn; unfold LUT_MAX_ENTRIES; lia).
  split; [exact three_levels_generated |]. split; [exact Hnum |].
  split; [exact Hi |].
  destruct (lut_padding_repeats_last_row msm8998_data 19200000 osm_domain0 4
              three_levels_src (0, 0, 0, 0) three_levels_out boot_world 17
              three_levels_generated Hnum Hi)
    as (last & Hlast & _ & Hv & Hf & Ho & Hs).
  cbn in Hlast. injection Hlast as <-.
  intros tr. split; [exact Hv |]. split; [exact Hf |]. split; [exact Ho | exact Hs].
Defined.

(** ** C5: the ACD sequence *)

(** C5, as amended: when the ACD block is present and every transfer is
    confirmed, the initialization performs, in order: the delay, control,
    soft-start, initial external-interface and transfer-control writes; an
    auto-transfer of those four registers (mask to the config register,
    start bit 0 then 1, poll of status bit 0 every 1 us for up to 3 us); the
    manual transfer of the clock-mux select; the software-DCVS pulse (set,
    then clear); a 1 us delay; the manual transfer of the final
    external-interface value; and last a single write of the accumulated
    mask, with the clock-mux-select bit, to the auto-transfer config
    register, with no start pulse and no status poll, followed by the
    boot-time delay of 5 us. *)
Theorem acd_init_sequence {D : Type} `{Platform D} (data : qcom_cpufreq_data)
    (acd_base : Z) (w : world D) :
  fst (qcom_cpufreq_hw_acd_init data (Some acd_base) w) = Ok tt ->
  trace (snd (qcom_cpufreq_hw_acd_init data (Some acd_base) w))
  = trace w ++ acd_init_events (acd_data (soc_data data)) acd_base.
Proof.
  intros Hok. exact (emits_acd_init data acd_base w tt Hok).
Qed.

Lemma acd_init_sequence_witness :
  let w : world unit := {| hw := tt; trace := [] |} in
  fst (qcom_cpufreq_hw_acd_init msm8998_data (Some osm_acd0) w) = Ok tt /\
  trace (snd (qcom_cpufreq_hw_acd_init msm8998_data (Some osm_acd0) w))
  = trace w ++ acd_init_events (acd_data (soc_data msm8998_data)) osm_acd0.
Proof.
  intros w.
  assert (Hok : fst (qcom_cpufreq_hw_acd_init msm8998_data (Some osm_acd0) w) = Ok tt)
    by (vm_compute; reflexivity).
  split; [exact Hok |].
  exact (acd_init_sequence msm8998_data osm_acd0 w Hok).
Defined.

(** C5, counterexample: on a device that confirms every transfer at once,
    the msm8998 initialization succeeds and its run does not end with an
    auto-transfer followed by the settle delay: the last events are the
    poll of the manual transfer, one write to the config register and the
    delay. *)
Lemma acd_final_step_is_not_autoxfer :
  let w : world unit := {| hw := tt; trace := [] |} in
  let aregs := acd_data (soc_data msm8998_data) in
  let r := qcom_cpufreq_hw_acd_init msm8998_data (Some osm_acd0) w in
  fst r = Ok tt /\
  trace_tail 3 (trace (snd r))
    = [ EvPoll (osm_acd0 + write_sts_reg aregs)
               (qcom_cpufreq_acd_regbit (ext_intf_reg aregs)) 1 3;
        EvWritel (Z.lor (acd_rmask aregs) (qcom_cpufreq_acd_regbit (gfmux_cfg_reg aregs)))
                 (osm_acd0 + auto_xfer_cfg_reg aregs);
        EvUdelay OSM_BOOT_TIME_US ] /\
  ~ (exists pre mask,
       trace (snd r)
       = pre ++ autoxfer_events aregs osm_acd0 mask ++ [EvUdelay OSM_BOOT_TIME_US]).
Proof.
  intros w aregs r.
  split; [vm_compute; reflexivity |].
  split; [vm_compute; reflexivity |].
  intros (pre & mask & Heq).
  assert (Htail : trace_tail 5 (trace (snd r))
                  = [ EvWritel 0 396296336; EvWritel 25 396296336;
                      EvPoll 396296340 4096 1 3; EvWritel 37894 396296320;
                      EvUdelay 5 ]) by (vm_compute; reflexivity).
  rewrite Heq in Htail.
  rewrite trace_tail_app in Htail by reflexivity.
  cbn in Htail. discriminate Htail.
Qed.

(** ** C6: GetCurrent after SetIndex *)

(** C6: for every index i in [0, entry_count) of a resolved table,
    GetCurrent after SetIndex(i) returns the frequency of row i.  Nothing
    is assumed about the run itself: the hardware is asked to read back
    from a register the value last written to it, and the calls into the
    OPP framework that SetIndex makes for its bandwidth vote to leave the
    registers alone (no change of the performance-state register other
    than the write of the driver). *)
Theorem get_after_set_roundtrip {D : Type} `{Platform D}
    (icc_scaling_enabled : bool) (registry : gmap Z cpufreq_policy)
    (policy : cpufreq_policy) (cpu i : Z) (w : world D) :
  (forall v a d, fst (hw_readl a (hw_writel v a d)) = v) ->
  (forall c a d, fst (hw_readl a (snd (hw_opp_call c d))) = fst (hw_readl a d)) ->
  registry !! cpu = Some policy ->
  resolved_table (freq_table policy) ->
  0 <= i < entry_count (freq_table policy) ->
  let r := qcom_cpufreq_hw_target_index icc_scaling_enabled policy i w in
  exists row,
    freq_table policy !! Z.to_nat i = Some row /\
    fst r = Ok 0 /\
    fst (qcom_cpufreq_hw_get registry cpu (snd r)) = Ok (frequency row).
Proof.
  intros Hback Hopp Hreg [Hlen Hcount] Hi r.
  destruct (entry_count_lookup _ _ Hi) as [row Hrow].
  exists row. split; [exact Hrow |].
  pose proof (target_index_registers icc_scaling_enabled policy i row w
                (base (driver_data policy) + reg_perf_state (soc_data (driver_data policy)))
                Hopp Hrow) as Hread.
  rewrite Hback in Hread.
  destruct (target_index_run icc_scaling_enabled policy i row w Hrow)
    as (w2 & t & Hrun & _).
  subst r. rewrite Hrun in *. cbn [fst snd] in *. split; [reflexivity |].
  unfold qcom_cpufreq_hw_get. rewrite Hreg.
  unfold bind, readl, with_hw.
  destruct (hw_readl (base (driver_data policy)
                      + reg_perf_state (soc_data (driver_data policy))) (hw w2)) as [v d].
  cbn [fst] in Hread. subst v. cbn.
  assert (Hu : u32 i = i)
    by (unfold u32; apply Z.mod_small; unfold LUT_MAX_ENTRIES in *; lia).
  rewrite !Hu, Z.min_l by (unfold LUT_MAX_ENTRIES in *; lia).
  rewrite Hrow. reflexivity.
Qed.

Lemma get_after_set_roundtrip_witness :
  (forall v a (d : gmap Z Z), fst (hw_readl a (hw_writel v a d)) = v) /\
  (forall c a (d : gmap Z Z), fst (hw_readl a (snd (hw_opp_call c d))) = fst (hw_readl a d)) /\
  demo_registry !! 0 = Some demo_policy /\
  resolved_table (freq_table demo_policy) /\
  0 <= 1 < entry_count (freq_table demo_policy) /\
  let r := qcom_cpufreq_hw_target_index true demo_policy 1 boot_world in
  exists row,
    freq_table demo_policy !! Z.to_nat 1 = Some row /\
    fst r = Ok 0 /\
    fst (qcom_cpufreq_hw_get demo_registry 0 (snd r)) = Ok (frequency row).
Proof.
  assert (Hback : forall v a (d : gmap Z Z), fst (hw_readl a (hw_writel v a d)) = v).
  { intros v a d. cbn. now rewrite lookup_insert_eq. }
  assert (Hopp : forall c a (d : gmap Z Z),
            fst (hw_readl a (snd (hw_opp_call c d))) = fst (hw_readl a d))
    by reflexivity.
  assert (Hreg : demo_registry !! 0 = Some demo_policy) by reflexivity.
  assert (Hi : 0 <= 1 < entry_count (freq_table demo_policy))
    by (vm_compute; split; [discriminate | reflexivity]).
  split; [exact Hback |]. split; [exact Hopp |].
  split; [exact Hreg |]. split; [exact demo_table_resolved |].
  split; [exact Hi |].
  exact (get_after_set_roundtrip true demo_registry demo_policy 0 1 boot_world
           Hback Hopp Hreg demo_table_resolved Hi).
Defined.

(** ** C7: the poll state machine *)

(** C7: a poll first publishes the throttled frequency, then acts under
    the lock.  If cancellation was requested it does nothing more
    (Cancelled).  Otherwise, when the throttled frequency is at or above
    the frequency currently requested it re-enables the interrupt line and
    schedules nothing (IrqArmed); when it is lower it schedules exactly one
    further poll 10 ms later and leaves the interrupt disabled (Polling). *)
Theorem lmh_poll_transitions {D : Type} `{Platform D} (nr_cpu_ids : Z)
    (registry : gmap Z cpufreq_policy) (data : qcom_cpufreq_data)
    (policy : cpufreq_policy) (w : world D) :
  exists throttled w1,
    lmh_throttled_freq nr_cpu_ids data policy w = (Ok throttled, w1) /\
    let cpu := cpumask_first nr_cpu_ids (cpus policy) in
    let r := qcom_lmh_dcvs_notify nr_cpu_ids registry data policy w in
    let irq := throttle_irq data in
    (cancel_throttle data = true ->
     fst r = Ok tt /\
     trace (snd r) = trace w1 ++ [EvMutexLock; EvMutexUnlock] /\
     mode_after_poll data [EvMutexLock; EvMutexUnlock] = Cancelled) /\
    (forall requested,
       cancel_throttle data = false ->
       requested_freq registry cpu (hw w1) = Ok requested ->
       (requested <= throttled ->
        fst r = Ok tt /\
        trace (snd r) = trace w1 ++ [EvMutexLock; EvEnableIrq irq; EvMutexUnlock] /\
        mode_after_poll data [EvMutexLock; EvEnableIrq irq; EvMutexUnlock] = IrqArmed) /\
       (throttled < requested ->
        fst r = Ok tt /\
        trace (snd r) = trace w1 ++ [EvMutexLock; EvModDelayedWork 10; EvMutexUnlock] /\
        mode_after_poll data [EvMutexLock; EvModDelayedWork 10; EvMutexUnlock] = Polling)).
Proof.
  destruct (lmh_throttled_freq_run nr_cpu_ids data policy w) as (throttled & w1 & Hrun & _).
  exists throttled, w1. split; [exact Hrun |].
  intros cpu r irq. subst r. unfold qcom_lmh_dcvs_notify, bind. rewrite Hrun.
  split.
  - intros Hc. rewrite (lmh_rearm_cancelled _ _ _ _ _ _ Hc). cbn [fst snd trace].
    unfold mode_after_poll. rewrite Hc. repeat split.
  - intros requested Hc Hreq.
    destruct (lmh_rearm_active nr_cpu_ids registry data policy throttled requested w1
                Hc Hreq) as (w4 & Hrearm & Htr).
    rewrite Hrearm. cbn [fst snd].
    assert (Hok : Ok tt = Ok tt :> result unit) by reflexivity.
    unfold mode_after_poll. rewrite Hc. split; intros Hcmp.
    + destruct (Z.leb_spec requested throttled); [| lia].
      split; [exact Hok |]. split; [exact Htr |].
      rewrite bool_decide_eq_true_2; [reflexivity |]. set_solver.
    + destruct (Z.leb_spec requested throttled); [lia |].
      split; [exact Hok |]. split; [exact Htr |].
      rewrite bool_decide_eq_false_2; [reflexivity |].
      intros Hin. repeat (apply elem_of_cons in Hin as [Hin | Hin]; [discriminate |]).
      now apply elem_of_nil in Hin.
Qed.

Lemma lmh_poll_transitions_witness :
  (* cancellation requested, hardware vote 31 * 19.2 MHz *)
  (cancel_throttle (sdm845_data true) = true /\
   trace (snd (qcom_lmh_dcvs_notify 8 (sdm845_registry true) (sdm845_data true)
                 (sdm845_policy true) (throttled_world 31)))
   = [EvThermalPressure [0; 1; 2; 3] 595200; EvMutexLock; EvMutexUnlock]) /\
  (* requested 900 MHz, hardware vote 62 * 19.2 MHz *)
  (cancel_throttle (sdm845_data false) = false /\
   requested_freq (sdm845_registry false) 0 (hw (throttled_world 62)) = Ok 900000 /\
   900000 <= 1190400 /\
   trace (snd (qcom_lmh_dcvs_notify 8 (sdm845_registry false) (sdm845_data false)
                 (sdm845_policy false) (throttled_world 62)))
   = [EvThermalPressure [0; 1; 2; 3] 1190400; EvMutexLock; EvEnableIrq 33;
      EvMutexUnlock]) /\
  (* requested 900 MHz, hardware vote 31 * 19.2 MHz *)
  (requested_freq (sdm845_registry false) 0 (hw (throttled_world 31)) = Ok 900000 /\
   595200 < 900000 /\
   trace (snd (qcom_lmh_dcvs_notify 8 (sdm845_registry false) (sdm845_data false)
                 (sdm845_policy false) (throttled_world 31)))
   = [EvThermalPressure [0; 1; 2; 3] 595200; EvMutexLock; EvModDelayedWork 10;
      EvMutexUnlock]).
Proof.
  assert (Hreq62 : requested_freq (sdm845_registry false) 0 (hw (throttled_world 62))
                   = Ok 900000) by (vm_compute; reflexivity).
  assert (Hreq31 : requested_freq (sdm845_registry false) 0 (hw (throttled_world 31))
                   = Ok 900000) by (vm_compute; reflexivity).
  split; [| split].
  - split; [reflexivity |].
    destruct (lmh_poll_transitions 8 (sdm845_registry true) (sdm845_data true)
                (sdm845_policy true) (throttled_world 31))
      as (throttled & w1 & Hrun & Hcancel & _).
    vm_compute in Hrun. injection Hrun as <- <-.
    destruct (Hcancel eq_refl) as (_ & Htr & _). exact Htr.
  - split; [reflexivity |]. split; [exact Hreq62 |]. split; [lia |].
    destruct (lmh_poll_transitions 8 (sdm845_registry false) (sdm845_data false)
                (sdm845_policy false) (throttled_world 62))
      as (throttled & w1 & Hrun & _ & Hactive).
    vm_compute in Hrun. injection Hrun as <- <-.
    destruct (Hactive 900000 eq_refl Hreq62) as [Harm _].
    destruct Harm as (_ & Htr & _); [lia | exact Htr].
  - split; [exact Hreq31 |]. split; [lia |].
    destruct (lmh_poll_transitions 8 (sdm845_registry false) (sdm845_data false)
                (sdm845_policy false) (throttled_world 31))
      as (throttled & w1 & Hrun & _ & Hactive).
    vm_compute in Hrun. injection Hrun as <- <-.
    destruct (Hactive 900000 eq_refl Hreq31) as [_ Hpoll].
    destruct Hpoll as (_ & Htr & _); [lia | exact Htr].
Defined.

(** ** C9: SetIndex reports success *)

(** C9: SetIndex always reports success.  For every index of the table,
    whether or not bandwidth scaling is enabled and whatever the platform
    answers to the bandwidth vote, [qcom_cpufreq_hw_target_index] returns
    0 and its first action is the write of the index to the
    performance-state register. *)
Theorem target_index_always_succeeds {D : Type} `{Platform D}
    (icc_scaling_enabled : bool) (policy : cpufreq_policy) (index : Z) (w : world D) :
  is_Some (freq_table policy !! Z.to_nat index) ->
  let data := driver_data policy in
  let r := qcom_cpufreq_hw_target_index icc_scaling_enabled policy index w in
  fst r = Ok 0 /\
  exists t, trace (snd r)
            = trace w ++ EvWritel (u32 index) (base data + reg_perf_state (soc_data data)) :: t.
Proof.
  intros [row Hrow] data r.
  destruct (target_index_run icc_scaling_enabled policy index row w Hrow)
    as (w2 & t & Hrun & Htrace).
  subst r. rewrite Hrun. split; [reflexivity | exists t; exact Htrace].
Qed.

Lemma target_index_always_succeeds_witness :
  let w : world refusing := {| hw := {| regs := ∅; refused := 0 |}; trace := [] |} in
  is_Some (freq_table demo_policy !! Z.to_nat 1) /\
  fst (qcom_cpufreq_set_bw demo_policy 600000 w) = Err EINVAL /\
  let r := qcom_cpufreq_hw_target_index true demo_policy 1 w in
  fst r = Ok 0 /\
  exists t, trace (snd r) = trace w ++ EvWritel (u32 1) (0x17900000 + 0xf10) :: t.
Proof.
  intros w.
  assert (Hrow : is_Some (freq_table demo_policy !! Z.to_nat 1)) by (eexists; reflexivity).
  split; [exact Hrow |]. split; [vm_compute; reflexivity |].
  exact (target_index_always_succeeds true demo_policy 1 w Hrow).
Defined.

(** ** C10: GetCurrent is total *)

(** C10: GetCurrent is total.  For a CPU without a registered policy it
    returns 0 and touches nothing; with a policy on a resolved table it
    clamps the index read from the performance-state register to at most
    39 = LUT_MAX_ENTRIES - 1, which is inside the 41 rows, and returns the
    frequency of that row. *)
Theorem hw_get_total {D : Type} `{Platform D} (registry : gmap Z cpufreq_policy)
    (cpu : Z) (w : world D) :
  (registry !! cpu = None -> qcom_cpufreq_hw_get registry cpu w = (Ok 0, w)) /\
  (forall policy,
     registry !! cpu = Some policy ->
     resolved_table (freq_table policy) ->
     let data := driver_data policy in
     let index := Z.min (u32 (fst (hw_readl (base data + reg_perf_state (soc_data data))
                                            (hw w))))
                        (LUT_MAX_ENTRIES - 1) in
     0 <= index <= LUT_MAX_ENTRIES - 1 /\
     index < Z.of_nat (length (freq_table policy)) /\
     exists row,
       freq_table policy !! Z.to_nat index = Some row /\
       fst (qcom_cpufreq_hw_get registry cpu w) = Ok (frequency row)).
Proof.
  split.
  - intros Hreg. unfold qcom_cpufreq_hw_get. rewrite Hreg. reflexivity.
  - intros policy Hreg [Hlen Hcount] data index.
    assert (Hu : 0 <= u32 (fst (hw_readl (base data + reg_perf_state (soc_data data))
                                         (hw w))))
      by (unfold u32; apply Z.mod_pos_bound; lia).
    assert (Hidx : 0 <= index <= LUT_MAX_ENTRIES - 1)
      by (subst index; unfold LUT_MAX_ENTRIES; lia).
    assert (Hin : index < Z.of_nat (length (freq_table policy)))
      by (unfold LUT_MAX_ENTRIES in *; lia).
    split; [exact Hidx |]. split; [exact Hin |].
    assert (Hsome : is_Some (freq_table policy !! Z.to_nat index))
      by (apply lookup_lt_is_Some; lia).
    destruct Hsome as [row Hrow]. exists row. split; [exact Hrow |].
    unfold qcom_cpufreq_hw_get. rewrite Hreg. fold data.
    unfold bind, readl, with_hw. subst index.
    destruct (hw_readl (base data + reg_perf_state (soc_data data)) (hw w)) as [v d].
    cbn in *. rewrite Hrow. reflexivity.
Qed.

Lemma hw_get_total_witness :
  let w : world (gmap Z Z) := {| hw := {[ 0x17900000 + 0xf10 := 1000 ]}; trace := [] |} in
  demo_registry !! 7 = None /\
  qcom_cpufreq_hw_get demo_registry 7 w = (Ok 0, w) /\
  demo_registry !! 0 = Some demo_policy /\
  resolved_table (freq_table demo_policy) /\
  exists row,
    freq_table demo_policy !! 39%nat = Some row /\
    fst (qcom_cpufreq_hw_get demo_registry 0 w) = Ok (frequency row).
Proof.
  intros w.
  assert (Hnone : demo_registry !! 7 = None) by reflexivity.
  assert (Hsome : demo_registry !! 0 = Some demo_policy) by reflexivity.
  split; [exact Hnone |].
  split; [exact (proj1 (hw_get_total demo_registry 7 w) Hnone) |].
  split; [exact Hsome |]. split; [exact demo_table_resolved |].
  destruct (proj2 (hw_get_total demo_registry 0 w) demo_policy Hsome demo_table_resolved)
    as (_ & _ & row & Hrow & Hget).
  exists row. split; [exact Hrow | exact Hget].
Defined.
(** * Further properties of the driver *)

(** ** Bit fields *)

Lemma u32_land_low (x m : Z) : 0 <= m < 2 ^ 32 -> Z.land (u32 x) m = Z.land x m.
Proof.
  intros Hm. unfold u32. rewrite <- (Z.land_ones x 32) by lia.
  rewrite <- Z.land_assoc. f_equal.
  change (Z.ones 32) with (2 ^ 32 - 1).
  apply Z.bits_inj'. intros n Hn. rewrite Z.land_spec.
  destruct (Z.testbit m n) eqn:Hbit; [| apply andb_false_r].
  rewrite andb_true_r.
  destruct (Z_lt_ge_dec n 32) as [Hlt | Hge].
  - change (2 ^ 32 - 1) with (Z.ones 32). apply Z.ones_spec_low. lia.
  - exfalso. rewrite (Z.bits_above_log2 m n) in Hbit; [discriminate | lia |].
    destruct (Z.eq_dec m 0) as [-> | Hne]; [cbn; lia |].
    apply Z.log2_lt_pow2; [lia |].
    eapply Z.lt_le_trans; [apply Hm |]. apply Z.pow_le_mono_r; lia.
Qed.

Lemma land_low_small (x : Z) (n : Z) :
  0 <= n -> 0 <= x < 2 ^ n -> Z.land x (Z.ones n) = x.
Proof. intros Hn Hx. rewrite Z.land_ones by lia. apply Z.mod_small. lia. Qed.

(** ** Generated tables, row by row *)

Section GenRows.
Variable sdata : qcom_cpufreq_soc_data.
Variable xo_rate cpu_count : Z.

Lemma corner_after_found thr i cur vis : 0 <= cur -> corner_after thr i cur vis = cur.
Proof. intros Hc. unfold corner_after. destruct (Z.ltb_spec cur 0); [lia | reflexivity]. Qed.

Lemma corner_after_nil thr i cur : corner_after thr i cur [] = cur.
Proof. unfold corner_after. cbn. now destruct (cur <? 0). Qed.

Lemma corner_after_cons thr i cur o vis :
  0 <= i ->
  corner_after thr (i + 1)
    (if (thr <=? opp_uV o) && (cur <? 0) then i else cur) vis
  = corner_after thr i cur (o :: vis).
Proof.
  intros Hi. unfold corner_after at 2. cbn [list_find].
  destruct (Z.ltb_spec cur 0) as [Hneg | Hpos].
  - rewrite andb_true_r. destruct (Z.leb_spec thr (opp_uV o)) as [Hle | Hlt].
    + rewrite decide_True by exact Hle. cbn.
      rewrite corner_after_found by lia. lia.
    + rewrite decide_False by lia. unfold corner_after.
      destruct (Z.ltb_spec cur 0); [| lia].
      destruct (list_find _ vis) as [[k o'] |]; cbn; [lia | reflexivity].
  - rewrite andb_false_r. apply corner_after_found. exact Hpos.
Qed.

(** The loop of the generator walks the operating points upwards and
    appends one row for each; the two threshold corners are the first
    crossings. *)
Lemma gen_loop_run_walk fuel src apm_uV acc_uV : forall s s',
  0 <= g_i s ->
  gen_loop_run sdata xo_rate cpu_count fuel src apm_uV acc_uV s = Ok s' ->
  exists n : nat,
    let vis := opp_walk n (opps src) (g_rate s) in
    length vis = n /\
    g_i s' = g_i s + Z.of_nat n /\
    (n = 0%nat \/ g_i s' <= gpd_opp_cnt src) /\
    g_tbl s' = g_tbl s ++ gen_rows sdata xo_rate cpu_count (g_i s) vis /\
    Forall opp_accepted vis /\
    g_apm_vc s' = corner_after apm_uV (g_i s) (g_apm_vc s) vis /\
    g_acc_vc s' = corner_after acc_uV (g_i s) (g_acc_vc s) vis.
Proof.
  induction fuel as [| fuel IH]; intros s s' Hi Hrun; cbn [gen_loop_run] in Hrun.
  { injection Hrun as <-. exists 0%nat. cbn.
    rewrite app_nil_r, Z.add_0_r, !corner_after_nil. repeat split; auto. }
  assert (Hstop : s' = s ->
    exists n : nat,
      let vis := opp_walk n (opps src) (g_rate s) in
      length vis = n /\ g_i s' = g_i s + Z.of_nat n /\
      (n = 0%nat \/ g_i s' <= gpd_opp_cnt src) /\
      g_tbl s' = g_tbl s ++ gen_rows sdata xo_rate cpu_count (g_i s) vis /\
      Forall opp_accepted vis /\
      g_apm_vc s' = corner_after apm_uV (g_i s) (g_apm_vc s) vis /\
      g_acc_vc s' = corner_after acc_uV (g_i s) (g_acc_vc s) vis).
  { intros ->. exists 0%nat. cbn.
    rewrite app_nil_r, Z.add_0_r, !corner_after_nil. repeat split; auto. }
  destruct (negb (g_i s <=? gpd_opp_cnt src)); [injection Hrun as <-; now apply Hstop |].
  destruct (dev_pm_opp_find_freq_ceil (opps src) (g_rate s)) as [o |] eqn:Hfind;
    [| injection Hrun as <-; now apply Hstop].
  clear Hstop.
  destruct (opp_has_node o) eqn:Hnode; cbn [negb] in Hrun; [| discriminate].
  destruct (opp_pll_override o) as [override |] eqn:Hovr; [| discriminate].
  destruct (Z.leb_spec (gpd_opp_cnt src) (g_i s)) as [| Hcnt]; [discriminate |].
  fold (opp_uV o) in Hrun.
  destruct (Z.ltb_spec (opp_uV o / 1000) 150) as [| Hlo]; [discriminate |].
  destruct (Z.ltb_spec 1400 (opp_uV o / 1000)) as [| Hhi]; [discriminate |].
  cbn [orb] in Hrun.
  apply IH in Hrun; [| cbn; lia].
  destruct Hrun as (n & Hlen & Hgi & Hle & Htbl & Hacc & Hapm & Hacv).
  cbn [g_i g_rate g_tbl g_apm_vc g_acc_vc] in *.
  exists (S n). cbn [opp_walk]. rewrite Hfind. cbn zeta. cbn [length gen_rows].
  split; [now rewrite Hlen |].
  split; [lia |].
  split; [right; destruct Hle as [-> | Hle]; lia |].
  split.
  { rewrite Htbl, <- app_assoc. cbn. unfold opp_mV, opp_uV. now rewrite Hovr. }
  split.
  { constructor; [| exact Hacc]. unfold opp_accepted, opp_mV.
    fold (opp_uV o). rewrite Hovr. split; [exact Hnode |]. split; [by eexists | lia]. }
  split.
  - rewrite Hapm. now apply corner_after_cons.
  - rewrite Hacv. now apply corner_after_cons.
Qed.

(** A generation that succeeds on two operating points or more has walked
    exactly [gpd_opp_cnt] of them. *)
Lemma gen_params_success src out :
  qcom_cpufreq_gen_params sdata xo_rate cpu_count src gen_out_init = Ok out ->
  2 <= gpd_opp_cnt src ->
  exists cpr,
    cpr_data src = Some cpr /\ 0 < apm_threshold_uV cpr /\
    let vis := visited_opps src in
    Z.of_nat (length vis) = gpd_opp_cnt src /\
    hw_tbl out = gen_rows sdata xo_rate cpu_count 0 vis /\
    num_entries out = u8 (gpd_opp_cnt src) /\
    Forall opp_accepted vis /\
    apm_vc out = corner_after (apm_threshold_uV cpr) 0 (-1) vis /\
    acc_vc out
    = if mem_acc_threshold_uV cpr <=? 0 then U8_MAX
      else let k := corner_after (mem_acc_threshold_uV cpr) 0 (-1) vis in
           if negb (mem_acc_threshold_uV cpr =? INT_MAX) && (k <? SEQ_MEM_ACC_MAX_LEVELS - 1)
           then U8_MAX else k.
Proof.
  unfold qcom_cpufreq_gen_params. intros Hgen Hcnt.
  destruct (negb (attach_ret src =? 0)); [discriminate |].
  destruct (negb (genpd_vdev_ok src)); [discriminate |].
  destruct (cpr_data src) as [cpr |]; [| discriminate].
  destruct (Z.ltb_spec (gpd_opp_cnt src) 2) as [| _]; [lia |].
  destruct (Z.leb_spec (apm_threshold_uV cpr) 0) as [| Hapm]; [discriminate |].
  exists cpr. split; [reflexivity |]. split; [exact Hapm |].
  destruct (Z.leb_spec (mem_acc_threshold_uV cpr) 0) as [Hnoacc | Hacc].
  - destruct (gen_loop_run _ _ _ _ _ _ _ _) as [s | e |] eqn:Hrun; try discriminate.
    destruct (Z.ltb_spec (g_i s) (gpd_opp_cnt src)) as [| Hfull]; [discriminate |].
    injection Hgen as <-. cbn [hw_tbl apm_vc acc_vc num_entries].
    apply gen_loop_run_walk in Hrun; [| cbn; lia].
    destruct Hrun as (n & Hlen & Hgi & Hle & Htbl & Hok & Hapv & Hacv).
    cbn [g_i g_rate g_tbl g_apm_vc g_acc_vc] in *.
    assert (Hn : n = Z.to_nat (gpd_opp_cnt src)) by lia.
    unfold visited_opps. rewrite <- Hn.
    split; [lia |]. split; [exact Htbl |]. split; [f_equal; lia |].
    split; [exact Hok |]. split; [exact Hapv |].
    rewrite Hacv. apply corner_after_found. unfold U8_MAX. lia.
  - destruct (gen_loop_run _ _ _ _ _ _ _ _) as [s | e |] eqn:Hrun; try discriminate.
    destruct (Z.ltb_spec (g_i s) (gpd_opp_cnt src)) as [| Hfull]; [discriminate |].
    injection Hgen as <-. cbn [hw_tbl apm_vc acc_vc num_entries].
    apply gen_loop_run_walk in Hrun; [| cbn; lia].
    destruct Hrun as (n & Hlen & Hgi & Hle & Htbl & Hok & Hapv & Hacv).
    cbn [g_i g_rate g_tbl g_apm_vc g_acc_vc] in *.
    assert (Hn : n = Z.to_nat (gpd_opp_cnt src)) by lia.
    unfold visited_opps. rewrite <- Hn.
    split; [lia |]. split; [exact Htbl |]. split; [f_equal; lia |].
    split; [exact Hok |]. split; [exact Hapv |].
    cbn zeta. rewrite <- Hacv. reflexivity.
Qed.
End GenRows.

Section GenFields.
Variable sdata : qcom_cpufreq_soc_data.
Variable xo_rate cpu_count : Z.

Lemma gen_rows_lookup vis : forall i (k : nat),
  gen_rows sdata xo_rate cpu_count i vis !! k
  = (fun o => gen_entry sdata xo_rate cpu_count (i + Z.of_nat k) (opp_rate o) o
                (default 0 (opp_pll_override o)) (opp_mV o)) <$> vis !! k.
Proof.
  induction vis as [| o vis IH]; intros i k; [reflexivity |].
  destruct k as [| k]; cbn [gen_rows lookup list_lookup fmap option_fmap option_map].
  - now rewrite Z.add_0_r.
  - cbn. rewrite IH. destruct (vis !! k); cbn; [| reflexivity].
    do 2 f_equal. lia.
Qed.

Lemma gen_rows_length vis : forall i,
  length (gen_rows sdata xo_rate cpu_count i vis) = length vis.
Proof. induction vis as [| o vis IH]; intros i; cbn; [reflexivity | now rewrite IH]. Qed.

(** The voltage word of a row carries the millivolts in [LUT_VOLT] and the
    corner in [LUT_VOLT_VC]. *)
Lemma volt_field_roundtrip i mv :
  0 <= mv < 4096 ->
  FIELD_GET LUT_VOLT (Z.lor (FIELD_PREP LUT_VOLT_VC i) (FIELD_PREP LUT_VOLT mv)) = mv.
Proof.
  intros Hmv. unfold FIELD_GET, FIELD_PREP.
  change (ffs LUT_VOLT - 1) with 0. change (ffs LUT_VOLT_VC - 1) with 16.
  rewrite Z.shiftr_0_r, Z.shiftl_0_r, Z.land_lor_distr_l, <- !Z.land_assoc.
  change (Z.land LUT_VOLT_VC LUT_VOLT) with 0.
  rewrite Z.land_0_r, Z.lor_0_l, Z.land_diag.
  change LUT_VOLT with (Z.ones 12). apply land_low_small; lia.
Qed.

Lemma vc_field_roundtrip i mv :
  0 <= i < 64 ->
  FIELD_GET LUT_VOLT_VC (Z.lor (FIELD_PREP LUT_VOLT_VC i) (FIELD_PREP LUT_VOLT mv)) = i.
Proof.
  intros Hi. unfold FIELD_GET, FIELD_PREP.
  change (ffs LUT_VOLT - 1) with 0. change (ffs LUT_VOLT_VC - 1) with 16.
  rewrite Z.land_lor_distr_l, <- !Z.land_assoc.
  change (Z.land LUT_VOLT LUT_VOLT_VC) with 0.
  rewrite Z.land_0_r, Z.lor_0_r, Z.land_diag, Z.shiftr_land.
  rewrite Z.shiftr_shiftl_l by lia. rewrite Z.sub_diag, Z.shiftl_0_r.
  change (Z.shiftr LUT_VOLT_VC 16) with (Z.ones 6). apply land_low_small; lia.
Qed.

Lemma first_crossing_unique thr vis k k' :
  first_crossing thr vis k -> first_crossing thr vis k' -> k = k'.
Proof.
  intros [(o & Ho & Hge) Hlow] [(o' & Ho' & Hge') Hlow'].
  destruct (Nat.lt_trichotomy k k') as [Hlt | [-> | Hgt]]; [| reflexivity |].
  - specialize (Hlow' k o Hlt Ho). lia.
  - specialize (Hlow k' o' Hgt Ho'). lia.
Qed.

(** A threshold corner that starts unset ends at the first crossing, or
    stays unset when no voltage reaches the threshold. *)
Lemma corner_after_spec thr vis :
  (corner_after thr 0 (-1) vis = -1 /\ Forall (fun o => opp_uV o < thr) vis) \/
  (exists k, corner_after thr 0 (-1) vis = Z.of_nat k /\ first_crossing thr vis k).
Proof.
  unfold corner_after. replace (-1 <? 0) with true by reflexivity.
  destruct (list_find _ vis) as [[k o] |] eqn:Hfind.
  - right. exists k. split; [lia |].
    apply list_find_Some in Hfind as (Hk & Hge & Hlow).
    split; [now exists o |].
    intros j o' Hj Ho'. specialize (Hlow j o' Ho' Hj). lia.
  - left. split; [reflexivity |].
    apply list_find_None in Hfind. eapply Forall_impl; [exact Hfind |].
    cbn. intros o Ho. lia.
Qed.

Lemma corner_after_none thr vis :
  Forall (fun o => opp_uV o < thr) vis -> corner_after thr 0 (-1) vis = -1.
Proof.
  intros Hlow. destruct (corner_after_spec thr vis) as [[Hc _] | (k & _ & (o & Ho & Hge) & _)];
    [exact Hc |].
  rewrite Forall_lookup in Hlow. specialize (Hlow k o Ho). cbn in Hlow. lia.
Qed.

Lemma corner_after_first thr vis k :
  first_crossing thr vis k -> corner_after thr 0 (-1) vis = Z.of_nat k.
Proof.
  intros Hk. destruct (corner_after_spec thr vis) as [[_ Hlow] | (k' & Hc & Hk')].
  - destruct Hk as [(o & Ho & Hge) _].
    rewrite Forall_lookup in Hlow. specialize (Hlow k o Ho). cbn in Hlow. lia.
  - rewrite Hc. f_equal. eapply first_crossing_unique; eassumption.
Qed.

(** The walk only meets entries of the table, at or above the rate it
    starts from, and never the same one twice. *)
Lemma opp_walk_elems n tbl : forall rate o,
  o ∈ opp_walk n tbl rate -> o ∈ tbl /\ rate <= opp_rate o.
Proof.
  induction n as [| n IH]; intros rate o Hin; cbn [opp_walk] in Hin.
  - now apply elem_of_nil in Hin.
  - destruct (dev_pm_opp_find_freq_ceil tbl rate) as [o' |] eqn:Hfind;
      [| now apply elem_of_nil in Hin].
    apply find_some in Hfind as [Hin' Hle]. apply Z.leb_le in Hle.
    apply elem_of_cons in Hin as [-> | Hin].
    + split; [now apply list_elem_of_In | exact Hle].
    + apply IH in Hin as [Htbl Hrate]. split; [exact Htbl | lia].
Qed.

Lemma opp_walk_NoDup n tbl : forall rate, NoDup (opp_walk n tbl rate).
Proof.
  induction n as [| n IH]; intros rate; cbn [opp_walk]; [constructor |].
  destruct (dev_pm_opp_find_freq_ceil tbl rate) as [o |]; [| constructor].
  constructor; [| apply IH].
  intros Hin. apply opp_walk_elems in Hin as [_ Hrate]. lia.
Qed.

Lemma opp_walk_length_le n tbl rate :
  (length (opp_walk n tbl rate) <= length tbl)%nat.
Proof.
  apply submseteq_length, NoDup_submseteq; [apply opp_walk_NoDup |].
  intros o Hin. now apply opp_walk_elems in Hin as [Htbl _].
Qed.
End GenFields.

Lemma custom_acc_generated :
  qcom_cpufreq_gen_params msm8998_soc_data 19200000 4 custom_acc_src gen_out_init
  = Ok custom_acc_out.
Proof. vm_compute. reflexivity. Qed.

(** X1: a generation that succeeds on two operating points or more has
    found exactly [gpd_opp_cnt] of them by walking the table upwards from
    1000 Hz, hands back one row for each, and reports their number reduced
    modulo 256, the range of the [u8] it is returned in. *)
Theorem gen_params_one_row_per_opp (sdata : qcom_cpufreq_soc_data)
    (xo_rate cpu_count : Z) (src : genpd_source) (out : gen_out) :
  qcom_cpufreq_gen_params sdata xo_rate cpu_count src gen_out_init = Ok out ->
  2 <= gpd_opp_cnt src ->
  Z.of_nat (length (visited_opps src)) = gpd_opp_cnt src /\
  Z.of_nat (length (hw_tbl out)) = gpd_opp_cnt src /\
  num_entries out = gpd_opp_cnt src mod 256.
Proof.
  intros Hgen Hcnt.
  destruct (gen_params_success _ _ _ _ _ Hgen Hcnt)
    as (cpr & _ & _ & Hlen & Htbl & Hnum & _).
  split; [exact Hlen |]. split; [| exact Hnum].
  now rewrite Htbl, gen_rows_length.
Qed.

Lemma gen_params_one_row_per_opp_witness :
  qcom_cpufreq_gen_params msm8998_soc_data 19200000 4 custom_acc_src gen_out_init
    = Ok custom_acc_out /\
  2 <= gpd_opp_cnt custom_acc_src /\
  Z.of_nat (length (visited_opps custom_acc_src)) = 5 /\
  Z.of_nat (length (hw_tbl custom_acc_out)) = 5 /\
  num_entries custom_acc_out = 5.
Proof.
  assert (Hcnt : 2 <= gpd_opp_cnt custom_acc_src) by (cbn; lia).
  split; [exact custom_acc_generated |]. split; [exact Hcnt |].
  exact (gen_params_one_row_per_opp msm8998_soc_data 19200000 4 custom_acc_src
           custom_acc_out custom_acc_generated Hcnt).
Defined.

(** X2: in a generated table the row of corner k describes the k-th
    operating point of the walk: its voltage word decodes to the voltage in
    millivolts, which lies within 150..1400, and, below corner 64, to the
    corner number k; its spare word is the "qcom,spare-data" property, 0 when
    the property is absent; its override word is the "qcom,pll-override"
    property, which is present. *)
Theorem gen_params_row_fields (sdata : qcom_cpufreq_soc_data)
    (xo_rate cpu_count : Z) (src : genpd_source) (out : gen_out)
    (k : nat) (o : opp_entry) :
  qcom_cpufreq_gen_params sdata xo_rate cpu_count src gen_out_init = Ok out ->
  2 <= gpd_opp_cnt src ->
  visited_opps src !! k = Some o ->
  exists row,
    hw_tbl out !! k = Some row /\
    150 <= opp_mV o <= 1400 /\
    FIELD_GET LUT_VOLT (volt_lut_val row) = opp_mV o /\
    (Z.of_nat k < 64 -> FIELD_GET LUT_VOLT_VC (volt_lut_val row) = Z.of_nat k) /\
    spare_val row = default 0 (opp_spare_data o) /\
    opp_pll_override o = Some (override_val row).
Proof.
  intros Hgen Hcnt Hk.
  destruct (gen_params_success _ _ _ _ _ Hgen Hcnt)
    as (cpr & _ & _ & _ & Htbl & _ & Hok & _).
  rewrite Forall_lookup in Hok. destruct (Hok k o Hk) as (_ & [ovr Hovr] & Hmv).
  eexists. split; [rewrite Htbl, gen_rows_lookup, Hk; reflexivity |].
  split; [exact Hmv |]. cbn [gen_entry volt_lut_val spare_val override_val].
  split; [apply volt_field_roundtrip; lia |].
  split; [intros Hlt; apply vc_field_roundtrip; lia |].
  split; [reflexivity |]. now rewrite Hovr.
Qed.

Lemma gen_params_row_fields_witness :
  let o := mk_opp 1200000000 800000 2 in
  qcom_cpufreq_gen_params msm8998_soc_data 19200000 4 custom_acc_src gen_out_init
    = Ok custom_acc_out /\
  2 <= gpd_opp_cnt custom_acc_src /\
  visited_opps custom_acc_src !! 3%nat = Some o /\
  exists row,
    hw_tbl custom_acc_out !! 3%nat = Some row /\
    150 <= opp_mV o <= 1400 /\
    FIELD_GET LUT_VOLT (volt_lut_val row) = opp_mV o /\
    (Z.of_nat 3 < 64 -> FIELD_GET LUT_VOLT_VC (volt_lut_val row) = Z.of_nat 3) /\
    spare_val row = default 0 (opp_spare_data o) /\
    opp_pll_override o = Some (override_val row).
Proof.
  intros o.
  assert (Hcnt : 2 <= gpd_opp_cnt custom_acc_src) by (cbn; lia).
  assert (Hk : visited_opps custom_acc_src !! 3%nat = Some o) by (vm_compute; reflexivity).
  split; [exact custom_acc_generated |]. split; [exact Hcnt |]. split; [exact Hk |].
  exact (gen_params_row_fields msm8998_soc_data 19200000 4 custom_acc_src
           custom_acc_out 3 o custom_acc_generated Hcnt Hk).
Defined.

(** X3: the APM corner handed back by a successful generation is the first
    corner of the walk whose voltage, in microvolts, is at or above the APM
    threshold, and -1 when no voltage reaches it. *)
Theorem gen_params_apm_corner (sdata : qcom_cpufreq_soc_data)
    (xo_rate cpu_count : Z) (src : genpd_source) (out : gen_out)
    (cpr : cpr_ext_data) :
  qcom_cpufreq_gen_params sdata xo_rate cpu_count src gen_out_init = Ok out ->
  2 <= gpd_opp_cnt src ->
  cpr_data src = Some cpr ->
  let thr := apm_threshold_uV cpr in
  let vis := visited_opps src in
  (Forall (fun o => opp_uV o < thr) vis -> apm_vc out = -1) /\
  (forall k, first_crossing thr vis k -> apm_vc out = Z.of_nat k).
Proof.
  intros Hgen Hcnt Hcpr thr vis.
  destruct (gen_params_success _ _ _ _ _ Hgen Hcnt)
    as (cpr' & Hcpr' & _ & _ & _ & _ & _ & Hapm & _).
  rewrite Hcpr in Hcpr'. injection Hcpr' as <-. rewrite Hapm. split.
  - apply corner_after_none.
  - apply corner_after_first.
Qed.

Lemma gen_params_apm_corner_witness :
  let cpr := {| apm_threshold_uV := 750000; mem_acc_threshold_uV := 800000 |} in
  qcom_cpufreq_gen_params msm8998_soc_data 19200000 4 custom_acc_src gen_out_init
    = Ok custom_acc_out /\
  2 <= gpd_opp_cnt custom_acc_src /\
  cpr_data custom_acc_src = Some cpr /\
  first_crossing 750000 (visited_opps custom_acc_src) 3 /\
  apm_vc custom_acc_out = 3.
Proof.
  intros cpr.
  assert (Hcnt : 2 <= gpd_opp_cnt custom_acc_src) by (cbn; lia).
  assert (Hcpr : cpr_data custom_acc_src = Some cpr) by reflexivity.
  assert (Hfirst : first_crossing 750000 (visited_opps custom_acc_src) 3).
  { split.
    - eexists. split; [vm_compute; reflexivity | vm_compute; discriminate].
    - intros j o Hj Ho.
      destruct j as [| [| [| j]]]; [| | | lia];
        vm_compute in Ho; injection Ho as <-; vm_compute; reflexivity. }
  split; [exact custom_acc_generated |]. split; [exact Hcnt |].
  split; [exact Hcpr |]. split; [exact Hfirst |].
  exact (proj2 (gen_params_apm_corner msm8998_soc_data 19200000 4 custom_acc_src
                  custom_acc_out cpr custom_acc_generated Hcnt Hcpr) 3%nat Hfirst).
Defined.

(** X4: the MEM-ACC corner handed back by a successful generation.  Without
    a MEM-ACC threshold it is the unset value 255.  With a threshold (below
    INT_MAX microvolts) it is the first corner of the walk whose voltage is at
    or above the threshold, provided that corner is 3 or higher; when the
    first crossing lies below corner 3, or no voltage reaches the threshold,
    it falls back to 255. *)
Theorem gen_params_mem_acc_corner (sdata : qcom_cpufreq_soc_data)
    (xo_rate cpu_count : Z) (src : genpd_source) (out : gen_out)
    (cpr : cpr_ext_data) :
  qcom_cpufreq_gen_params sdata xo_rate cpu_count src gen_out_init = Ok out ->
  2 <= gpd_opp_cnt src ->
  cpr_data src = Some cpr ->
  let thr := mem_acc_threshold_uV cpr in
  let vis := visited_opps src in
  (thr <= 0 -> acc_vc out = U8_MAX) /\
  (0 < thr < INT_MAX ->
   (Forall (fun o => opp_uV o < thr) vis -> acc_vc out = U8_MAX) /\
   (forall k, first_crossing thr vis k ->
      acc_vc out = if Z.of_nat k <? 3 then U8_MAX else Z.of_nat k)).
Proof.
  intros Hgen Hcnt Hcpr thr vis.
  destruct (gen_params_success _ _ _ _ _ Hgen Hcnt)
    as (cpr' & Hcpr' & _ & _ & _ & _ & _ & _ & Hacc).
  rewrite Hcpr in Hcpr'. injection Hcpr' as <-. fold thr vis in Hacc.
  rewrite Hacc. split.
  - intros Hthr. destruct (Z.leb_spec thr 0); [reflexivity | lia].
  - intros Hthr. destruct (Z.leb_spec thr 0); [lia |]. cbn zeta.
    destruct (Z.eqb_spec thr INT_MAX); [lia |]. cbn [negb andb].
    split.
    + intros Hlow. now rewrite corner_after_none.
    + intros k Hk. now rewrite (corner_after_first _ _ _ Hk).
Qed.

Lemma gen_params_mem_acc_corner_witness :
  let cpr := {| apm_threshold_uV := 750000; mem_acc_threshold_uV := 800000 |} in
  qcom_cpufreq_gen_params msm8998_soc_data 19200000 4 custom_acc_src gen_out_init
    = Ok custom_acc_out /\
  2 <= gpd_opp_cnt custom_acc_src /\
  cpr_data custom_acc_src = Some cpr /\
  0 < 800000 < INT_MAX /\
  first_crossing 800000 (visited_opps custom_acc_src) 3 /\
  acc_vc custom_acc_out = 3.
Proof.
  intros cpr.
  assert (Hcnt : 2 <= gpd_opp_cnt custom_acc_src) by (cbn; lia).
  assert (Hcpr : cpr_data custom_acc_src = Some cpr) by reflexivity.
  assert (Hthr : 0 < 800000 < INT_MAX) by (unfold INT_MAX; lia).
  assert (Hfirst : first_crossing 800000 (visited_opps custom_acc_src) 3).
  { split.
    - eexists. split; [vm_compute; reflexivity | vm_compute; discriminate].
    - intros j o Hj Ho.
      destruct j as [| [| [| j]]]; [| | | lia];
        vm_compute in Ho; injection Ho as <-; vm_compute; reflexivity. }
  split; [exact custom_acc_generated |]. split; [exact Hcnt |].
  split; [exact Hcpr |]. split; [exact Hthr |]. split; [exact Hfirst |].
  exact (proj2 (proj2 (gen_params_mem_acc_corner msm8998_soc_data 19200000 4
                         custom_acc_src custom_acc_out cpr custom_acc_generated
                         Hcnt Hcpr) Hthr) 3%nat Hfirst).
Defined.

(** X5: a table that holds fewer operating points than
    dev_pm_opp_get_opp_count announced is never accepted: the generation
    does not return 0. *)
Theorem gen_params_rejects_short_table (sdata : qcom_cpufreq_soc_data)
    (xo_rate cpu_count : Z) (src : genpd_source) (out : gen_out) :
  2 <= gpd_opp_cnt src ->
  Z.of_nat (length (opps src)) < gpd_opp_cnt src ->
  qcom_cpufreq_gen_params sdata xo_rate cpu_count src gen_out_init <> Ok out.
Proof.
  intros Hcnt Hshort Hgen.
  destruct (gen_params_success _ _ _ _ _ Hgen Hcnt) as (cpr & _ & _ & Hlen & _).
  pose proof (opp_walk_length_le (Z.to_nat (gpd_opp_cnt src)) (opps src) 1000) as Hle.
  unfold visited_opps in Hlen. lia.
Qed.

Lemma gen_params_rejects_short_table_witness :
  let src := {| attach_ret := 0; genpd_vdev_ok := true;
                cpr_data := Some {| apm_threshold_uV := 750000;
                                    mem_acc_threshold_uV := 0 |};
                gpd_opp_cnt := 4; opps := opps three_levels_src |} in
  2 <= gpd_opp_cnt src /\
  Z.of_nat (length (opps src)) < gpd_opp_cnt src /\
  qcom_cpufreq_gen_params msm8998_soc_data 19200000 4 src gen_out_init = Err EINVAL /\
  qcom_cpufreq_gen_params msm8998_soc_data 19200000 4 src gen_out_init
    <> Ok three_levels_out.
Proof.
  intros src.
  assert (Hcnt : 2 <= gpd_opp_cnt src) by (cbn; lia).
  assert (Hshort : Z.of_nat (length (opps src)) < gpd_opp_cnt src) by (cbn; lia).
  split; [exact Hcnt |]. split; [exact Hshort |].
  split; [vm_compute; reflexivity |].
  exact (gen_params_rejects_short_table msm8998_soc_data 19200000 4 src
           three_levels_out Hcnt Hshort).
Defined.

(** ** LUT programming: failures and bounds *)

Section NoFault.
Context {D : Type} `{Platform D}.

Lemma no_fault_ret {A} (a : A) : no_fault (ret a : M D A).
Proof. intros w. discriminate. Qed.

Lemma no_fault_throw {A} e : no_fault (@throw D A e).
Proof. intros w. discriminate. Qed.

Lemma no_fault_bind {A B} (m : M D A) (k : A -> M D B) :
  no_fault m -> (forall a, no_fault (k a)) -> no_fault (bind m k).
Proof.
  intros Hm Hk w. unfold bind. specialize (Hm w).
  destruct (m w) as [[a | e |] w1]; cbn in *; [apply Hk | discriminate | congruence].
Qed.

Lemma no_fault_writel val addr : no_fault (writel (D := D) val addr).
Proof. intros w. rewrite writel_run. discriminate. Qed.

Lemma no_fault_udelay us : no_fault (udelay (D := D) us).
Proof. intros w. discriminate. Qed.

Lemma no_fault_readl addr : no_fault (readl (D := D) addr).
Proof. intros w. unfold readl, with_hw. destruct (hw_readl _ _). discriminate. Qed.

Lemma no_fault_scm addr val : no_fault (qcom_scm_io_writel (D := D) addr val).
Proof.
  intros w. unfold qcom_scm_io_writel, bind, log, with_hw. cbn.
  destruct (hw_scm_io_writel _ _ _) as [r d]. cbn. destruct (r =? 0); discriminate.
Qed.

Lemma no_fault_poll addr mask sleep_us timeout_us :
  no_fault (readl_poll_timeout (D := D) addr mask sleep_us timeout_us).
Proof.
  intros w. unfold readl_poll_timeout, bind, log, with_hw. cbn.
  destruct (poll_reads _ _ _ _ _) as [[|] d]; discriminate.
Qed.

Lemma no_fault_mem_acc_write n seq_addr acc : forall i,
  no_fault (mem_acc_write (D := D) n i seq_addr acc).
Proof.
  induction n as [| n IH]; intros i; cbn [mem_acc_write].
  - apply no_fault_ret.
  - apply no_fault_bind; [apply no_fault_scm | intros _; apply IH].
Qed.
End NoFault.

(** When the scan has recorded both pairs, the upper crossover is a real
    row of the table. *)
Lemma scan_top_in_table tbl num g :
  let s := mem_acc_scan (Z.to_nat LUT_MAX_ENTRIES) 0 tbl num (lut_loop_init g) in
  1 <= num ->
  (acc_idx s <? SEQ_MEM_ACC_MAX_LEVELS - 1) = false ->
  exists j k, acc_val s = [j - 1; j; k - 1; k] /\ 0 <= j < k /\ k < num.
Proof.
  intros s Hnum Hidx. subst s.
  destruct (scan_inv_final tbl num g)
    as [(Hi & _) | [(j & g2 & g3 & Hi & _) | (j & k & Hi & Hval & Hjk & Hk & Hgt & Hlow & Hmid)]].
  - rewrite Hi in Hidx. discriminate Hidx.
  - rewrite Hi in Hidx. discriminate Hidx.
  - exists j, k. split; [exact Hval |]. split; [exact Hjk |].
    destruct (Z_lt_ge_dec k num) as [| Hge]; [assumption | exfalso].
    rewrite (slot_spare_padding tbl num k) in Hgt by lia.
    destruct (Z_lt_ge_dec j (num - 1)).
    + specialize (Hmid (num - 1)).
      rewrite (slot_spare_real tbl num (num - 1)) in Hmid by lia. lia.
    + destruct (Z_lt_ge_dec j num).
      * rewrite (slot_spare_real tbl num j) in Hgt by lia.
        replace j with (num - 1) in Hgt by lia. lia.
      * rewrite (slot_spare_padding tbl num j) in Hgt by lia. lia.
Qed.

(** A customized corner that passes the guard of the generator is corner
    3 or higher. *)
Lemma gen_params_custom_corner sdata xo_rate cpu_count src out :
  qcom_cpufreq_gen_params sdata xo_rate cpu_count src gen_out_init = Ok out ->
  2 <= gpd_opp_cnt src ->
  mem_acc_is_custom (acc_vc out) = true ->
  3 <= acc_vc out.
Proof.
  intros Hgen Hcnt Hcustom.
  destruct (gen_params_success _ _ _ _ _ Hgen Hcnt)
    as (cpr & _ & _ & _ & _ & _ & Hok & _ & Hacc).
  unfold mem_acc_is_custom in Hcustom. apply andb_true_iff in Hcustom as [Hpos Hne].
  apply Z.ltb_lt in Hpos. apply negb_true_iff, Z.eqb_neq in Hne.
  destruct (Z.leb_spec (mem_acc_threshold_uV cpr) 0); [congruence |].
  cbn zeta in Hacc.
  destruct (Z.eqb_spec (mem_acc_threshold_uV cpr) INT_MAX) as [Hmax | _]; cbn [negb andb] in Hacc.
  - exfalso. rewrite corner_after_none in Hacc; [lia |].
    eapply Forall_impl; [exact Hok |]. cbn. intros o (_ & _ & Hmv).
    rewrite Hmax. unfold opp_mV in Hmv. fold (opp_uV o) in Hmv. unfold INT_MAX.
    pose proof (Z.div_mod (opp_uV o) 1000) as Hdm.
    pose proof (Z.mod_pos_bound (opp_uV o) 1000) as Hmod. lia.
  - unfold SEQ_MEM_ACC_MAX_LEVELS in Hacc.
    destruct (Z.ltb_spec (corner_after (mem_acc_threshold_uV cpr) 0 (-1) (visited_opps src)) (4 - 1));
      [congruence | lia].
Qed.

Lemma gen_params_zero_count sdata xo_rate cpu_count src out :
  qcom_cpufreq_gen_params sdata xo_rate cpu_count src gen_out_init = Ok out ->
  gpd_opp_cnt src < 2 -> out = gen_out_init.
Proof.
  unfold qcom_cpufreq_gen_params. intros Hgen Hcnt.
  destruct (negb (attach_ret src =? 0)); [discriminate |].
  destruct (negb (genpd_vdev_ok src)); [discriminate |].
  destruct (cpr_data src) as [cpr |]; [| discriminate].
  destruct (Z.ltb_spec (gpd_opp_cnt src) 2) as [_ |]; [| lia].
  destruct (0 <? gpd_opp_cnt src); [discriminate |].
  destruct (gpd_opp_cnt src =? 0); [| discriminate].
  now injection Hgen as <-.
Qed.

(** X6: LUT programming leaves the hardware alone unless a table of two
    entries or more was generated.  Without the "osm-domainN" resource it
    returns -ENODEV; when the generation fails it returns the error of the
    generation; when the generation hands back fewer than two entries (an
    empty table of operating points makes it return 0 with nothing
    generated) it returns -EINVAL.  In all three cases no register is
    written, no firmware call is made and the trace is unchanged. *)
Theorem write_lut_untouched_without_table {D : Type} `{Platform D}
    (ddata : qcom_cpufreq_data) (xo_rate : Z) (osm_rsrc : option Z)
    (src : genpd_source) (cpu_count : Z) (g : Z * Z * Z * Z) (w : world D) :
  let gen := qcom_cpufreq_gen_params (soc_data ddata) xo_rate cpu_count src gen_out_init in
  osm_rsrc = None \/ (forall out, gen = Ok out -> num_entries out < 2) ->
  qcom_cpufreq_hw_write_lut ddata xo_rate osm_rsrc src cpu_count g w
  = (match osm_rsrc, gen with
     | None, _ => Err ENODEV
     | Some _, Ok _ => Err EINVAL
     | Some _, Err e => Err e
     | Some _, Fault => Fault
     end, w).
Proof.
  intros gen Hearly. unfold qcom_cpufreq_hw_write_lut.
  destruct osm_rsrc as [start |]; [| reflexivity].
  destruct Hearly as [Hnone | Hsmall]; [discriminate |].
  unfold bind at 1, lift_result. fold gen.
  destruct gen as [out | e |] eqn:Hgen; [| reflexivity | reflexivity].
  specialize (Hsmall out eq_refl).
  destruct (Z.ltb_spec (num_entries out) 2); [reflexivity | lia].
Qed.

Lemma write_lut_untouched_without_table_witness :
  let gen := qcom_cpufreq_gen_params (soc_data msm8998_data) 19200000 4 no_opp_src
               gen_out_init in
  gen = Ok gen_out_init /\
  (Some osm_domain0 = None \/ (forall out, gen = Ok out -> num_entries out < 2)) /\
  qcom_cpufreq_hw_write_lut msm8998_data 19200000 (Some osm_domain0) no_opp_src 4
    (0, 0, 0, 0) boot_world
  = (Err EINVAL, boot_world).
Proof.
  intros gen.
  assert (Hgen : gen = Ok gen_out_init) by reflexivity.
  assert (Hearly : Some osm_domain0 = None \/
                   (forall out, gen = Ok out -> num_entries out < 2)).
  { right. intros out Hout. rewrite Hgen in Hout. injection Hout as <-. cbn. lia. }
  split; [exact Hgen |]. split; [exact Hearly |].
  exact (write_lut_untouched_without_table msm8998_data 19200000 (Some osm_domain0)
           no_opp_src 4 (0, 0, 0, 0) boot_world Hearly).
Defined.

(** X7: the forty LUT slots are written before the MEM-ACC crossovers are
    checked.  When the generated table does not show two level
    transitions, the run returns -EINVAL after the 200 register writes of
    the LUT and before any firmware call. *)
Theorem write_lut_checks_crossovers_after_lut {D : Type} `{Platform D}
    (ddata : qcom_cpufreq_data) (xo_rate start : Z) (src : genpd_source)
    (cpu_count : Z) (g : Z * Z * Z * Z) (out : gen_out) (w : world D) :
  qcom_cpufreq_gen_params (soc_data ddata) xo_rate cpu_count src gen_out_init = Ok out ->
  2 <= num_entries out ->
  mem_acc_crossovers out g = None ->
  let r := qcom_cpufreq_hw_write_lut ddata xo_rate (Some start) src cpu_count g w in
  let lut := lut_events ddata (Z.to_nat LUT_MAX_ENTRIES) 0 (hw_tbl out) (num_entries out) in
  fst r = Err EINVAL /\
  trace (snd r) = trace w ++ lut /\
  length lut = 200%nat.
Proof.
  intros Hgen Hnum Hnone r lut.
  assert (Hrun : exists d, qcom_cpufreq_hw_write_lut ddata xo_rate (Some start) src
                             cpu_count g w
                           = (Err EINVAL, {| hw := d; trace := trace w ++ lut |})).
  { unfold qcom_cpufreq_hw_write_lut.
    unfold bind at 1, lift_result. rewrite Hgen.
    destruct (Z.ltb_spec (num_entries out) 2) as [| _]; [lia |].
    unfold bind at 1.
    destruct (lut_loop_run_spec ddata (Z.to_nat LUT_MAX_ENTRIES) (hw_tbl out)
                (num_entries out) 0 (lut_loop_init g) w) as [d ->].
    unfold mem_acc_crossovers in Hnone.
    destruct (acc_idx _ <? SEQ_MEM_ACC_MAX_LEVELS - 1) eqn:Hidx.
    - now exists d.
    - destruct (mem_acc_is_custom (acc_vc out)); discriminate Hnone. }
  destruct Hrun as [d Hrun]. subst r. rewrite Hrun.
  split; [reflexivity |]. split; [reflexivity |].
  subst lut. now rewrite lut_events_length.
Qed.

Lemma write_lut_checks_crossovers_after_lut_witness :
  let r := qcom_cpufreq_hw_write_lut msm8998_data 19200000 (Some osm_domain0)
             flat_spare_src 4 (0, 0, 0, 0) boot_world in
  exists out,
    qcom_cpufreq_gen_params (soc_data msm8998_data) 19200000 4 flat_spare_src gen_out_init
      = Ok out /\
    2 <= num_entries out /\
    mem_acc_crossovers out (0, 0, 0, 0) = None /\
    fst r = Err EINVAL /\
    length (trace (snd r)) = 200%nat.
Proof.
  intros r.
  destruct (qcom_cpufreq_gen_params (soc_data msm8998_data) 19200000 4 flat_spare_src
              gen_out_init) as [out | e |] eqn:Hgen;
    [| vm_compute in Hgen; discriminate Hgen | vm_compute in Hgen; discriminate Hgen].
  assert (Hout : Ok out = qcom_cpufreq_gen_params (soc_data msm8998_data) 19200000 4
                            flat_spare_src gen_out_init) by (symmetry; exact Hgen).
  vm_compute in Hout. injection Hout as ->.
  assert (Hnum : 2 <= 2) by lia.
  assert (Hnone : mem_acc_crossovers
                    {| hw_tbl :=
                         [{| volt_lut_val := 500; freq_lut_val := 262159;
                             override_val := 16384; spare_val := 1 |};
                          {| volt_lut_val := 66136; freq_lut_val := 67371039;
                             override_val := 16384; spare_val := 1 |}];
                       apm_vc := -1; acc_vc := 255; num_entries := 2 |} (0, 0, 0, 0)
                  = None) by (vm_compute; reflexivity).
  eexists. split; [reflexivity |]. split; [exact Hnum |]. split; [exact Hnone |].
  destruct (write_lut_checks_crossovers_after_lut msm8998_data 19200000 osm_domain0
              flat_spare_src 4 (0, 0, 0, 0) _ boot_world Hgen Hnum Hnone)
    as (Hret & Htr & Hlen).
  split; [exact Hret |].
  subst r. rewrite Htr. cbn [boot_world trace app]. exact Hlen.
Defined.

Lemma gen_params_entries_bound sdata xo_rate cpu_count src out :
  qcom_cpufreq_gen_params sdata xo_rate cpu_count src gen_out_init = Ok out ->
  2 <= num_entries out ->
  2 <= gpd_opp_cnt src /\ num_entries out <= Z.of_nat (length (hw_tbl out)).
Proof.
  intros Hgen Hnum. split.
  - destruct (Z_lt_ge_dec (gpd_opp_cnt src) 2) as [Hlt |]; [| lia].
    rewrite (gen_params_zero_count _ _ _ _ _ Hgen Hlt) in Hnum. cbn in Hnum. lia.
  - rewrite (gen_params_num_entries _ _ _ _ _ Hgen). unfold u8.
    apply Z.mod_le; lia.
Qed.

(** The upper crossover sent to the sequencer is a row of the generated
    table, with or without a customized corner. *)
Lemma mem_acc_crossovers_top sdata xo_rate cpu_count src out g acc :
  qcom_cpufreq_gen_params sdata xo_rate cpu_count src gen_out_init = Ok out ->
  2 <= num_entries out ->
  mem_acc_crossovers out g = Some acc ->
  1 <= acc !!! 3%nat < num_entries out.
Proof.
  intros Hgen Hnum Hacc.
  destruct (gen_params_entries_bound _ _ _ _ _ Hgen Hnum) as [Hcnt Hlen].
  unfold mem_acc_crossovers in Hacc.
  destruct (acc_idx _ <? SEQ_MEM_ACC_MAX_LEVELS - 1) eqn:Hidx; [discriminate Hacc |].
  destruct (scan_top_in_table (hw_tbl out) (num_entries out) g) as (j & k & Hval & Hjk & Hk);
    [lia | exact Hidx |].
  rewrite Hval in Hacc.
  destruct (mem_acc_is_custom (acc_vc out)) eqn:Hcustom.
  - pose proof (gen_params_custom_corner _ _ _ _ _ Hgen Hcnt Hcustom) as Hvc.
    destruct (mem_acc_customize_pairs (acc_vc out) j k) as (b0 & b1 & b2 & b3 & Heq & H3 & _);
      [lia |].
    rewrite Heq in Hacc. injection Hacc as <-. cbn. lia.
  - injection Hacc as <-. cbn. lia.
Qed.

(** X8: LUT programming stays inside the generated table.  Each of the
    forty slots is filled from a row that exists (the row itself, or the
    last one once the table is exhausted); the row whose L value is sent to
    the sequencer, the upper MEM-ACC crossover, is a row of the table
    above corner 0, also after the customized-corner adjustment; and the
    run never reads outside the table, whatever the platform answers. *)
Theorem write_lut_stays_in_table {D : Type} `{Platform D}
    (ddata : qcom_cpufreq_data) (xo_rate start : Z) (src : genpd_source)
    (cpu_count : Z) (g : Z * Z * Z * Z) (out : gen_out) (w : world D) :
  qcom_cpufreq_gen_params (soc_data ddata) xo_rate cpu_count src gen_out_init = Ok out ->
  2 <= num_entries out ->
  (forall i, 0 <= i < LUT_MAX_ENTRIES ->
     exists row,
       hw_tbl out !! Z.to_nat (if i <? num_entries out then i else num_entries out - 1)
         = Some row /\
       lut_entry (hw_tbl out) (num_entries out) i = row) /\
  (forall acc, mem_acc_crossovers out g = Some acc ->
     1 <= acc !!! 3%nat < Z.of_nat (length (hw_tbl out))) /\
  fst (qcom_cpufreq_hw_write_lut ddata xo_rate (Some start) src cpu_count g w) <> Fault.
Proof.
  intros Hgen Hnum.
  destruct (gen_params_entries_bound _ _ _ _ _ Hgen Hnum) as [Hcnt Hlen].
  split; [| split].
  - intros i Hi.
    assert (Hin : is_Some (hw_tbl out !! Z.to_nat
                             (if i <? num_entries out then i else num_entries out - 1))).
    { apply lookup_lt_is_Some. destruct (Z.ltb_spec i (num_entries out)); lia. }
    destruct Hin as [row Hrow]. exists row. split; [exact Hrow |].
    unfold lut_entry. destruct (Z.ltb_spec i (num_entries out));
      now apply list_lookup_total_correct.
  - intros acc Hacc.
    pose proof (mem_acc_crossovers_top _ _ _ _ _ _ _ Hgen Hnum Hacc). lia.
  - unfold qcom_cpufreq_hw_write_lut.
    unfold bind at 1, lift_result. rewrite Hgen.
    destruct (Z.ltb_spec (num_entries out) 2) as [| _]; [lia |].
    unfold bind at 1.
    destruct (lut_loop_run_spec ddata (Z.to_nat LUT_MAX_ENTRIES) (hw_tbl out)
                (num_entries out) 0 (lut_loop_init g) w) as [d ->].
    destruct (acc_idx _ <? SEQ_MEM_ACC_MAX_LEVELS - 1) eqn:Hidx; [discriminate |].
    assert (Htop : forall acc, mem_acc_crossovers out g = Some acc ->
              (acc !!! 3%nat <? 0) || (Z.of_nat (length (hw_tbl out)) <=? acc !!! 3%nat)
              = false).
    { intros acc Hacc.
      pose proof (mem_acc_crossovers_top _ _ _ _ _ _ _ Hgen Hnum Hacc).
      apply orb_false_iff. split; [apply Z.ltb_ge | apply Z.leb_gt]; lia. }
    unfold mem_acc_crossovers in Htop. rewrite Hidx in Htop.
    match goal with |- fst (bind ?m ?k ?w1) <> Fault =>
      assert (Hk : forall acc, (if mem_acc_is_custom (acc_vc out)
                                then Some (mem_acc_customize (acc_vc out)
                                             (acc_val (mem_acc_scan (Z.to_nat LUT_MAX_ENTRIES) 0
                                                         (hw_tbl out) (num_entries out)
                                                         (lut_loop_init g))))
                                else Some (acc_val (mem_acc_scan (Z.to_nat LUT_MAX_ENTRIES) 0
                                                      (hw_tbl out) (num_entries out)
                                                      (lut_loop_init g)))) = Some acc ->
                               no_fault (k acc))
    end.
    { intros acc Hacc. specialize (Htop acc Hacc). cbv zeta.
      apply no_fault_bind; [apply no_fault_mem_acc_write | intros _].
      rewrite Htop.
      repeat (apply no_fault_bind;
              [first [apply no_fault_scm | apply no_fault_writel] | intros _]).
      apply no_fault_scm. }
    destruct (mem_acc_is_custom (acc_vc out)).
    + unfold bind at 1. unfold bind at 1.
      match goal with |- context [qcom_scm_io_writel ?a ?v ?w1] =>
        pose proof (no_fault_scm a v w1) as Hscm;
        destruct (qcom_scm_io_writel a v w1) as [[[] | e |] w2]
      end; cbn [fst] in *; [| discriminate | congruence].
      unfold ret at 1. now apply Hk.
    + unfold bind at 1, ret at 1. now apply Hk.
Qed.

Lemma write_lut_stays_in_table_witness :
  qcom_cpufreq_gen_params (soc_data msm8998_data) 19200000 4 custom_acc_src gen_out_init
    = Ok custom_acc_out /\
  2 <= num_entries custom_acc_out /\
  mem_acc_crossovers custom_acc_out (0, 0, 0, 0) = Some [-1; 0; 1; 2] /\
  1 <= 2 < Z.of_nat (length (hw_tbl custom_acc_out)) /\
  fst (qcom_cpufreq_hw_write_lut msm8998_data 19200000 (Some osm_domain0) custom_acc_src 4
         (0, 0, 0, 0) boot_world) <> Fault.
Proof.
  assert (Hnum : 2 <= num_entries custom_acc_out) by (cbn; lia).
  assert (Hacc : mem_acc_crossovers custom_acc_out (0, 0, 0, 0) = Some [-1; 0; 1; 2])
    by (vm_compute; reflexivity).
  destruct (write_lut_stays_in_table msm8998_data 19200000 osm_domain0 custom_acc_src 4
              (0, 0, 0, 0) custom_acc_out boot_world custom_acc_generated Hnum)
    as (_ & Htop & Hnf).
  split; [exact custom_acc_generated |]. split; [exact Hnum |]. split; [exact Hacc |].
  split; [exact (Htop _ Hacc) | exact Hnf].
Defined.

Section FirmwareRefusal.
Context {D : Type} `{Platform D}.

Lemma scm_refused r addr val (w : world D) :
  (forall a v d, fst (hw_scm_io_writel a v d) = r) -> r <> 0 ->
  exists d, qcom_scm_io_writel addr val w
            = (Err (- r), {| hw := d;
                             trace := trace w ++ [EvScmIoWritel (u32 addr) (u32 val)] |}).
Proof.
  intros Hrefuse Hr. unfold qcom_scm_io_writel, bind, log, with_hw. cbn.
  specialize (Hrefuse (u32 addr) (u32 val) (hw w)).
  destruct (hw_scm_io_writel _ _ _) as [r' d]. cbn in *. subst r'.
  destruct (Z.eqb_spec r 0); [contradiction |]. now exists d.
Qed.
End FirmwareRefusal.

(** X9: a refused firmware call ends LUT programming at once.  On a
    platform whose firmware answers every sequencer write with the same
    non-zero status, a run on a table with both MEM-ACC crossovers returns
    that very status ([Err (- r)] stands for the C return value [r]) after
    the 200 LUT register writes and one single firmware call: the
    crossover corner if a customized corner applies, otherwise the first
    MEM-ACC value, sent to [SEQ_MEMACC_REG(seq_addr, 0)], byte offset 55
    from the sequencer base. *)
Theorem write_lut_stops_at_refused_call {D : Type} `{Platform D}
    (ddata : qcom_cpufreq_data) (xo_rate start : Z) (src : genpd_source)
    (cpu_count : Z) (g : Z * Z * Z * Z) (out : gen_out) (acc : list Z) (r : Z)
    (w : world D) :
  qcom_cpufreq_gen_params (soc_data ddata) xo_rate cpu_count src gen_out_init = Ok out ->
  2 <= num_entries out ->
  mem_acc_crossovers out g = Some acc ->
  (forall a v d, fst (hw_scm_io_writel a v d) = r) ->
  r <> 0 ->
  let run := qcom_cpufreq_hw_write_lut ddata xo_rate (Some start) src cpu_count g w in
  let seq_addr := u32 (start + reg_osm_sequencer (setup_regs (soc_data ddata))) in
  fst run = Err (- r) /\
  trace (snd run)
  = trace w
    ++ lut_events ddata (Z.to_nat LUT_MAX_ENTRIES) 0 (hw_tbl out) (num_entries out)
    ++ [ if mem_acc_is_custom (acc_vc out)
         then EvScmIoWritel (u32 (SEQUENCER_REG seq_addr SEQ_MEM_ACC_CROSSOVER_VC))
                            (u32 (num_entries out + 1))
         else EvScmIoWritel (u32 (SEQ_MEMACC_REG seq_addr 0)) (u32 (acc !!! 0%nat)) ].
Proof.
  intros Hgen Hnum Hacc Hrefuse Hr run seq_addr.
  assert (Hrun : exists d, run
            = (Err (- r),
               {| hw := d;
                  trace := (trace w ++ lut_events ddata (Z.to_nat LUT_MAX_ENTRIES) 0
                                         (hw_tbl out) (num_entries out))
                           ++ [ if mem_acc_is_custom (acc_vc out)
                                then EvScmIoWritel
                                       (u32 (SEQUENCER_REG seq_addr SEQ_MEM_ACC_CROSSOVER_VC))
                                       (u32 (num_entries out + 1))
                                else EvScmIoWritel (u32 (SEQ_MEMACC_REG seq_addr 0))
                                       (u32 (acc !!! 0%nat)) ] |})).
  { subst run. unfold qcom_cpufreq_hw_write_lut. fold seq_addr.
    unfold bind at 1, lift_result. rewrite Hgen.
    destruct (Z.ltb_spec (num_entries out) 2) as [| _]; [lia |].
    unfold bind at 1.
    destruct (lut_loop_run_spec ddata (Z.to_nat LUT_MAX_ENTRIES) (hw_tbl out)
                (num_entries out) 0 (lut_loop_init g) w) as [d ->].
    unfold mem_acc_crossovers in Hacc.
    remember (mem_acc_scan _ _ _ _ _) as s eqn:Hs in *. clear Hs.
    destruct (acc_idx s <? SEQ_MEM_ACC_MAX_LEVELS - 1) eqn:Hidx; [discriminate Hacc |].
    destruct (mem_acc_is_custom (acc_vc out)).
    - unfold bind at 1. unfold bind at 1.
      match goal with |- context [qcom_scm_io_writel ?a ?v ?w1] =>
        destruct (scm_refused r a v w1 Hrefuse Hr) as [d' ->]
      end.
      now exists d'.
    - apply (inj Some) in Hacc. rewrite Hacc.
      unfold bind at 1, ret at 1. unfold bind at 1.
      change (Z.to_nat SEQ_MEM_ACC_MAX_LEVELS) with 4%nat. cbn [mem_acc_write].
      unfold bind at 1.
      match goal with |- context [qcom_scm_io_writel ?a ?v ?w1] =>
        destruct (scm_refused r a v w1 Hrefuse Hr) as [d' ->]
      end.
      now exists d'. }
  destruct Hrun as [d ->]. cbn [fst snd trace].
  split; [reflexivity | now rewrite <- app_assoc].
Qed.

Lemma write_lut_stops_at_refused_call_witness :
  let w : world locked_firmware := {| hw := {| lf_regs := ∅ |}; trace := [] |} in
  let run := qcom_cpufreq_hw_write_lut msm8998_data 19200000 (Some osm_domain0)
               three_levels_src 4 (0, 0, 0, 0) w in
  qcom_cpufreq_gen_params (soc_data msm8998_data) 19200000 4 three_levels_src gen_out_init
    = Ok three_levels_out /\
  2 <= num_entries three_levels_out /\
  mem_acc_crossovers three_levels_out (0, 0, 0, 0) = Some [0; 1; 1; 2] /\
  (forall a v d, fst (hw_scm_io_writel (D := locked_firmware) a v d) = -1) /\
  -1 <> 0 /\
  fst run = Err 1 /\
  length (trace (snd run)) = 201%nat.
Proof.
  intros w run.
  assert (Hnum : 2 <= num_entries three_levels_out) by (cbn; lia).
  assert (Hacc : mem_acc_crossovers three_levels_out (0, 0, 0, 0) = Some [0; 1; 1; 2])
    by (vm_compute; reflexivity).
  assert (Hrefuse : forall a v d, fst (hw_scm_io_writel (D := locked_firmware) a v d) = -1)
    by reflexivity.
  assert (Hr : -1 <> 0) by lia.
  destruct (write_lut_stops_at_refused_call msm8998_data 19200000 osm_domain0
              three_levels_src 4 (0, 0, 0, 0) three_levels_out [0; 1; 1; 2] (-1) w
              three_levels_generated Hnum Hacc Hrefuse Hr) as [Hret Htr].
  split; [exact three_levels_generated |]. split; [exact Hnum |].
  split; [exact Hacc |]. split; [exact Hrefuse |]. split; [exact Hr |].
  split; [exact Hret |].
  subst run. rewrite Htr. rewrite !length_app, lut_events_length. reflexivity.
Defined.

(** X10: a LUT programming that returns 0 has performed, in this order and
    nothing else: the 200 register writes of the forty LUT slots; when a
    customized MEM-ACC corner applies, the firmware write of the crossover
    corner [num_entries + 1]; the firmware writes of the four MEM-ACC
    values; the firmware write of the L value of the upper crossover row;
    the register write of [num_entries] to the sequencer register 1; and
    the firmware writes of the APM crossover corner [num_entries], the APM
    threshold corner, its predecessor and the APM parameter: 210 events,
    211 with a customized corner. *)
Theorem write_lut_programs_sequencer {D : Type} `{Platform D}
    (ddata : qcom_cpufreq_data) (xo_rate start : Z) (src : genpd_source)
    (cpu_count : Z) (g : Z * Z * Z * Z) (w w' : world D) :
  qcom_cpufreq_hw_write_lut ddata xo_rate (Some start) src cpu_count g w = (Ok tt, w') ->
  exists out acc,
    qcom_cpufreq_gen_params (soc_data ddata) xo_rate cpu_count src gen_out_init = Ok out /\
    mem_acc_crossovers out g = Some acc /\
    let events := write_lut_events ddata
                    (u32 (start + reg_osm_sequencer (setup_regs (soc_data ddata)))) out acc in
    trace w' = trace w ++ events /\
    length events = (if mem_acc_is_custom (acc_vc out) then 211 else 210)%nat.
Proof.
  intros Hrun.
  destruct (write_lut_success ddata xo_rate start src cpu_count g w w' Hrun)
    as (out & acc & Hgen & _ & Hacc & Htr).
  exists out, acc. split; [exact Hgen |]. split; [exact Hacc |].
  split; [exact Htr |].
  unfold write_lut_events. rewrite !length_app, lut_events_length.
  destruct (mem_acc_is_custom (acc_vc out)); reflexivity.
Qed.

Lemma write_lut_programs_sequencer_witness :
  exists w',
    qcom_cpufreq_hw_write_lut msm8998_data 19200000 (Some osm_domain0) custom_acc_src 4
      (0, 0, 0, 0) boot_world = (Ok tt, w') /\
    mem_acc_is_custom (acc_vc custom_acc_out) = true /\
    length (trace w') = 211%nat.
Proof.
  assert (Hfst : fst (qcom_cpufreq_hw_write_lut msm8998_data 19200000 (Some osm_domain0)
                        custom_acc_src 4 (0, 0, 0, 0) boot_world) = Ok tt)
    by (vm_compute; reflexivity).
  destruct (qcom_cpufreq_hw_write_lut msm8998_data 19200000 (Some osm_domain0)
              custom_acc_src 4 (0, 0, 0, 0) boot_world) as [res w'] eqn:Hrun.
  cbn [fst] in Hfst. subst res.
  exists w'. split; [reflexivity |]. split; [reflexivity |].
  destruct (write_lut_programs_sequencer msm8998_data 19200000 osm_domain0 custom_acc_src
              4 (0, 0, 0, 0) boot_world w' Hrun)
    as (out & acc & Hgen & Hacc & Htr & Hlen).
  rewrite Htr. cbn [boot_world trace app]. rewrite Hlen.
  assert (Hout : Ok out = Ok custom_acc_out :> result gen_out)
    by (rewrite <- Hgen; exact custom_acc_generated).
  apply (f_equal (fun r => match r with Ok o => acc_vc o | _ => 0 end)) in Hout.
  cbn in Hout. rewrite Hout. reflexivity.
Defined.

(** ** The ACD transfers: failures *)

Section AcdFailures.
Context {D : Type} `{Platform D}.

Lemma fails_only_with_total {A} e (m : M D A) :
  (forall w, exists a, fst (m w) = Ok a) -> fails_only_with e m.
Proof. intros Hm w. left. apply Hm. Qed.

Lemma fails_only_with_bind {A B} e (m : M D A) (k : A -> M D B) :
  fails_only_with e m -> (forall a, fails_only_with e (k a)) ->
  fails_only_with e (bind m k).
Proof.
  intros Hm Hk w. unfold bind. specialize (Hm w).
  destruct (m w) as [[a | e' |] w1]; cbn in *.
  - apply Hk.
  - destruct Hm as [[a Ha] | Hm]; [discriminate | right; congruence].
  - destruct Hm as [[a Ha] | Hm]; discriminate.
Qed.

Lemma fails_only_with_writel e val addr : fails_only_with e (writel (D := D) val addr).
Proof. apply fails_only_with_total. intros w. rewrite writel_run. now eexists. Qed.

Lemma fails_only_with_udelay e us : fails_only_with e (udelay (D := D) us).
Proof. apply fails_only_with_total. intros w. now eexists. Qed.

Lemma fails_only_with_ret {A} e (a : A) : fails_only_with e (ret a : M D A).
Proof. apply fails_only_with_total. intros w. now eexists. Qed.

Lemma fails_only_with_poll addr mask sleep_us timeout_us :
  fails_only_with ETIMEDOUT (readl_poll_timeout (D := D) addr mask sleep_us timeout_us).
Proof.
  intros w. unfold readl_poll_timeout, bind, log, with_hw. cbn.
  destruct (poll_reads _ _ _ _ _) as [[|] d]; cbn; [left; now eexists | now right].
Qed.

Lemma fails_only_with_autoxfer data acd_base val :
  fails_only_with ETIMEDOUT (qcom_cpufreq_hw_acd_write_autoxfer (D := D) data acd_base val).
Proof.
  unfold qcom_cpufreq_hw_acd_write_autoxfer.
  repeat (apply fails_only_with_bind; [apply fails_only_with_writel | intros _]).
  apply fails_only_with_poll.
Qed.

Lemma fails_only_with_xfer data acd_base reg val :
  fails_only_with ETIMEDOUT (qcom_cpufreq_hw_acd_write_xfer (D := D) data acd_base reg val).
Proof.
  unfold qcom_cpufreq_hw_acd_write_xfer.
  repeat (apply fails_only_with_bind; [apply fails_only_with_writel | intros _]).
  apply fails_only_with_poll.
Qed.

(** A poll on an empty mask runs out of time, whatever is read. *)
Lemma poll_reads_no_mask more addr sleep_us : forall d : D,
  fst (poll_reads more addr 0 sleep_us d) = false.
Proof.
  induction more as [| more IH]; intros d; cbn [poll_reads];
    destruct (hw_readl addr d) as [v d']; rewrite Z.land_0_r; cbn; [reflexivity | apply IH].
Qed.
End AcdFailures.

Lemma acd_regbit_high (reg : Z) : 128 <= reg -> qcom_cpufreq_acd_regbit reg = 0.
Proof.
  intros Hreg. unfold qcom_cpufreq_acd_regbit, BIT, u32.
  assert (Hq : 32 <= reg / 4) by (apply Z.div_le_lower_bound; lia).
  rewrite Z.shiftl_1_l.
  replace (reg / 4) with (32 + (reg / 4 - 32)) by lia.
  rewrite Z.pow_add_r by lia. rewrite Z.mul_comm. apply Z.mod_mul. lia.
Qed.

(** X11: the only failure of the ACD initialization is a transfer that is
    not confirmed in time.  Whatever the hardware does, the function either
    returns 0 or returns -ETIMEDOUT. *)
Theorem acd_init_fails_only_by_timeout {D : Type} `{Platform D}
    (data : qcom_cpufreq_data) (acd_base : option Z) (w : world D) :
  fst (qcom_cpufreq_hw_acd_init data acd_base w) = Ok tt \/
  fst (qcom_cpufreq_hw_acd_init data acd_base w) = Err ETIMEDOUT.
Proof.
  assert (Hall : fails_only_with ETIMEDOUT (qcom_cpufreq_hw_acd_init (D := D) data acd_base)).
  { unfold qcom_cpufreq_hw_acd_init. destruct acd_base as [acd_base |];
      [| apply fails_only_with_ret].
    repeat (apply fails_only_with_bind; [apply fails_only_with_writel | intros _]).
    apply fails_only_with_bind; [apply fails_only_with_autoxfer | intros _].
    do 3 (apply fails_only_with_bind; [apply fails_only_with_xfer | intros _]).
    apply fails_only_with_bind; [apply fails_only_with_udelay | intros _].
    apply fails_only_with_bind; [apply fails_only_with_xfer | intros _].
    apply fails_only_with_bind; [apply fails_only_with_writel | intros _].
    apply fails_only_with_udelay. }
  destruct (Hall w) as [[[] Hok] | Herr]; [now left | now right].
Qed.

(** X12: a manual ACD transfer can only be confirmed for a sub-register
    below offset 0x80.  For an offset of 128 to 255 the status bit
    [BIT(reg / 4)] lies beyond the 32 bits of the status word, the poll
    mask is empty, and the transfer returns -ETIMEDOUT even when the
    hardware reports every bit set. *)
Theorem acd_write_xfer_high_offset_times_out {D : Type} `{Platform D}
    (data : qcom_cpufreq_data) (acd_base reg val : Z) (w : world D) :
  128 <= reg <= 255 ->
  qcom_cpufreq_acd_regbit reg = 0 /\
  fst (qcom_cpufreq_hw_acd_write_xfer data acd_base reg val w) = Err ETIMEDOUT.
Proof.
  intros Hreg.
  assert (Hbit : qcom_cpufreq_acd_regbit reg = 0) by (apply acd_regbit_high; lia).
  split; [exact Hbit |].
  unfold qcom_cpufreq_hw_acd_write_xfer. rewrite Hbit.
  unfold bind at 1. rewrite writel_run.
  unfold bind at 1. rewrite writel_run.
  unfold bind at 1. rewrite writel_run.
  unfold readl_poll_timeout, bind, log, with_hw. cbn [fst snd hw trace].
  match goal with |- context [poll_reads ?n ?a 0 ?s ?d] =>
    pose proof (poll_reads_no_mask n a s d) as Hpoll;
    destruct (poll_reads n a 0 s d) as [ok d']
  end.
  cbn in Hpoll. subst ok. reflexivity.
Qed.

Lemma acd_write_xfer_high_offset_times_out_witness :
  let w : world unit := {| hw := tt; trace := [] |} in
  128 <= 0x80 <= 255 /\
  fst (hw_readl (D := unit) (osm_acd0 + 0x94) tt) = 2 ^ 32 - 1 /\
  qcom_cpufreq_acd_regbit 0x80 = 0 /\
  fst (qcom_cpufreq_hw_acd_write_xfer msm8998_data osm_acd0 0x80 1 w) = Err ETIMEDOUT.
Proof.
  intros w.
  assert (Hreg : 128 <= 0x80 <= 255) by lia.
  split; [exact Hreg |]. split; [reflexivity |].
  exact (acd_write_xfer_high_offset_times_out msm8998_data osm_acd0 0x80 1 w Hreg).
Defined.

(** ** Runtime control: the fast path *)

(** X13: the fast switch writes the cached index to the performance-state
    register and returns the frequency of that row, whatever target
    frequency it is given; a GetCurrent that follows, with the register
    still holding the index, returns the same frequency. *)
Theorem fast_switch_get_roundtrip {D : Type} `{Platform D}
    (registry : gmap Z cpufreq_policy) (policy : cpufreq_policy)
    (cpu target_freq : Z) (w : world D) :
  registry !! cpu = Some policy ->
  resolved_table (freq_table policy) ->
  0 <= cached_resolved_idx policy < entry_count (freq_table policy) ->
  let data := driver_data policy in
  let i := cached_resolved_idx policy in
  let r := qcom_cpufreq_hw_fast_switch policy target_freq w in
  fst (hw_readl (base data + reg_perf_state (soc_data data)) (hw (snd r))) = i ->
  exists row,
    freq_table policy !! Z.to_nat i = Some row /\
    fst r = Ok (frequency row) /\
    trace (snd r) = trace w ++ [EvWritel (u32 i) (base data + reg_perf_state (soc_data data))] /\
    fst (qcom_cpufreq_hw_get registry cpu (snd r)) = Ok (frequency row).
Proof.
  intros Hreg [Hlen Hcount] Hi data i r Hstable.
  destruct (entry_count_lookup _ _ Hi) as [row Hrow]. fold i in Hrow.
  exists row. split; [exact Hrow |].
  assert (Hrun : r = (Ok (frequency row),
                      {| hw := hw_writel (u32 i) (base data + reg_perf_state (soc_data data))
                                 (hw w);
                         trace := trace w ++ [EvWritel (u32 i)
                                    (base data + reg_perf_state (soc_data data))] |})).
  { subst r. unfold qcom_cpufreq_hw_fast_switch. fold data i.
    unfold bind. rewrite writel_run, Hrow. reflexivity. }
  rewrite Hrun in *. cbn [fst snd hw trace] in *.
  split; [reflexivity |]. split; [reflexivity |].
  unfold qcom_cpufreq_hw_get. rewrite Hreg. fold data.
  unfold bind, readl, with_hw. cbn [hw].
  destruct (hw_readl (base data + reg_perf_state (soc_data data)) _) as [v d].
  cbn [fst] in Hstable. subst v. cbn.
  assert (Hu : u32 i = i)
    by (unfold u32; apply Z.mod_small; unfold LUT_MAX_ENTRIES in *; lia).
  rewrite Hu, Z.min_l by (unfold LUT_MAX_ENTRIES in *; lia).
  rewrite Hrow. reflexivity.
Qed.

Lemma fast_switch_get_roundtrip_witness :
  let policy := {| cpu := 0; cpus := [0; 1; 2; 3]; related_cpus := [0; 1; 2; 3];
                   driver_data := msm8998_data; freq_table := demo_table;
                   cached_resolved_idx := 2 |} in
  let registry : gmap Z cpufreq_policy := {[ 0 := policy ]} in
  let r := qcom_cpufreq_hw_fast_switch policy 123456 boot_world in
  registry !! 0 = Some policy /\
  resolved_table (freq_table policy) /\
  0 <= cached_resolved_idx policy < entry_count (freq_table policy) /\
  fst (hw_readl (0x17900000 + 0xf10) (hw (snd r))) = 2 /\
  fst r = Ok 900000 /\
  fst (qcom_cpufreq_hw_get registry 0 (snd r)) = Ok 900000.
Proof.
  intros policy registry r.
  assert (Hreg : registry !! 0 = Some policy) by reflexivity.
  assert (Hi : 0 <= cached_resolved_idx policy < entry_count (freq_table policy))
    by (vm_compute; split; [discriminate | reflexivity]).
  assert (Hst : fst (hw_readl (0x17900000 + 0xf10)
                       (hw (snd (qcom_cpufreq_hw_fast_switch policy 123456 boot_world))))
                = 2) by (vm_compute; reflexivity).
  split; [exact Hreg |]. split; [exact demo_table_resolved |].
  split; [exact Hi |]. split; [exact Hst |].
  destruct (fast_switch_get_roundtrip registry policy 0 123456 boot_world
              Hreg demo_table_resolved Hi Hst) as (row & Hrow & Hret & _ & Hget).
  vm_compute in Hrow. injection Hrow as <-.
  split; [exact Hret | exact Hget].
Defined.

(** ** Reading the LUT back: the OPP table and the end marker *)

(** *** The walk over the rates of the OPP table *)

Lemma find_ceil_skip (pre rest : list Z) (rate : Z) :
  Forall (fun r => r < rate) pre ->
  opp_find_freq_ceil (pre ++ rest) rate = opp_find_freq_ceil rest rate.
Proof.
  unfold opp_find_freq_ceil. induction pre as [| a pre IH]; intros Hpre; [reflexivity |].
  apply Forall_cons in Hpre as [Ha Hpre]. cbn [app find].
  destruct (Z.leb_spec rate a); [lia | now apply IH].
Qed.

Lemma find_ceil_bounds (rates : list Z) (rate r : Z) :
  opp_find_freq_ceil rates rate = Some r -> rate <= r /\ In r rates.
Proof.
  unfold opp_find_freq_ceil. intros Hfind. apply find_some in Hfind as [Hin Hle].
  split; [lia | exact Hin].
Qed.

Lemma filter_ceil_length (rates : list Z) (rate : Z) :
  (length (List.filter (fun x => (rate <=? x)%Z) rates) <= length rates)%nat.
Proof.
  induction rates as [| a rates IH]; cbn; [lia |].
  destruct (rate <=? a); cbn; lia.
Qed.

Lemma filter_ceil_mono (rates : list Z) (rate rate' : Z) :
  rate <= rate' ->
  (length (List.filter (fun x => (rate' <=? x)%Z) rates)
   <= length (List.filter (fun x => (rate <=? x)%Z) rates))%nat.
Proof.
  intros Hle. induction rates as [| a rates IH]; cbn; [lia |].
  destruct (Z.leb_spec rate' a), (Z.leb_spec rate a); cbn; lia.
Qed.

(** Each step of the walk leaves one rate more behind. *)
Lemma find_ceil_shrinks (rates : list Z) (rate r : Z) :
  opp_find_freq_ceil rates rate = Some r ->
  (length (List.filter (fun x => (r + 1 <=? x)%Z) rates)
   < length (List.filter (fun x => (rate <=? x)%Z) rates))%nat.
Proof.
  unfold opp_find_freq_ceil.
  induction rates as [| a rates IH]; cbn [find List.filter]; [discriminate |].
  destruct (Z.leb_spec rate a) as [Hle | Hlt].
  - intros [= ->]. destruct (Z.leb_spec (r + 1) r); [lia |].
    pose proof (filter_ceil_mono rates rate (r + 1)). cbn [length]. lia.
  - intros Hfind. pose proof (find_ceil_bounds rates rate r Hfind) as [Hr _].
    destruct (Z.leb_spec (r + 1) a); [lia |]. now apply IH.
Qed.

Lemma rate_walk_ascending (rest : list Z) : forall pre rate fuel,
  StronglySorted Z.lt rest ->
  Forall (fun r => r < rate) pre ->
  Forall (fun r => rate <= r) rest ->
  (length rest < fuel)%nat ->
  rate_walk fuel (pre ++ rest) rate = rest.
Proof.
  induction rest as [| r0 rest IH]; intros pre rate fuel Hsorted Hpre Hrest Hfuel.
  - destruct fuel; [cbn in Hfuel; lia |]. cbn [rate_walk].
    now rewrite find_ceil_skip by assumption.
  - destruct fuel; [cbn in Hfuel; lia |]. cbn [rate_walk].
    rewrite find_ceil_skip by assumption.
    apply Forall_cons in Hrest as [Hr0 Hrest].
    apply StronglySorted_inv in Hsorted as [Hsorted Hlt].
    unfold opp_find_freq_ceil at 1. cbn [find].
    destruct (Z.leb_spec rate r0); [| lia]. f_equal.
    replace (pre ++ r0 :: rest) with ((pre ++ [r0]) ++ rest)
      by (now rewrite <- app_assoc).
    apply IH.
    + exact Hsorted.
    + apply Forall_app. split.
      * eapply Forall_impl; [exact Hpre | intros x Hx; cbn in *; lia].
      * apply Forall_cons. split; [lia | constructor].
    + eapply Forall_impl; [exact Hlt | intros x Hx; cbn in *; lia].
    + cbn [length] in Hfuel. lia.
Qed.

Section ReadLutRuns.
Context {D : Type} `{Platform D}.
Variable drv_data : qcom_cpufreq_data.
Variable xo_rate cpu_hw_rate cpu_dev : Z.

Lemma opp_disable_walk_S fuel rates rate :
  opp_disable_walk (D := D) cpu_dev (S fuel) rates rate
  = match opp_find_freq_ceil rates rate with
    | None => ret tt
    | Some r =>
      ignore_ret (dev_pm_opp (OppDisable cpu_dev r)) ;;;
      opp_disable_walk cpu_dev fuel rates (r + 1)
    end.
Proof. reflexivity. Qed.

Lemma dev_pm_opp_ret_run c (w : world D) :
  dev_pm_opp_ret c w
  = (Ok (fst (hw_opp_call c (hw w))),
     {| hw := snd (hw_opp_call c (hw w)); trace := trace w ++ [EvOppCall c] |}).
Proof.
  unfold dev_pm_opp_ret, bind, log, with_hw. cbn.
  now destruct (hw_opp_call c (hw w)).
Qed.

Lemma extends_attempt {A} (m : M D A) : extends m -> extends (attempt m).
Proof.
  intros Hm w. unfold attempt. destruct (Hm w) as [t Ht].
  destruct (m w) as [[a | e |] w']; cbn in *; now exists t.
Qed.

Lemma extends_update_opp icc freq volt :
  extends (qcom_cpufreq_update_opp (D := D) icc cpu_dev freq volt).
Proof.
  unfold qcom_cpufreq_update_opp. destruct icc; cbn [negb].
  - apply extends_bind; [apply extends_dev_pm_opp | intros _; apply extends_dev_pm_opp].
  - apply extends_dev_pm_opp.
Qed.

Lemma extends_read_lut_loop icc n : forall i prev_freq table,
  extends (read_lut_loop (D := D) drv_data xo_rate cpu_hw_rate cpu_dev icc n i prev_freq table).
Proof.
  induction n as [| n IH]; intros i prev_freq table; cbn [read_lut_loop].
  - apply extends_ret.
  - apply extends_bind; [apply extends_readl | intros data].
    apply extends_bind; [apply extends_readl | intros data'].
    apply extends_bind.
    + repeat first
        [ apply extends_ret | apply extends_if
        | apply extends_attempt, extends_update_opp
        | apply extends_bind; [| intros ?] ].
    + intros table1. apply extends_if; [| apply IH].
      destruct (table1 !! _); [| apply extends_fault].
      apply extends_bind; [| intros ?; apply extends_ret].
      apply extends_if; [| apply extends_ret].
      apply extends_bind; [apply extends_attempt, extends_update_opp | intros ok].
      destruct ok; apply extends_ret.
Qed.

(** One more step of fuel changes nothing once the fuel exceeds the number
    of rates at or above [rate]: the source loop ends by itself. *)
Lemma opp_disable_walk_more rates fuel : forall rate (w : world D),
  (length (List.filter (fun x => (rate <=? x)%Z) rates) < fuel)%nat ->
  opp_disable_walk cpu_dev (S fuel) rates rate w
  = opp_disable_walk cpu_dev fuel rates rate w.
Proof.
  induction fuel as [| fuel IH]; intros rate w Hlt; [lia |].
  rewrite (opp_disable_walk_S (S fuel)), (opp_disable_walk_S fuel).
  destruct (opp_find_freq_ceil rates rate) as [r |] eqn:Hfind; [| reflexivity].
  unfold bind. destruct (ignore_ret _ w) as [[[] | e |] w1]; try reflexivity.
  apply IH. pose proof (find_ceil_shrinks rates rate r Hfind). lia.
Qed.

(** The fuel [opp_disable_all] gives is never used up: any larger amount
    gives the same run. *)
Lemma opp_disable_walk_fuel rates k (w : world D) :
  opp_disable_walk cpu_dev (S (length rates) + k) rates 0 w
  = opp_disable_all cpu_dev rates w.
Proof.
  unfold opp_disable_all. induction k as [| k IH].
  - now rewrite Nat.add_0_r.
  - rewrite <- IH. replace (S (length rates) + S k)%nat with (S (S (length rates) + k)) by lia.
    apply opp_disable_walk_more.
    pose proof (filter_ceil_length rates 0). lia.
Qed.

(** The walk disables the rates it meets, whatever the framework answers. *)
Lemma opp_disable_walk_run rates fuel : forall rate (w : world D),
  exists d, opp_disable_walk cpu_dev fuel rates rate w
            = (Ok tt, {| hw := d;
                         trace := trace w
                                  ++ map (fun rate => EvOppCall (OppDisable cpu_dev rate))
                                         (rate_walk fuel rates rate) |}).
Proof.
  induction fuel as [| fuel IH]; intros rate w.
  - exists (hw w). cbn [opp_disable_walk rate_walk map]. unfold ret.
    rewrite app_nil_r. now destruct w.
  - rewrite opp_disable_walk_S. cbn [rate_walk].
    destruct (opp_find_freq_ceil rates rate) as [r |]; cbn [map].
    + unfold bind at 1. rewrite ignore_ret_run by apply dev_pm_opp_not_fault.
      unfold dev_pm_opp at 1. unfold bind at 1. rewrite dev_pm_opp_ret_run.
      match goal with |- context [opp_disable_walk _ _ _ _ ?w1] =>
        assert (Hw1 : exists d1, w1 = {| hw := d1;
                                        trace := trace w ++ [EvOppCall (OppDisable cpu_dev r)] |})
      end.
      { destruct (fst (hw_opp_call _ _) =? 0); cbn; now eexists. }
      destruct Hw1 as [d1 ->].
      destruct (IH (r + 1) {| hw := d1;
                              trace := trace w ++ [EvOppCall (OppDisable cpu_dev r)] |})
        as [d ->].
      exists d. cbn [trace]. now rewrite <- app_assoc.
    + exists (hw w). unfold ret. rewrite app_nil_r. now destruct w.
Qed.

(** Over a table whose rates are listed in strictly ascending order, none
    negative, the walk from 0 meets every rate: each operating point is
    disabled, lowest first. *)
Lemma opp_disable_all_run rates (w : world D) :
  StronglySorted Z.lt rates ->
  Forall (fun rate => 0 <= rate) rates ->
  exists d, opp_disable_all cpu_dev rates w
            = (Ok tt, {| hw := d;
                         trace := trace w
                                  ++ map (fun rate => EvOppCall (OppDisable cpu_dev rate))
                                         rates |}).
Proof.
  intros Hsorted Hpos. unfold opp_disable_all.
  destruct (opp_disable_walk_run rates (S (length rates)) 0 w) as [d Hd].
  assert (Hnil : Forall (fun r => r < 0) []) by constructor.
  pose proof (rate_walk_ascending rates [] 0 (S (length rates)) Hsorted
                Hnil Hpos (Nat.lt_succ_diag_r _)) as Hwalk.
  cbn [app] in Hwalk. rewrite Hwalk in Hd. now exists d.
Qed.
End ReadLutRuns.



(** X15: when the operating-point table of the device tree cannot be
    added and the failure is not -ENODEV, the LUT read returns that error
    at once: its only action is the call that failed, and no LUT register
    is read. *)
Theorem read_lut_opp_table_error {D : Type} `{Platform D}
    (drv_data : qcom_cpufreq_data) (xo_rate cpu_hw_rate cpu_dev : Z)
    (w : world D) (r : Z) :
  fst (hw_opp_call (OppOfAddTable cpu_dev) (hw w)) = r ->
  r <> 0 -> r <> - ENODEV ->
  qcom_cpufreq_hw_read_lut drv_data xo_rate cpu_hw_rate cpu_dev w
  = (Err (- r), {| hw := snd (hw_opp_call (OppOfAddTable cpu_dev) (hw w));
                   trace := trace w ++ [EvOppCall (OppOfAddTable cpu_dev)] |}).
Proof.
  intros Hcall Hr Hnodev. unfold qcom_cpufreq_hw_read_lut.
  unfold bind at 1. rewrite dev_pm_opp_ret_run, Hcall.
  unfold bind at 1.
  destruct (Z.eqb_spec r 0); [contradiction |].
  destruct (Z.eqb_spec r (- ENODEV)); [contradiction |]. reflexivity.
Qed.

Lemma read_lut_opp_table_error_witness :
  let w : world refusing := {| hw := {| regs := ∅; refused := 0 |}; trace := [] |} in
  fst (hw_opp_call (OppOfAddTable 0) (hw w)) = - EINVAL /\
  - EINVAL <> 0 /\ - EINVAL <> - ENODEV /\
  qcom_cpufreq_hw_read_lut msm8998_data 19200000 300000000 0 w
  = (Err EINVAL, {| hw := {| regs := ∅; refused := 1 |};
                    trace := [EvOppCall (OppOfAddTable 0)] |}).
Proof.
  intros w.
  assert (Hcall : fst (hw_opp_call (OppOfAddTable 0) (hw w)) = - EINVAL) by reflexivity.
  assert (Hr : - EINVAL <> 0) by (unfold EINVAL; lia).
  assert (Hnodev : - EINVAL <> - ENODEV) by (unfold EINVAL, ENODEV; lia).
  split; [exact Hcall |]. split; [exact Hr |]. split; [exact Hnodev |].
  exact (read_lut_opp_table_error msm8998_data 19200000 300000000 0 w (- EINVAL)
           Hcall Hr Hnodev).
Defined.

(** X16: when the device tree has an operating-point table, with rates
    listed in strictly ascending order and none negative, the walk of the
    LUT read (dev_pm_opp_find_freq_ceil from rate 0, then from one above
    each rate found) reaches every operating point: the read first
    disables each of them, lowest rate first and whatever the framework
    answers to dev_pm_opp_disable, before it reads the LUT; the table it
    hands over on success is marked for bandwidth scaling. *)
Theorem read_lut_disables_all_opps {D : Type} `{Platform D}
    (drv_data : qcom_cpufreq_data) (xo_rate cpu_hw_rate cpu_dev : Z)
    (w : world D) (rates : list Z) :
  fst (hw_opp_call (OppOfAddTable cpu_dev) (hw w)) = 0 ->
  hw_opp_rates cpu_dev (snd (hw_opp_call (OppOfAddTable cpu_dev) (hw w))) = Some rates ->
  StronglySorted Z.lt rates ->
  Forall (fun rate => 0 <= rate) rates ->
  let r := qcom_cpufreq_hw_read_lut drv_data xo_rate cpu_hw_rate cpu_dev w in
  (exists rest,
     trace (snd r)
     = trace w ++ EvOppCall (OppOfAddTable cpu_dev)
                  :: map (fun rate => EvOppCall (OppDisable cpu_dev rate)) rates ++ rest) /\
  (forall out, fst r = Ok out -> rl_icc_scaling_enabled out = true).
Proof.
  intros Hcall Hrates Hsorted Hpos r.
  assert (Hrun : exists w2 : world D,
            trace w2 = trace w ++ EvOppCall (OppOfAddTable cpu_dev)
                         :: map (fun rate => EvOppCall (OppDisable cpu_dev rate)) rates /\
            r = bind (read_lut_loop drv_data xo_rate cpu_hw_rate cpu_dev true
                        (Z.to_nat LUT_MAX_ENTRIES) 0 0
                        (replicate (Z.to_nat (LUT_MAX_ENTRIES + 1))
                                   {| flags := 0; frequency := 0 |}))
                     (fun it => let '(i, table) := it in
                                ret {| rl_table := alter (set_frequency CPUFREQ_TABLE_END)
                                                         (Z.to_nat i) table;
                                       rl_icc_scaling_enabled := true |}) w2).
  { subst r. unfold qcom_cpufreq_hw_read_lut.
    unfold bind at 1. rewrite dev_pm_opp_ret_run, Hcall.
    unfold bind at 1. change (0 =? 0) with true. cbv iota.
    unfold bind at 1. unfold opp_rates at 1, with_hw at 1. cbn [hw trace].
    rewrite Hrates. cbn [default from_option]. unfold id.
    unfold bind at 1.
    match goal with |- context [opp_disable_all _ _ ?w1] =>
      destruct (opp_disable_all_run cpu_dev rates w1 Hsorted Hpos) as [d ->]
    end.
    unfold ret at 1. eexists. split; [| reflexivity].
    cbn [trace]. now rewrite <- app_assoc. }
  destruct Hrun as (w2 & Htr2 & ->).
  unfold bind.
  destruct (extends_read_lut_loop drv_data xo_rate cpu_hw_rate cpu_dev true
              (Z.to_nat LUT_MAX_ENTRIES) 0 0
              (replicate (Z.to_nat (LUT_MAX_ENTRIES + 1)) {| flags := 0; frequency := 0 |})
              w2) as [t Ht].
  destruct (read_lut_loop _ _ _ _ _ _ _ _ _ w2) as [[[i table] | e |] w3];
    cbn [fst snd trace ret] in *.
  - split; [exists t; now rewrite Ht, Htr2, <- app_assoc |].
    intros out [= <-]. reflexivity.
  - split; [exists t; now rewrite Ht, Htr2, <- app_assoc | discriminate].
  - split; [exists t; now rewrite Ht, Htr2, <- app_assoc | discriminate].
Qed.

Lemma read_lut_disables_all_opps_witness :
  let w : world with_opps := {| hw := {| wo_regs := ∅ |}; trace := [] |} in
  let r := qcom_cpufreq_hw_read_lut msm8998_data 19200000 300000000 0 w in
  fst (hw_opp_call (OppOfAddTable 0) (hw w)) = 0 /\
  hw_opp_rates 0 (snd (hw_opp_call (OppOfAddTable 0) (hw w)))
    = Some [300000000; 600000000; 900000000] /\
  StronglySorted Z.lt [300000000; 600000000; 900000000] /\
  Forall (fun rate => 0 <= rate) [300000000; 600000000; 900000000] /\
  (exists rest,
     trace (snd r)
     = [ EvOppCall (OppOfAddTable 0); EvOppCall (OppDisable 0 300000000);
         EvOppCall (OppDisable 0 600000000); EvOppCall (OppDisable 0 900000000) ] ++ rest) /\
  (forall out, fst r = Ok out -> rl_icc_scaling_enabled out = true).
Proof.
  intros w r.
  assert (Hcall : fst (hw_opp_call (OppOfAddTable 0) (hw w)) = 0) by reflexivity.
  assert (Hrates : hw_opp_rates 0 (snd (hw_opp_call (OppOfAddTable 0) (hw w)))
                   = Some [300000000; 600000000; 900000000]) by reflexivity.
  assert (Hsorted : StronglySorted Z.lt [300000000; 600000000; 900000000])
    by (repeat constructor; lia).
  assert (Hpos : Forall (fun rate => 0 <= rate) [300000000; 600000000; 900000000])
    by (repeat constructor; lia).
  split; [exact Hcall |]. split; [exact Hrates |].
  split; [exact Hsorted |]. split; [exact Hpos |].
  exact (read_lut_disables_all_opps msm8998_data 19200000 300000000 0 w
           [300000000; 600000000; 900000000] Hcall Hrates Hsorted Hpos).
Defined.

(** ** The throttle notifier: the frequency it publishes *)

Lemma get_throttle_freq_run {D : Type} `{Platform D} (data : qcom_cpufreq_data)
    (w : world D) :
  let read := hw_readl (base data + reg_current_vote (soc_data data)) (hw w) in
  qcom_lmh_get_throttle_freq data w
  = (Ok ((fst read mod 1024) * 19200), {| hw := snd read; trace := trace w |}).
Proof.
  intros read. unfold qcom_lmh_get_throttle_freq, bind, readl, with_hw, ret. subst read.
  destruct (hw_readl _ (hw w)) as [v d]. cbn [fst snd hw trace].
  pose proof (Z.mod_pos_bound v 1024) as Hmod.
  assert (Hval : u32 (Z.land (u32 v) 1023 * 19200) = v mod 1024 * 19200).
  { assert (Hland : Z.land (u32 v) 1023 = v mod 1024).
    { rewrite u32_land_low by lia. change 1023 with (Z.ones 10).
      now rewrite Z.land_ones by lia. }
    rewrite Hland. unfold u32. apply Z.mod_small. lia. }
  now rewrite Hval.
Qed.

(** X17: the throttle frequency read from the hardware is the low ten
    bits of the current-vote register times 19200 kHz: a multiple of
    19200 between 0 and 19641600, never wrapped by the 32-bit arithmetic,
    and reading it leaves no trace. *)
Theorem lmh_throttle_freq_range {D : Type} `{Platform D}
    (data : qcom_cpufreq_data) (w : world D) :
  let raw := fst (hw_readl (base data + reg_current_vote (soc_data data)) (hw w)) in
  exists w',
    qcom_lmh_get_throttle_freq data w = (Ok ((raw mod 1024) * 19200), w') /\
    0 <= (raw mod 1024) * 19200 <= 19641600 /\
    trace w' = trace w.
Proof.
  intros raw. eexists. split; [apply get_throttle_freq_run |].
  pose proof (Z.mod_pos_bound raw 1024) as Hmod.
  split; [lia | reflexivity].
Qed.

Lemma last_filter_elem (rates : list Z) (P : Z -> Prop) `{!forall r, Decision (P r)} r :
  last (filter P rates) = Some r -> r ∈ rates /\ P r.
Proof.
  intros Hlast. apply last_Some_elem_of in Hlast.
  apply list_elem_of_filter in Hlast as [HP Hin]. now split.
Qed.

Lemma sorted_app_below (l1 l2 : list Z) (x : Z) :
  StronglySorted Z.lt (l1 ++ x :: l2) -> Forall (fun y => y < x) l1.
Proof.
  induction l1 as [| a l1 IH]; intros Hsorted; [constructor |].
  cbn [app] in Hsorted. apply StronglySorted_inv in Hsorted as [Hsorted Ha].
  apply Forall_cons. split; [| now apply IH].
  rewrite Forall_forall in Ha. apply Ha.
  apply elem_of_app. right. apply list_elem_of_here.
Qed.

(** The normalisation against a table in strictly ascending order: the
    highest rate at or below the frequency if there is one, the lowest
    rate of the table otherwise. *)
Lemma opp_normalise_extremal (rates : list Z) (freq_hz : Z) :
  StronglySorted Z.lt rates ->
  rates <> [] ->
  exists r,
    match opp_find_freq_floor rates freq_hz with
    | Some r => r
    | None => default freq_hz (opp_find_freq_ceil rates freq_hz)
    end = r /\
    r ∈ rates /\
    ((r <= freq_hz /\ forall r', r' ∈ rates -> r' <= freq_hz -> r' <= r) \/
     (Forall (fun r' => freq_hz < r') rates /\ forall r', r' ∈ rates -> r <= r')).
Proof.
  intros Hsorted Hne. unfold opp_find_freq_floor, opp_find_freq_ceil.
  destruct (last (filter (fun r => r <= freq_hz) rates)) as [r |] eqn:Hfloor.
  - exists r. split; [reflexivity |].
    pose proof (last_filter_elem _ _ _ Hfloor) as [Hin Hle].
    split; [exact Hin |]. left. split; [exact Hle |].
    apply last_filter_Some in Hfloor as (l1 & l2 & -> & Habove).
    pose proof (sorted_app_below _ _ _ Hsorted) as Hbelow.
    intros r' Hin' Hle'.
    apply elem_of_app in Hin' as [Hin' | Hin'].
    + rewrite Forall_forall in Hbelow. specialize (Hbelow _ Hin'). lia.
    + apply elem_of_cons in Hin' as [-> | Hin']; [lia |].
      rewrite Forall_forall in Habove. now destruct (Habove _ Hin').
  - apply last_None in Hfloor.
    assert (Hall : Forall (fun r' => freq_hz < r') rates).
    { apply Forall_forall. intros r' Hin.
      destruct (Z_lt_ge_dec freq_hz r') as [| Hge]; [assumption | exfalso].
      assert (Hf : r' ∈ filter (fun r => r <= freq_hz) rates)
        by (apply list_elem_of_filter; split; [lia | exact Hin]).
      rewrite Hfloor in Hf. now apply elem_of_nil in Hf. }
    destruct rates as [| r0 rest]; [contradiction |].
    cbn [find]. apply Forall_cons in Hall as Hall'. destruct Hall' as [H0 _].
    destruct (Z.leb_spec freq_hz r0); [| lia].
    exists r0. split; [reflexivity |]. split; [apply list_elem_of_here |].
    right. split; [exact Hall |].
    apply StronglySorted_inv in Hsorted as [_ Hlt]. rewrite Forall_forall in Hlt.
    intros r' Hin'. apply elem_of_cons in Hin' as [-> | Hin']; [lia |].
    specialize (Hlt _ Hin'). lia.
Qed.

(** X18: with an operating-point table for the first CPU of the policy,
    its rates in strictly ascending order, the frequency a poll publishes
    as thermal pressure is always a rate of that table, in kHz.  The
    throttle frequency is taken in Hz as the 32-bit product the code
    forms, that is modulo 2^32 (a vote of 224 or more wraps); the rate
    published is the highest rate of the table not above that value, or,
    when every rate of the table lies above it, the lowest rate of the
    table. *)
Theorem lmh_throttled_freq_is_opp_rate {D : Type} `{Platform D} (nr_cpu_ids : Z)
    (data : qcom_cpufreq_data) (policy : cpufreq_policy) (rates : list Z)
    (w : world D) :
  let cpu := cpumask_first nr_cpu_ids (cpus policy) in
  (forall d, hw_get_cpu_device cpu d = true) ->
  (forall d, hw_opp_rates cpu d = Some rates) ->
  StronglySorted Z.lt rates ->
  rates <> [] ->
  let raw := fst (hw_readl (base data + reg_current_vote (soc_data data)) (hw w)) in
  let freq_hz := ((raw mod 1024) * 19200 * HZ_PER_KHZ) mod 2 ^ 32 in
  exists r w1,
    lmh_throttled_freq nr_cpu_ids data policy w = (Ok (r / HZ_PER_KHZ), w1) /\
    r ∈ rates /\
    ((r <= freq_hz /\ forall r', r' ∈ rates -> r' <= freq_hz -> r' <= r) \/
     (Forall (fun r' => freq_hz < r') rates /\ forall r', r' ∈ rates -> r <= r')) /\
    trace w1 = trace w ++ [EvThermalPressure (related_cpus policy) (r / HZ_PER_KHZ)].
Proof.
  intros cpu Hdev Hrates Hsorted Hne raw freq_hz.
  destruct (opp_normalise_extremal rates freq_hz Hsorted Hne) as (r & Hnorm & Hin & Hcmp).
  exists r. unfold lmh_throttled_freq. fold cpu.
  unfold bind at 1. unfold get_cpu_device at 1, with_hw at 1. rewrite Hdev.
  unfold bind at 1.
  rewrite get_throttle_freq_run. cbn [hw trace]. fold raw.
  unfold bind at 1. unfold opp_rates at 1, with_hw at 1.
  rewrite Hrates. change (u32 (raw mod 1024 * 19200 * HZ_PER_KHZ)) with freq_hz.
  rewrite Hnorm.
  unfold bind, log, ret. cbn [hw trace].
  eexists. split; [reflexivity |]. split; [exact Hin |]. split; [exact Hcmp |].
  reflexivity.
Qed.

Lemma lmh_throttled_freq_is_opp_rate_witness :
  let rates := [300000000; 600000000; 900000000] in
  (forall d : with_opps, hw_get_cpu_device 0 d = true) /\
  (forall d : with_opps, hw_opp_rates 0 d = Some rates) /\
  StronglySorted Z.lt rates /\
  rates <> [] /\
  (* a vote of 31: 595.2 MHz, normalised down to 300 MHz *)
  (exists w1,
     lmh_throttled_freq 8 (sdm845_data false) (sdm845_policy false)
       {| hw := {| wo_regs := {[ 0x17d43000 + 0x704 := 31 ]} |}; trace := [] |}
     = (Ok 300000, w1) /\
     trace w1 = [EvThermalPressure [0; 1; 2; 3] 300000]) /\
  (* a vote of 224: 4300.8 MHz wraps to 5832704 Hz, below every rate *)
  (exists w1,
     lmh_throttled_freq 8 (sdm845_data false) (sdm845_policy false)
       {| hw := {| wo_regs := {[ 0x17d43000 + 0x704 := 224 ]} |}; trace := [] |}
     = (Ok 300000, w1) /\
     trace w1 = [EvThermalPressure [0; 1; 2; 3] 300000]).
Proof.
  intros rates.
  assert (Hdev : forall d : with_opps,
            hw_get_cpu_device (cpumask_first 8 (cpus (sdm845_policy false))) d = true)
    by reflexivity.
  assert (Hrates : forall d : with_opps,
            hw_opp_rates (cpumask_first 8 (cpus (sdm845_policy false))) d = Some rates)
    by reflexivity.
  assert (Hsorted : StronglySorted Z.lt rates) by (repeat constructor; lia).
  assert (Hne : rates <> []) by discriminate.
  split; [exact Hdev |]. split; [exact Hrates |]. split; [exact Hsorted |].
  split; [exact Hne |].
  split.
  { assert (Hfst : fst (lmh_throttled_freq 8 (sdm845_data false) (sdm845_policy false)
                          {| hw := {| wo_regs := {[ 0x17d43000 + 0x704 := 31 ]} |};
                             trace := [] |}) = Ok 300000) by (vm_compute; reflexivity).
    destruct (lmh_throttled_freq_is_opp_rate 8 (sdm845_data false) (sdm845_policy false)
                rates {| hw := {| wo_regs := {[ 0x17d43000 + 0x704 := 31 ]} |};
                         trace := [] |} Hdev Hrates Hsorted Hne)
      as (r & w1 & Hrun & _ & _ & Htr).
    rewrite Hrun in Hfst. cbn [fst] in Hfst.
    exists w1. rewrite Hrun. split; [now rewrite Hfst |].
    rewrite Htr. cbn [trace app]. injection Hfst as ->. reflexivity. }
  { assert (Hfst : fst (lmh_throttled_freq 8 (sdm845_data false) (sdm845_policy false)
                          {| hw := {| wo_regs := {[ 0x17d43000 + 0x704 := 224 ]} |};
                             trace := [] |}) = Ok 300000) by (vm_compute; reflexivity).
    destruct (lmh_throttled_freq_is_opp_rate 8 (sdm845_data false) (sdm845_policy false)
                rates {| hw := {| wo_regs := {[ 0x17d43000 + 0x704 := 224 ]} |};
                         trace := [] |} Hdev Hrates Hsorted Hne)
      as (r & w1 & Hrun & _ & _ & Htr).
    rewrite Hrun in Hfst. cbn [fst] in Hfst.
    exists w1. rewrite Hrun. split; [now rewrite Hfst |].
    rewrite Htr. cbn [trace app]. injection Hfst as ->. reflexivity. }
Defined.

(** ** LMh interrupt set-up and tear-down *)

(** X19: how the LMh set-up and tear-down pair up.  Without an interrupt
    line (-ENXIO) the set-up returns 0 and does nothing, and the tear-down
    on the data it leaves does nothing either.  Any other negative answer
    makes the set-up fail with that answer, before anything is initialised.
    With an interrupt line the set-up returns 0, clears the cancellation
    flag and requests the line, also when the request is refused; the
    tear-down on the data it leaves then raises the cancellation flag under
    the lock, cancels the polling work and frees that same line. *)
Theorem lmh_init_exit_pairing (policy : cpufreq_policy) (get_irq request_ret : Z) :
  let '(ret, data, acts) := qcom_cpufreq_hw_lmh_init policy get_irq request_ret in
  throttle_irq data = get_irq /\
  (get_irq = - ENXIO ->
   ret = 0 /\ acts = [] /\ qcom_cpufreq_hw_lmh_exit data = (data, [])) /\
  (get_irq < 0 -> get_irq <> - ENXIO -> ret = get_irq /\ acts = []) /\
  (0 < get_irq ->
   ret = 0 /\ cancel_throttle data = false /\
   (exists rest, acts = [LmhMutexInit; LmhInitDeferrableWork; LmhRequestThreadedIrq get_irq]
                        ++ rest) /\
   qcom_cpufreq_hw_lmh_exit data
   = (with_cancel_throttle true data,
      [LmhMutexLock; LmhMutexUnlock; LmhCancelDelayedWorkSync; LmhFreeIrq get_irq])).
Proof.
  unfold qcom_cpufreq_hw_lmh_init, qcom_cpufreq_hw_lmh_exit.
  cbn [throttle_irq with_throttle_irq with_cancel_throttle].
  destruct (Z.eqb_spec get_irq (- ENXIO)) as [-> | Hne].
  - cbn [throttle_irq]. split; [reflexivity |].
    split; [intros _; repeat split; reflexivity |].
    split; [intros _ Hne; contradiction | unfold ENXIO; intros; lia].
  - destruct (Z.ltb_spec get_irq 0) as [Hneg | Hpos].
    + cbn [throttle_irq]. split; [reflexivity |]. split; [intros; contradiction |].
      split; [intros; now split | intros; lia].
    + destruct (negb (request_ret =? 0)); cbn [throttle_irq cancel_throttle];
        (split; [reflexivity |]); (split; [intros; contradiction |]);
        (split; [intros; lia |]); intros Hirq;
        (split; [reflexivity |]); (split; [reflexivity |]);
        (split; [eexists; reflexivity |]);
        cbn [throttle_irq with_cancel_throttle with_throttle_irq];
        (destruct (Z.leb_spec get_irq 0); [lia | reflexivity]).
Qed.

(** ** CPUs of a frequency domain *)

Lemma related_cpus_loop_cons c rest index m count :
  related_cpus_loop (c :: rest) index m count
  = if in_freq_domain index c
    then related_cpus_loop rest index ({[ cpu_id c ]} ∪ m) (count + 1)
    else related_cpus_loop rest index m count.
Proof.
  cbn [related_cpus_loop]. unfold in_freq_domain.
  destruct (cpu_has_node c); cbn [negb andb]; [| reflexivity].
  destruct (cpu_freq_domain c) as [dom |]; reflexivity.
Qed.

Lemma related_cpus_loop_spec possible index : forall m count,
  related_cpus_loop possible index m count
  = (list_to_set (map cpu_id (List.filter (in_freq_domain index) possible)) ∪ m,
     count + Z.of_nat (length (List.filter (in_freq_domain index) possible))).
Proof.
  induction possible as [| c rest IH]; intros m count.
  - cbn. now rewrite (left_id_L ∅ (∪)), Z.add_0_r.
  - rewrite related_cpus_loop_cons. cbn [List.filter].
    destruct (in_freq_domain index c); rewrite IH; [| reflexivity].
    cbn [map length list_to_set]. f_equal; [| lia].
    rewrite (comm_L (∪) {[ cpu_id c ]} m), (assoc_L (∪)).
    rewrite (comm_L (∪) {[ cpu_id c ]}), <- !(assoc_L (∪)).
    f_equal. apply (comm_L (∪)).
Qed.

Lemma NoDup_map_filter {A B} (f : A -> B) (p : A -> bool) (l : list A) :
  NoDup (map f l) -> NoDup (map f (List.filter p l)).
Proof.
  induction l as [| x l IH]; cbn; [constructor |].
  intros Hnd. apply NoDup_cons in Hnd as [Hx Hnd].
  destruct (p x); cbn; [| now apply IH].
  apply NoDup_cons. split; [| now apply IH].
  intros Hin. apply Hx. apply list_elem_of_fmap in Hin as (y & -> & Hy).
  apply list_elem_of_fmap. exists y. split; [reflexivity |].
  apply list_elem_of_In in Hy. apply filter_In in Hy as [Hy _].
  now apply list_elem_of_In.
Qed.

(** X20: the CPUs of a frequency domain.  The function adds to the mask
    exactly the possible CPUs that have a device-tree node whose
    "qcom,freq-domain" names the domain, and leaves the CPUs already in the
    mask there.  It returns their number, or -EINVAL when there is none, so
    never 0.  From an empty mask, over distinct CPU numbers, a positive
    result is the weight of the mask. *)
Theorem related_cpus_counts_domain (possible : list cpu_of_node) (index : Z)
    (m : gset Z) :
  let members := List.filter (in_freq_domain index) possible in
  let '(ret, m') := qcom_get_related_cpus possible index m in
  m' = list_to_set (map cpu_id members) ∪ m /\
  ret = (if decide (members = []) then - EINVAL else Z.of_nat (length members)) /\
  ret <> 0 /\
  (NoDup (map cpu_id possible) -> m = ∅ -> 0 < ret -> ret = Z.of_nat (size m')).
Proof.
  intros members. unfold qcom_get_related_cpus.
  rewrite related_cpus_loop_spec. fold members.
  split; [reflexivity |].
  assert (Hret : (if 0 <? 0 + Z.of_nat (length members)
                  then 0 + Z.of_nat (length members) else - EINVAL)
                 = if decide (members = []) then - EINVAL
                   else Z.of_nat (length members)).
  { destruct (decide (members = [])) as [-> | Hne]; [reflexivity |].
    destruct members; [contradiction |]. cbn [length].
    destruct (Z.ltb_spec 0 (0 + Z.of_nat (S (length members)))); lia. }
  rewrite Hret. split; [reflexivity |]. split.
  - destruct (decide (members = [])) as [| Hne]; [unfold EINVAL; lia |].
    destruct members; [contradiction | cbn [length]; lia].
  - intros Hnd -> Hpos.
    destruct (decide (members = [])) as [| Hne]; [unfold EINVAL in Hpos; lia |].
    rewrite (right_id_L ∅ (∪)). rewrite size_list_to_set.
    + now rewrite length_map.
    + now apply NoDup_map_filter.
Qed.

Example related_cpus_octa_core :
  qcom_get_related_cpus octa_core 1 ∅ = (3, {[ 4; 6; 7 ]}) /\
  qcom_get_related_cpus octa_core 2 {[ 0 ]} = (- EINVAL, {[ 0 ]}).
Proof. split; vm_compute; reflexivity. Qed.

(** ** Probing *)

(** X21: on a platform that programs the OSM itself (uses_tz false), with
    the firmware interface available, a CPU node without the
    "power-domains" property makes the probe return 0: the value returned
    is PTR_ERR of the NULL node.  No clock is looked up and the cpufreq
    driver is not registered. *)
Theorem probe_missing_power_domain_returns_success (env : probe_env)
    (soc : qcom_cpufreq_soc_data) :
  pe_cpu_dev env = true ->
  pe_soc_data env = Some soc ->
  uses_tz soc = false ->
  pe_scm_available env = true ->
  pe_pd_node env = false ->
  qcom_cpufreq_hw_driver_probe env
  = {| po_ret := 0; po_xo_rate := None; po_cpu_hw_rate := None;
       po_register_called := false |}.
Proof.
  intros Hdev Hsoc Htz Hscm Hpd. unfold qcom_cpufreq_hw_driver_probe.
  now rewrite Hdev, Hsoc, Htz, Hscm, Hpd.
Qed.

Lemma probe_missing_power_domain_returns_success_witness :
  let env := no_power_domain_env msm8998_soc_data in
  pe_cpu_dev env = true /\
  pe_soc_data env = Some msm8998_soc_data /\
  uses_tz msm8998_soc_data = false /\
  pe_scm_available env = true /\
  pe_pd_node env = false /\
  po_ret (qcom_cpufreq_hw_driver_probe env) = 0 /\
  po_register_called (qcom_cpufreq_hw_driver_probe env) = false.
Proof.
  intros env.
  assert (Hprobe := probe_missing_power_domain_returns_success env msm8998_soc_data
                      eq_refl eq_refl eq_refl eq_refl eq_refl).
  repeat (split; [reflexivity |]).
  rewrite Hprobe. split; reflexivity.
Defined.

(** X22: the cpufreq driver is handed to the framework only when
    everything it needs is in place: the device of CPU 0, the match data,
    on a platform that programs the OSM itself also the firmware interface
    and a bound power-domain device, both clocks and the interconnect
    paths.  The probe then returns what the registration returns, with the
    XO rate taken from the "xo" clock and the rate of the alternate source
    divided by the hardware divider, a divider of 0 counting as 1. *)
Theorem probe_registers_only_when_ready (env : probe_env) :
  po_register_called (qcom_cpufreq_hw_driver_probe env) = true ->
  exists soc xo alt,
    pe_cpu_dev env = true /\
    pe_soc_data env = Some soc /\
    (uses_tz soc = false ->
     pe_scm_available env = true /\ pe_pd_node env = true /\ pe_pd_dev_bound env = true) /\
    pe_clk_xo env = inl xo /\
    pe_clk_alternate env = inl alt /\
    pe_find_icc_paths env = 0 /\
    qcom_cpufreq_hw_driver_probe env
    = {| po_ret := pe_register_driver env;
         po_xo_rate := Some xo;
         po_cpu_hw_rate := Some (alt / (if clk_hw_div soc =? 0 then 1 else clk_hw_div soc));
         po_register_called := true |}.
Proof.
  unfold qcom_cpufreq_hw_driver_probe.
  destruct (pe_cpu_dev env); cbn [negb]; [| discriminate].
  destruct (pe_soc_data env) as [soc |]; [| discriminate].
  intros Hreg. exists soc.
  assert (Hpd : uses_tz soc = false ->
                pe_scm_available env = true /\ pe_pd_node env = true /\
                pe_pd_dev_bound env = true).
  { intros Htz. rewrite Htz in Hreg. cbn [negb] in Hreg.
    destruct (pe_scm_available env); [| discriminate].
    destruct (pe_pd_node env); [| discriminate].
    destruct (pe_pd_dev_bound env); [| discriminate]. now repeat split. }
  destruct (if negb (uses_tz soc) then _ else _) as [ret |]; [discriminate |].
  destruct (pe_clk_xo env) as [xo | e]; [| discriminate].
  destruct (pe_clk_alternate env) as [alt | e]; [| discriminate].
  exists xo, alt.
  destruct (Z.eqb_spec (pe_find_icc_paths env) 0) as [Hicc |]; cbn [negb] in *;
    [| discriminate].
  repeat (split; [first [reflexivity | assumption] |]).
  do 3 f_equal. destruct (clk_hw_div soc =? 0) eqn:Hdiv; [| reflexivity].
  apply Z.eqb_eq in Hdiv. now rewrite Hdiv.
Qed.

Lemma probe_registers_only_when_ready_witness :
  let env := ready_probe_env msm8998_soc_data in
  po_register_called (qcom_cpufreq_hw_driver_probe env) = true /\
  qcom_cpufreq_hw_driver_probe env
  = {| po_ret := 0; po_xo_rate := Some 19200000; po_cpu_hw_rate := Some 300000000;
       po_register_called := true |}.
Proof.
  intros env.
  assert (Hreg : po_register_called (qcom_cpufreq_hw_driver_probe env) = true)
    by reflexivity.
  split; [exact Hreg |].
  destruct (probe_registers_only_when_ready env Hreg)
    as (soc & xo & alt & _ & Hsoc & _ & Hxo & Halt & _ & Hprobe).
  rewrite Hprobe. injection Hsoc as <-. injection Hxo as <-. injection Halt as <-.
  reflexivity.
Defined.

(** ** OSM bring-up *)

Section OsmRuns.
Context {D : Type} `{Platform D}.

Lemma readl_run addr (w : world D) :
  readl addr w
  = (Ok (u32 (fst (hw_readl addr (hw w)))),
     {| hw := snd (hw_readl addr (hw w)); trace := trace w |}).
Proof. unfold readl, with_hw. now destruct (hw_readl addr (hw w)). Qed.

Lemma udelay_run us (w : world D) :
  udelay us w = (Ok tt, {| hw := hw_udelay us (hw w); trace := trace w ++ [EvUdelay us] |}).
Proof. reflexivity. Qed.

Lemma boost_setup_run timer0_addr len (w : world D) :
  exists d, qcom_cpufreq_hw_boost_setup timer0_addr len w
            = (Ok tt, {| hw := d; trace := trace w ++ boost_timer_events timer0_addr len |}).
Proof.
  unfold qcom_cpufreq_hw_boost_setup, bind. rewrite !writel_run. cbn [trace hw].
  rewrite <- !app_assoc. eexists. reflexivity.
Qed.

Variable drv_data : qcom_cpufreq_data.
Variable xo_rate : Z.
Variable tregs : qcom_cpufreq_soc_setup_tunables.

(** Once the LUT is programmed the tunables are written without
    condition; what remains is the ACD initialization and the enable. *)
Lemma osm_setup_after_lut osm_rsrc acd_base src cpu_count g (w w1 : world D) :
  qcom_cpufreq_hw_write_lut drv_data xo_rate osm_rsrc src cpu_count g w = (Ok tt, w1) ->
  exists d2 d_droop d_fsm,
    let droop := u32 (fst (hw_readl (base drv_data + reg_droop_ctrl tregs) d_droop)) in
    let fsm := u32 (fst (hw_readl (base drv_data + reg_pdn_fsm_ctrl tregs) d_fsm)) in
    qcom_cpufreq_hw_osm_setup drv_data xo_rate tregs osm_rsrc acd_base src cpu_count g w
    = bind (qcom_cpufreq_hw_acd_init drv_data acd_base)
           (fun _ => writel 1 (base drv_data + reg_enable (soc_data drv_data)) ;;;
                     udelay OSM_BOOT_TIME_US)
           {| hw := d2;
              trace := trace w1 ++ osm_tunable_events (base drv_data) tregs droop fsm |}.
Proof.
  intros Hlut. unfold qcom_cpufreq_hw_osm_setup. cbv zeta.
  unfold bind at 1. rewrite Hlut.
  do 8 (unfold bind at 1; rewrite writel_run).
  do 3 (unfold bind at 1;
        match goal with |- context [qcom_cpufreq_hw_boost_setup ?a ?l ?w0] =>
          destruct (boost_setup_run a l w0) as [? ->]
        end).
  do 6 (unfold bind at 1; rewrite writel_run).
  unfold bind at 1. rewrite readl_run. cbn [hw trace].
  unfold bind at 1. rewrite writel_run. cbn [hw trace].
  unfold bind at 1. rewrite readl_run. cbn [hw trace].
  unfold bind at 1. rewrite writel_run. cbn [hw trace].
  unfold bind at 1. rewrite writel_run. cbn [hw trace].
  change (u32 (Z.lor (Z.lor (FIELD_PREP CYCLE_COUNTER_CLK_RATIO OSM_XO_RATIO_VAL)
                            CYCLE_COUNTER_USE_XO_EDGE) (BIT 0))) with 0x113.
  change (u32 (Z.lor (FIELD_PREP HYSTERESIS_UP_MASK HYSTERESIS_CC_NS)
                     (FIELD_PREP HYSTERESIS_DN_MASK HYSTERESIS_CC_NS))) with 0x00c800c8.
  change (u32 (Z.lor (FIELD_PREP HYSTERESIS_UP_MASK HYSTERESIS_LLM_NS)
                     (FIELD_PREP HYSTERESIS_DN_MASK HYSTERESIS_LLM_NS))) with 0xffffffff.
  change (u32 (Z.lor (FIELD_PREP DROOP_TIMER1 DROOP_TIMER_NS)
                     (FIELD_PREP DROOP_TIMER0 DROOP_TIMER_NS))) with 0x00640064.
  change (u32 (Z.lor (FIELD_PREP DROOP_TIMER1 DROOP_WAIT_RELEASE_TIMER_NS)
                     (FIELD_PREP DROOP_TIMER0 DROOP_WAIT_RELEASE_TIMER_NS)))
    with 0x00320032.
  change (u32 (BIT 0)) with 1. change (u32 0) with 0. change (u32 1) with 1.
  change (u32 BOOST_SYNC_DELAY) with 5.
  change (u32 DROOP_RELEASE_TIMER_NS) with 1.
  change (u32 DROOP_TIMER_NS) with 100.
  change (u32 PLL_OVERRIDE_DROOP_EN) with 1.
  change DROOP_CTRL_VAL with 0x80020008.
  rewrite <- !Z.lor_assoc.
  change (Z.lor (Z.lor CC_BOOST_EN (Z.lor PS_BOOST_EN DCVS_BOOST_EN))
                (Z.lor WFX_DROOP_EN (Z.lor PC_RET_EXIT_DROOP_EN DCVS_DROOP_EN)))
    with 0x3f.
  eexists _, _, _. cbv zeta. f_equal. f_equal.
  unfold osm_tunable_events, boost_timer_events. rewrite <- !app_assoc. cbn [app].
  reflexivity.
Qed.
End OsmRuns.

Section Confined.
Context {D : Type} `{Platform D}.
Variable addr : Z.

Let quiet (e : event) : Prop := ~ writes_to addr e.

Lemma confined_silent {A} (m : M D A) :
  (forall w, trace (snd (m w)) = trace w) -> confined quiet m.
Proof. intros Hm w. exists []. rewrite Hm, app_nil_r. now split. Qed.

Lemma confined_ret {A} (a : A) : confined quiet (ret a : M D A).
Proof. now apply confined_silent. Qed.

Lemma confined_throw {A} e : confined quiet (@throw D A e).
Proof. now apply confined_silent. Qed.

Lemma confined_fault {A} : confined quiet (@fault D A).
Proof. now apply confined_silent. Qed.

Lemma confined_lift_result {A} (r : result A) : confined quiet (lift_result r : M D A).
Proof. now apply confined_silent. Qed.

Lemma confined_readl a : confined quiet (readl (D := D) a).
Proof. apply confined_silent. intros w. now rewrite readl_run. Qed.

Lemma confined_bind {A B} (m : M D A) (k : A -> M D B) :
  confined quiet m -> (forall a, confined quiet (k a)) -> confined quiet (bind m k).
Proof.
  intros Hm Hk w. unfold bind. destruct (Hm w) as (t & Ht & Hq).
  destruct (m w) as [[a | e |] w1]; cbn [fst snd] in *.
  - destruct (Hk a w1) as (t' & Ht' & Hq'). exists (t ++ t').
    split; [now rewrite Ht', Ht, app_assoc | now apply Forall_app].
  - now exists t.
  - now exists t.
Qed.

Lemma confined_if {A} (b : bool) (m1 m2 : M D A) :
  confined quiet m1 -> confined quiet m2 -> confined quiet (if b then m1 else m2).
Proof. now destruct b. Qed.

Lemma confined_writel val a : a <> addr -> confined quiet (writel (D := D) val a).
Proof.
  intros Ha w. rewrite writel_run. exists [EvWritel (u32 val) a]. split; [reflexivity |].
  constructor; [exact Ha | constructor].
Qed.

Lemma confined_udelay us : confined quiet (udelay (D := D) us).
Proof.
  intros w. exists [EvUdelay us]. split; [reflexivity |].
  constructor; [intros [] | constructor].
Qed.

Lemma confined_scm a val : confined quiet (qcom_scm_io_writel (D := D) a val).
Proof.
  intros w. exists [EvScmIoWritel (u32 a) (u32 val)].
  split; [| constructor; [intros [] | constructor]].
  unfold qcom_scm_io_writel, bind, log, with_hw. cbn.
  destruct (hw_scm_io_writel _ _ _) as [r d]. cbn. destruct (r =? 0); reflexivity.
Qed.

Lemma confined_poll a mask sleep_us timeout_us :
  confined quiet (readl_poll_timeout (D := D) a mask sleep_us timeout_us).
Proof.
  intros w. exists [EvPoll a mask sleep_us timeout_us].
  split; [| constructor; [intros [] | constructor]].
  unfold readl_poll_timeout, bind, log, with_hw. cbn.
  destruct (poll_reads _ _ _ _ _) as [[|] d]; reflexivity.
Qed.

Lemma confined_boost_setup timer0_addr len :
  timer0_addr <> addr -> timer0_addr + len <> addr -> timer0_addr + 2 * len <> addr ->
  confined quiet (qcom_cpufreq_hw_boost_setup (D := D) timer0_addr len).
Proof.
  intros H0 H1 H2. unfold qcom_cpufreq_hw_boost_setup.
  do 2 (apply confined_bind; [now apply confined_writel | intros _]).
  now apply confined_writel.
Qed.

Lemma confined_mem_acc_write n seq_addr acc : forall i,
  confined quiet (mem_acc_write (D := D) n i seq_addr acc).
Proof.
  induction n as [| n IH]; intros i; cbn [mem_acc_write].
  - apply confined_ret.
  - apply confined_bind; [apply confined_scm | intros _; apply IH].
Qed.

Lemma confined_unless_ok_bind {A B} (m : M D A) (k : A -> M D B) :
  confined quiet m -> (forall a, confined_unless_ok quiet (k a)) ->
  confined_unless_ok quiet (bind m k).
Proof.
  intros Hm Hk w. unfold bind. destruct (Hm w) as (t & Ht & Hq).
  destruct (m w) as [[a | e |] w1]; cbn [fst snd] in *.
  - destruct (Hk a w1) as (t' & Ht' & Hq'). exists (t ++ t').
    split; [now rewrite Ht', Ht, app_assoc |].
    destruct Hq' as [Hok | Hq']; [now left | right; now apply Forall_app].
  - exists t. split; [exact Ht | now right].
  - exists t. split; [exact Ht | now right].
Qed.
End Confined.

Section OsmConfined.
Context {D : Type} `{Platform D}.

(** On the msm8998 register map nothing before the final step of the
    bring-up writes the enable register. *)
Lemma confined_lut_loop_run b irq c addr n tbl num : forall i s,
  0 <= i -> addr < b + 0x150 ->
  confined (fun e => ~ writes_to addr e)
    (lut_loop_run (D := D)
       {| base := b; soc_data := msm8998_soc_data; throttle_irq := irq;
          cancel_throttle := c |} n i tbl num s).
Proof.
  induction n as [| n IH]; intros i s Hi Haddr; cbn [lut_loop_run].
  - apply confined_ret.
  - apply confined_bind; [| intros _; apply IH; lia].
    unfold lut_write_row. cbn [base soc_data msm8998_soc_data lut_row_size reg_index
      reg_volt_lut reg_freq_lut setup_regs reg_override reg_spare].
    do 4 (apply confined_bind; [apply confined_writel; lia | intros _]).
    apply confined_writel; lia.
Qed.

Lemma confined_write_lut b irq c addr xo_rate osm_rsrc src cpu_count g :
  addr < b + 0x48 ->
  confined (fun e => ~ writes_to addr e)
    (qcom_cpufreq_hw_write_lut (D := D)
       {| base := b; soc_data := msm8998_soc_data; throttle_irq := irq;
          cancel_throttle := c |} xo_rate osm_rsrc src cpu_count g).
Proof.
  intros Haddr. unfold qcom_cpufreq_hw_write_lut.
  destruct osm_rsrc as [start |]; [| apply confined_throw].
  apply confined_bind; [apply confined_lift_result | intros out].
  apply confined_if; [apply confined_throw |].
  apply confined_bind; [apply confined_lut_loop_run; lia | intros s].
  apply confined_if; [apply confined_throw |].
  apply confined_bind.
  { apply confined_if; [| apply confined_ret].
    apply confined_bind; [apply confined_scm | intros _; apply confined_ret]. }
  intros acc. cbv zeta.
  apply confined_bind; [apply confined_mem_acc_write | intros _].
  apply confined_if; [apply confined_fault |].
  apply confined_bind; [apply confined_scm | intros _].
  apply confined_bind;
    [apply confined_writel; cbn [base soc_data msm8998_soc_data setup_regs reg_seq1]; lia
    | intros _].
  do 3 (apply confined_bind; [apply confined_scm | intros _]).
  apply confined_scm.
Qed.

Lemma confined_acd_xfer data addr acd_base reg val :
  soc_data data = msm8998_soc_data ->
  acd_base + reg <> addr -> acd_base + 0x90 <> addr ->
  confined (fun e => ~ writes_to addr e)
    (qcom_cpufreq_hw_acd_write_xfer (D := D) data acd_base reg val).
Proof.
  intros Hsoc Hreg Hctl. unfold qcom_cpufreq_hw_acd_write_xfer. rewrite Hsoc.
  cbn [acd_data msm8998_soc_data write_ctl_reg write_sts_reg].
  do 3 (apply confined_bind; [now apply confined_writel | intros _]).
  apply confined_poll.
Qed.

Lemma confined_acd_init data addr acd_base :
  soc_data data = msm8998_soc_data ->
  (forall a, acd_base = Some a -> a + 0x94 < addr \/ addr < a) ->
  confined (fun e => ~ writes_to addr e) (qcom_cpufreq_hw_acd_init (D := D) data acd_base).
Proof.
  intros Hsoc Hout. unfold qcom_cpufreq_hw_acd_init.
  destruct acd_base as [a |]; [| apply confined_ret].
  specialize (Hout a eq_refl).
  assert (Hx : forall reg val, 0 <= reg <= 0x94 ->
            confined (fun e => ~ writes_to addr e)
              (qcom_cpufreq_hw_acd_write_xfer (D := D) data a reg val)).
  { intros reg val Hreg. apply confined_acd_xfer; [exact Hsoc | lia | lia]. }
  assert (Hauto : forall val,
            confined (fun e => ~ writes_to addr e)
              (qcom_cpufreq_hw_acd_write_autoxfer (D := D) data a val)).
  { intros val. unfold qcom_cpufreq_hw_acd_write_autoxfer. rewrite Hsoc.
    cbn [acd_data msm8998_soc_data auto_xfer_reg auto_xfer_cfg_reg auto_xfer_sts_reg].
    do 3 (apply confined_bind; [apply confined_writel; lia | intros _]).
    apply confined_poll. }
  rewrite Hsoc.
  cbn [acd_data msm8998_soc_data tl_delay_reg acd_ctrl_reg softstart_reg ext_intf_reg
       auto_xfer_cfg_reg auto_xfer_ctl_reg dcvs_sw_reg gfmux_cfg_reg].
  do 5 (apply confined_bind; [apply confined_writel; lia | intros _]).
  cbv zeta.
  apply confined_bind; [apply Hauto | intros _].
  do 3 (apply confined_bind; [apply Hx; lia | intros _]).
  apply confined_bind; [apply confined_udelay | intros _].
  apply confined_bind; [apply Hx; lia | intros _].
  apply confined_bind; [apply confined_writel; lia | intros _].
  apply confined_udelay.
Qed.

Lemma confined_unless_ok_osm_setup b irq c xo_rate osm_rsrc acd_base src cpu_count g :
  let data := {| base := b; soc_data := msm8998_soc_data; throttle_irq := irq;
                 cancel_throttle := c |} in
  (forall a, acd_base = Some a -> a + 0x94 < b + 0x4 \/ b + 0x4 < a) ->
  confined_unless_ok (fun e => ~ writes_to (b + 0x4) e)
    (qcom_cpufreq_hw_osm_setup (D := D) data xo_rate msm8998_setup_tunables
       osm_rsrc acd_base src cpu_count g).
Proof.
  intros data Hacd. unfold qcom_cpufreq_hw_osm_setup. cbv zeta.
  apply confined_unless_ok_bind; [apply confined_write_lut; lia | intros _].
  cbn [base data msm8998_setup_tunables reg_cycle_counter reg_spm_cc_hyst
       reg_cc_zero_behav reg_spm_core_ret_map reg_spm_cc_dcvs_dis
       reg_llm_freq_vote_hyst reg_llm_volt_vote_hyst reg_llm_intf_dcvs_dis
       reg_pdn_fsm_ctrl reg_cc_boost_timer reg_dcvs_boost_timer reg_ps_boost_timer
       boost_timer_reg_len reg_boost_sync_delay reg_droop_ctrl reg_droop_release_ctrl
       reg_droop_unstall_ctrl reg_droop_wait_release_ctrl reg_droop_timer_ctrl
       reg_droop_sync_delay reg_pll_override].
  repeat first
    [ apply confined_unless_ok_bind;
      [ first [ apply confined_writel; lia
              | apply confined_boost_setup; lia
              | apply confined_readl
              | apply confined_acd_init; [reflexivity | exact Hacd] ]
      | intros ? ] ].
  (* the enable step always completes *)
  intros w. eexists. split; [| left; now exists tt].
  unfold bind. rewrite writel_run, udelay_run. cbn [snd trace].
  rewrite <- app_assoc. reflexivity.
Qed.
End OsmConfined.



(** X24: on the msm8998 register map, with the ACD block mapped away from
    the enable register, a bring-up that does not return 0 has never
    written the enable register: the OSM is enabled only after LUT
    programming and ACD initialization have both succeeded. *)
Theorem osm_setup_failure_leaves_osm_disabled {D : Type} `{Platform D}
    (b irq : Z) (c : bool) (xo_rate : Z) (osm_rsrc acd_base : option Z)
    (src : genpd_source) (cpu_count : Z) (g : Z * Z * Z * Z) (w : world D) :
  let drv_data := {| base := b; soc_data := msm8998_soc_data; throttle_irq := irq;
                     cancel_throttle := c |} in
  let r := qcom_cpufreq_hw_osm_setup drv_data xo_rate msm8998_setup_tunables osm_rsrc
             acd_base src cpu_count g w in
  (forall a, acd_base = Some a -> a + 0x94 < b + 0x4 \/ b + 0x4 < a) ->
  fst r <> Ok tt ->
  exists t,
    trace (snd r) = trace w ++ t /\
    Forall (fun e => ~ writes_to (b + reg_enable (soc_data drv_data)) e) t.
Proof.
  intros drv_data r Hacd Hfail.
  destruct (confined_unless_ok_osm_setup b irq c xo_rate osm_rsrc acd_base src cpu_count g
              Hacd w) as (t & Htr & [[[] Hok] | Hquiet]).
  - contradiction.
  - exists t. split; [exact Htr | exact Hquiet].
Qed.

Lemma osm_setup_failure_leaves_osm_disabled_witness :
  let drv_data := {| base := 0x17900000; soc_data := msm8998_soc_data;
                     throttle_irq := 33; cancel_throttle := false |} in
  let r := qcom_cpufreq_hw_osm_setup drv_data 19200000 msm8998_setup_tunables
             (Some osm_domain0) (Some osm_acd0) three_levels_src 4 (0, 0, 0, 0)
             boot_world in
  (forall a, Some osm_acd0 = Some a -> a + 0x94 < 0x17900000 + 0x4 \/ 0x17900000 + 0x4 < a) /\
  fst r = Err ETIMEDOUT /\
  fst r <> Ok tt /\
  exists t,
    trace (snd r) = trace boot_world ++ t /\
    Forall (fun e => ~ writes_to (0x17900000 + reg_enable (soc_data drv_data)) e) t.
Proof.
  pose proof (osm_setup_failure_leaves_osm_disabled 0x17900000 33 false 19200000
                (Some osm_domain0) (Some osm_acd0) three_levels_src 4 (0, 0, 0, 0)
                boot_world) as Hthm.
  cbv zeta in Hthm |- *.
  assert (Hacd : forall a, Some osm_acd0 = Some a ->
                           a + 0x94 < 0x17900000 + 0x4 \/ 0x17900000 + 0x4 < a).
  { intros a [= <-]. right. unfold osm_acd0. lia. }
  split; [exact Hacd |].
  match goal with |- fst ?r = _ /\ _ =>
    assert (Hret : fst r = Err ETIMEDOUT) by (vm_compute; reflexivity)
  end.
  split; [exact Hret |].
  split; [rewrite Hret; discriminate |].
  apply Hthm; [exact Hacd | rewrite Hret; discriminate].
Defined.

(** X25: after a bring-up that returned 0, on hardware whose registers
    read back what was last written to them, the test that follows in the
    policy initialization finds the OSM enabled. *)
Theorem osm_setup_then_enabled {D : Type} `{Platform D}
    (drv_data : qcom_cpufreq_data) (xo_rate : Z)
    (tregs : qcom_cpufreq_soc_setup_tunables) (osm_rsrc acd_base : option Z)
    (src : genpd_source) (cpu_count : Z) (g : Z * Z * Z * Z) (w w' : world D) :
  (forall v a us d, fst (hw_readl a (hw_udelay us (hw_writel v a d))) = v) ->
  qcom_cpufreq_hw_osm_setup drv_data xo_rate tregs osm_rsrc acd_base src cpu_count g w
    = (Ok tt, w') ->
  fst (osm_hw_enabled drv_data w') = Ok true.
Proof.
  intros Hback Hrun.
  assert (Hlut : exists w1, qcom_cpufreq_hw_write_lut drv_data xo_rate osm_rsrc src
                              cpu_count g w = (Ok tt, w1)).
  { pose proof Hrun as Hrun0. unfold qcom_cpufreq_hw_osm_setup in Hrun0.
    apply bind_inv in Hrun0 as ([] & w1 & Hlut & _). now exists w1. }
  destruct Hlut as [w1 Hlut].
  destruct (osm_setup_after_lut drv_data xo_rate tregs osm_rsrc acd_base src cpu_count
              g w w1 Hlut) as (d2 & d_droop & d_fsm & Heq).
  cbv zeta in Heq. rewrite Heq in Hrun. clear Heq.
  inv_bind Hrun.
  unfold bind in Hrun. rewrite writel_run, udelay_run in Hrun.
  apply run_eq_inv in Hrun as [_ <-].
  unfold osm_hw_enabled, bind. rewrite readl_run. cbn [hw trace fst snd ret].
  rewrite Hback. reflexivity.
Qed.

Lemma osm_setup_then_enabled_witness :
  (forall v a us (d : gmap Z Z), fst (hw_readl a (hw_udelay us (hw_writel v a d))) = v) /\
  exists w',
    qcom_cpufreq_hw_osm_setup msm8998_data 19200000 msm8998_setup_tunables
      (Some osm_domain0) None three_levels_src 4 (0, 0, 0, 0) boot_world = (Ok tt, w') /\
    fst (osm_hw_enabled msm8998_data w') = Ok true.
Proof.
  assert (Hback : forall v a us (d : gmap Z Z),
            fst (hw_readl a (hw_udelay us (hw_writel v a d))) = v).
  { intros v a us d. cbn. now rewrite lookup_insert_eq. }
  split; [exact Hback |].
  assert (Hfst : fst (qcom_cpufreq_hw_osm_setup msm8998_data 19200000
                        msm8998_setup_tunables (Some osm_domain0) None three_levels_src 4
                        (0, 0, 0, 0) boot_world) = Ok tt) by (vm_compute; reflexivity).
  destruct (qcom_cpufreq_hw_osm_setup msm8998_data 19200000 msm8998_setup_tunables
              (Some osm_domain0) None three_levels_src 4 (0, 0, 0, 0) boot_world)
    as [res w'] eqn:Hrun.
  cbn [fst] in Hfst. subst res. exists w'. split; [reflexivity |].
  exact (osm_setup_then_enabled msm8998_data 19200000 msm8998_setup_tunables
           (Some osm_domain0) None three_levels_src 4 (0, 0, 0, 0) boot_world w'
           Hback Hrun).
Defined.

(** ** Frequency words: what is generated is what is read back *)

Lemma land_small_high (q m : Z) :
  0 <= q < 256 -> Z.land 255 m = 0 -> Z.land q m = 0.
Proof.
  intros Hq Hm. rewrite <- (land_low_small q 8) by (cbn; lia).
  change (Z.ones 8) with 255. now rewrite <- Z.land_assoc, Hm, Z.land_0_r.
Qed.

Section FreqWord.
Variable soc : qcom_cpufreq_soc_data.
Variable xo_rate cpu_count : Z.

(** The frequency word of a row, split into its four parts. *)
Lemma gen_entry_freq_word i rate o override mv :
  freq_lut_val (gen_entry soc xo_rate cpu_count i rate o override mv)
  = Z.lor (Z.lor (u32 (Z.lor (u32 (Z.shiftl (if i =? 0 then 0 else 1)
                                            (ffs (reg_freq_lut_src_mask soc) - 1)))
                             (rate / u32 xo_rate)))
                 (FIELD_PREP LUT_CORE_COUNT cpu_count))
          (FIELD_PREP LUT_PLL_DIV (default 0 (opp_pll_div o))).
Proof. reflexivity. Qed.

Lemma freq_word_fields (f q cc pd m : Z) :
  0 <= m < 2 ^ 32 -> 0 <= q < 256 ->
  Z.land 255 m = 0 ->
  Z.land (Z.lor (Z.lor (u32 (Z.lor f q)) cc) pd) m
  = Z.lor (Z.lor (Z.land f m) (Z.land cc m)) (Z.land pd m).
Proof.
  intros Hm Hq Hlow.
  rewrite !Z.land_lor_distr_l, u32_land_low by exact Hm.
  rewrite Z.land_lor_distr_l, (land_small_high q m Hq Hlow), Z.lor_0_r.
  reflexivity.
Qed.
End FreqWord.

(** X26: the frequency word generated for an operating point decodes, with
    the masks the LUT read uses, to what the generator put in: the clock
    source is 0 for corner 0 and 1 for every other corner, the L value is
    the rate divided by the XO rate, and the core count is the CPU count
    modulo 8.  This holds on both register layouts (source bits 27:26 or
    31:30) whenever the L value fits its 8 bits. *)
Theorem gen_entry_freq_word_decodes (soc : qcom_cpufreq_soc_data)
    (xo_rate cpu_count i rate override mv : Z) (o : opp_entry) :
  reg_freq_lut_src_mask soc = LUT_SRC_8998 \/ reg_freq_lut_src_mask soc = LUT_SRC_845 ->
  0 <= rate / u32 xo_rate < 256 ->
  let data := u32 (freq_lut_val (gen_entry soc xo_rate cpu_count i rate o override mv)) in
  lut_src soc data = (if i =? 0 then 0 else 1) /\
  FIELD_GET LUT_L_VAL data = rate / u32 xo_rate /\
  FIELD_GET LUT_CORE_COUNT data = cpu_count mod 8.
Proof.
  intros Hmask Hq data. subst data. rewrite gen_entry_freq_word.
  set (q := rate / u32 xo_rate) in *.
  set (cc := FIELD_PREP LUT_CORE_COUNT cpu_count).
  set (pd := FIELD_PREP LUT_PLL_DIV (default 0 (opp_pll_div o))).
  assert (Hcc : forall m, Z.land LUT_CORE_COUNT m = 0 -> Z.land cc m = 0).
  { intros m Hm. unfold cc, FIELD_PREP. now rewrite <- Z.land_assoc, Hm, Z.land_0_r. }
  assert (Hpd : forall m, Z.land LUT_PLL_DIV m = 0 -> Z.land pd m = 0).
  { intros m Hm. unfold pd, FIELD_PREP. now rewrite <- Z.land_assoc, Hm, Z.land_0_r. }
  split; [| split].
  - unfold lut_src.
    destruct Hmask as [-> | ->]; destruct (i =? 0);
      rewrite u32_land_low by (vm_compute; split; [discriminate | reflexivity]);
      rewrite freq_word_fields
        by first [exact Hq | reflexivity | vm_compute; split; [discriminate | reflexivity]];
      rewrite Hcc, Hpd by reflexivity; rewrite !Z.lor_0_r; reflexivity.
  - unfold FIELD_GET. change (ffs LUT_L_VAL - 1) with 0. rewrite Z.shiftr_0_r.
    change LUT_L_VAL with 255.
    rewrite u32_land_low by lia.
    rewrite !Z.land_lor_distr_l, u32_land_low by lia.
    rewrite Z.land_lor_distr_l.
    rewrite Hcc, Hpd by reflexivity. rewrite !Z.lor_0_r.
    assert (Hsrc : Z.land (u32 (Z.shiftl (if i =? 0 then 0 else 1)
                                         (ffs (reg_freq_lut_src_mask soc) - 1))) 255 = 0)
      by (destruct Hmask as [-> | ->]; destruct (i =? 0); reflexivity).
    rewrite Hsrc, Z.lor_0_l. change 255 with (Z.ones 8). apply land_low_small; lia.
  - unfold FIELD_GET. change (ffs LUT_CORE_COUNT - 1) with 16.
    rewrite u32_land_low by (vm_compute; split; [discriminate | reflexivity]).
    rewrite freq_word_fields
      by first [exact Hq | reflexivity | vm_compute; split; [discriminate | reflexivity]].
    rewrite Hpd by reflexivity. rewrite Z.lor_0_r.
    assert (Hsrc : Z.land (u32 (Z.shiftl (if i =? 0 then 0 else 1)
                                         (ffs (reg_freq_lut_src_mask soc) - 1)))
                          LUT_CORE_COUNT = 0)
      by (destruct Hmask as [-> | ->]; destruct (i =? 0); reflexivity).
    rewrite Hsrc, Z.lor_0_l.
    unfold cc, FIELD_PREP. change (ffs LUT_CORE_COUNT - 1) with 16.
    rewrite <- Z.land_assoc, Z.land_diag, Z.shiftr_land.
    rewrite Z.shiftr_shiftl_l by lia. rewrite Z.sub_diag, Z.shiftl_0_r.
    change (Z.shiftr LUT_CORE_COUNT 16) with (Z.ones 3).
    now rewrite Z.land_ones by lia.
Qed.

Lemma gen_entry_freq_word_decodes_witness :
  let o := mk_opp 600000000 600000 2 in
  let data := u32 (freq_lut_val (gen_entry msm8998_soc_data 19200000 4 1 600000000 o
                                   0x4000 600)) in
  (reg_freq_lut_src_mask msm8998_soc_data = LUT_SRC_8998 \/
   reg_freq_lut_src_mask msm8998_soc_data = LUT_SRC_845) /\
  0 <= 600000000 / u32 19200000 < 256 /\
  data = 67371039 /\
  lut_src msm8998_soc_data data = 1 /\
  FIELD_GET LUT_L_VAL data = 31 /\
  FIELD_GET LUT_CORE_COUNT data = 4 /\
  lut_freq_khz msm8998_soc_data 19200000 300000000 data = 595200.
Proof.
  intros o data.
  assert (Hmask : reg_freq_lut_src_mask msm8998_soc_data = LUT_SRC_8998 \/
                  reg_freq_lut_src_mask msm8998_soc_data = LUT_SRC_845) by (now left).
  assert (Hq : 0 <= 600000000 / u32 19200000 < 256)
    by (vm_compute; split; [discriminate | reflexivity]).
  destruct (gen_entry_freq_word_decodes msm8998_soc_data 19200000 4 1 600000000 0x4000 600
              o Hmask Hq) as (Hsrc & Hl & Hc).
  split; [exact Hmask |]. split; [exact Hq |]. split; [reflexivity |].
  split; [exact Hsrc |]. split; [exact Hl |]. split; [exact Hc |].
  reflexivity.
Defined.

(** ** The LUT on a register file: written, then read back *)

Section Keeps.
Variable a : Z.

Lemma keeps_ret {A} (x : A) : keeps a (ret x).
Proof. intros w. reflexivity. Qed.

Lemma keeps_throw {A} e : keeps a (@throw (gmap Z Z) A e).
Proof. intros w. reflexivity. Qed.

Lemma keeps_fault {A} : keeps a (@fault (gmap Z Z) A).
Proof. intros w. reflexivity. Qed.

Lemma keeps_bind {A B} (m : M (gmap Z Z) A) (k : A -> M (gmap Z Z) B) :
  keeps a m -> (forall x, keeps a (k x)) -> keeps a (bind m k).
Proof.
  intros Hm Hk w. unfold bind. specialize (Hm w).
  destruct (m w) as [[x | e |] w1]; cbn [snd] in *; [| exact Hm | exact Hm].
  now rewrite Hk.
Qed.

Lemma keeps_if {A} (c : bool) (m1 m2 : M (gmap Z Z) A) :
  keeps a m1 -> keeps a m2 -> keeps a (if c then m1 else m2).
Proof. now destruct c. Qed.

Lemma keeps_writel val a' : a' <> a -> keeps a (writel val a').
Proof.
  intros Hne w. rewrite writel_run. cbn [snd hw].
  change (hw_writel (u32 val) a' (hw w)) with (<[a' := u32 val]> (hw w)).
  now apply lookup_insert_ne.
Qed.

Lemma keeps_scm addr val : keeps a (qcom_scm_io_writel addr val).
Proof. intros w. reflexivity. Qed.

Lemma keeps_mem_acc_write n seq_addr acc : forall i,
  keeps a (mem_acc_write n i seq_addr acc).
Proof.
  induction n as [| n IH]; intros i; cbn [mem_acc_write].
  - apply keeps_ret.
  - apply keeps_bind; [apply keeps_scm | intros _; apply IH].
Qed.
End Keeps.

Section RegfileLut.
Variables (b irq : Z) (c : bool).

Lemma lut_write_row_regfile i entry (w : world (gmap Z Z)) j :
  hw (snd (lut_write_row (msm8998_domain b irq c) i entry w)) !! (b + 0x154 + j * 32)
  = if j =? i then Some (u32 (freq_lut_val entry)) else hw w !! (b + 0x154 + j * 32).
Proof.
  unfold lut_write_row, bind. rewrite !writel_run. cbn [snd hw].
  repeat match goal with
         | |- context [hw_writel ?v ?x ?d] =>
           change (hw_writel v x d) with (<[x := v]> d)
         end.
  cbn [base soc_data msm8998_domain msm8998_soc_data lut_row_size reg_index reg_volt_lut
       reg_freq_lut setup_regs reg_override reg_spare].
  destruct (Z.eqb_spec j i) as [-> | Hne].
  - rewrite !lookup_insert_ne by lia. apply lookup_insert_eq.
  - now rewrite !lookup_insert_ne by lia.
Qed.

Lemma lut_loop_run_regfile n tbl num : forall i s (w : world (gmap Z Z)) j,
  hw (snd (lut_loop_run (msm8998_domain b irq c) n i tbl num s w)) !! (b + 0x154 + j * 32)
  = if (i <=? j) && (j <? i + Z.of_nat n)
    then Some (u32 (freq_lut_val (lut_entry tbl num j)))
    else hw w !! (b + 0x154 + j * 32).
Proof.
  induction n as [| n IH]; intros i s w j; cbn [lut_loop_run].
  - cbn [ret snd].
    destruct (Z.leb_spec i j), (Z.ltb_spec j (i + Z.of_nat 0)); cbn; try reflexivity; lia.
  - unfold bind at 1.
    pose proof (lut_write_row_regfile i (lut_entry tbl num i) w j) as Hrow.
    destruct (lut_write_row_run (msm8998_domain b irq c) i (lut_entry tbl num i) w)
      as [d Hrun].
    rewrite Hrun in Hrow |- *. cbn [snd hw] in Hrow.
    rewrite IH. cbn [hw]. rewrite Hrow.
    destruct (Z.eqb_spec j i) as [-> | Hne].
    + destruct (Z.leb_spec (i + 1) i), (Z.ltb_spec i (i + 1 + Z.of_nat n)),
        (Z.leb_spec i i), (Z.ltb_spec i (i + Z.of_nat (S n))); cbn; try reflexivity; lia.
    + destruct (Z.leb_spec (i + 1) j), (Z.ltb_spec j (i + 1 + Z.of_nat n)),
        (Z.leb_spec i j), (Z.ltb_spec j (i + Z.of_nat (S n))); cbn; try reflexivity; lia.
Qed.

(** Whatever happens after the forty slots are written, the frequency
    words stay in the LUT. *)
Lemma write_lut_regfile_words xo_rate start src cpu_count g out
    (w : world (gmap Z Z)) j :
  qcom_cpufreq_gen_params msm8998_soc_data xo_rate cpu_count src gen_out_init = Ok out ->
  2 <= num_entries out ->
  0 <= j < LUT_MAX_ENTRIES ->
  hw (snd (qcom_cpufreq_hw_write_lut (msm8998_domain b irq c) xo_rate (Some start) src
             cpu_count g w)) !! (b + 0x154 + j * 32)
  = Some (u32 (freq_lut_val (lut_entry (hw_tbl out) (num_entries out) j))).
Proof.
  intros Hgen Hnum Hj. unfold qcom_cpufreq_hw_write_lut.
  cbn [soc_data msm8998_domain].
  unfold bind at 1, lift_result. rewrite Hgen.
  destruct (Z.ltb_spec (num_entries out) 2) as [| _]; [lia |].
  unfold bind at 1.
  pose proof (lut_loop_run_regfile (Z.to_nat LUT_MAX_ENTRIES) (hw_tbl out) (num_entries out)
                0 (lut_loop_init g) w j) as Hloop.
  destruct (lut_loop_run_spec (msm8998_domain b irq c) (Z.to_nat LUT_MAX_ENTRIES)
              (hw_tbl out) (num_entries out) 0 (lut_loop_init g) w) as [d Hrun].
  rewrite Hrun in Hloop |- *. cbn [snd hw] in Hloop.
  match goal with |- hw (snd (?m ?w0)) !! _ = _ =>
    assert (Hk : keeps (b + 0x154 + j * 32) m)
  end.
  { apply keeps_if; [apply keeps_throw |].
    apply keeps_bind.
    { apply keeps_if; [| apply keeps_ret].
      apply keeps_bind; [apply keeps_scm | intros _; apply keeps_ret]. }
    intros acc. cbv zeta.
    apply keeps_bind; [apply keeps_mem_acc_write | intros _].
    apply keeps_if; [apply keeps_fault |].
    apply keeps_bind; [apply keeps_scm | intros _].
    apply keeps_bind;
      [apply keeps_writel;
       cbn [base msm8998_domain msm8998_soc_data setup_regs reg_seq1];
       unfold LUT_MAX_ENTRIES in Hj; lia
      | intros _].
    do 3 (apply keeps_bind; [apply keeps_scm | intros _]).
    apply keeps_scm. }
  rewrite Hk. cbn [hw]. rewrite Hloop.
  unfold LUT_MAX_ENTRIES in Hj.
  destruct (Z.leb_spec 0 j), (Z.ltb_spec j (0 + Z.of_nat (Z.to_nat LUT_MAX_ENTRIES)));
    cbn; try reflexivity; unfold LUT_MAX_ENTRIES in *; lia.
Qed.
End RegfileLut.

Lemma bind_run_ok {D A B} (m : M D A) (k : A -> M D B) (w w1 : world D) (a : A) :
  m w = (Ok a, w1) -> bind m k w = k a w1.
Proof. intros Hm. unfold bind. now rewrite Hm. Qed.

Lemma readl_regfile_at a v (d : gmap Z Z) t :
  d !! a = Some v -> u32 v = v ->
  readl a {| hw := d; trace := t |} = (Ok v, {| hw := d; trace := t |}).
Proof.
  intros Hd Hv. rewrite readl_run. cbn [hw trace].
  change (hw_readl a d) with (default 0 (d !! a), d). cbn [fst snd].
  rewrite Hd. cbn [default from_option]. unfold id. now rewrite Hv.
Qed.

Lemma attempt_update_opp_regfile cpu_dev freq volt (d : gmap Z Z) t :
  exists t', attempt (qcom_cpufreq_update_opp true cpu_dev freq volt) {| hw := d; trace := t |}
             = (Ok true, {| hw := d; trace := t' |}).
Proof. eexists. reflexivity. Qed.

Section RegfileReadBack.
Variables (b irq : Z) (c : bool) (xo_rate cpu_hw_rate cpu_dev : Z).
Variable d : gmap Z Z.
Variable word : Z -> Z.
Variable num : Z.

Variable khz : Z -> Z.

Hypothesis Hkhz : forall j,
  khz j = lut_freq_khz msm8998_soc_data xo_rate cpu_hw_rate (word j).
Hypothesis Hd : forall j, 0 <= j < LUT_MAX_ENTRIES -> d !! (b + 0x154 + j * 32) = Some (word j).
Hypothesis Hu : forall j, u32 (word j) = word j.
Hypothesis Hnum : 1 <= num < LUT_MAX_ENTRIES.
Hypothesis Hcore : forall j, 0 <= j <= num ->
  FIELD_GET LUT_CORE_COUNT (word j) <> LUT_TURBO_IND.
Hypothesis Hdist : forall j, 0 <= j -> j + 1 < num -> khz j <> khz (j + 1).
Hypothesis Hpad : khz num = khz (num - 1).

(** The scan of a LUT whose rows decode to distinct frequencies, followed
    by a padding row: it stops at the padding row with every row below it
    entered into the table. *)
Lemma read_lut_loop_regfile n : forall i prev table t,
  0 <= i <= num -> num < i + Z.of_nat n ->
  prev = (if i =? 0 then 0 else khz (i - 1)) ->
  length table = 41%nat ->
  (forall j, 0 <= j < i -> frequency <$> table !! Z.to_nat j = Some (khz j)) ->
  (forall j, i <= j < 41 -> frequency <$> table !! Z.to_nat j = Some 0) ->
  exists table' t',
    read_lut_loop (msm8998_domain b irq c) xo_rate cpu_hw_rate cpu_dev true n i prev table
      {| hw := d; trace := t |} = (Ok (num, table'), {| hw := d; trace := t' |}) /\
    length table' = 41%nat /\
    forall j, 0 <= j < num -> frequency <$> table' !! Z.to_nat j = Some (khz j).
Proof.
  assert (Hnum' : 1 <= num < 40) by exact Hnum.
  induction n as [| n IH]; intros i prev table t Hi Hn Hprev Hlen Hlow Hhigh.
  - lia.
  - cbn [read_lut_loop].
    cbn [base soc_data msm8998_domain msm8998_soc_data reg_freq_lut lut_row_size
         reg_volt_lut].
    rewrite (bind_run_ok _ _ _ _ (word i)
               (readl_regfile_at _ _ _ t (Hd i ltac:(unfold LUT_MAX_ENTRIES in *; lia)) (Hu i))).
    unfold bind at 1. rewrite readl_run. cbn [hw trace].
    change (hw_readl ?a d) with (default 0 (d !! a), d). cbn [fst snd].
    cbv zeta.
    fold (lut_src msm8998_soc_data (word i)).
    fold (lut_freq_khz msm8998_soc_data xo_rate cpu_hw_rate (word i)).
    rewrite <- (Hkhz i).
    destruct (Z.eqb_spec (FIELD_GET LUT_CORE_COUNT (word i)) LUT_TURBO_IND) as [Heq | _];
      [now apply Hcore in Heq; [| lia] |].
    cbn [negb andb].
    destruct (Z.eq_dec i num) as [-> | Hne].
    + (* the padding row *)
      assert (Hp : prev = khz num).
      { rewrite Hprev. destruct (Z.eqb_spec num 0); [lia | now rewrite Hpad]. }
      rewrite <- Hp. rewrite Z.eqb_refl. cbn [negb andb].
      rewrite (bind_run_ok _ _ _ {| hw := d; trace := t |} table eq_refl).
      destruct (Z.ltb_spec 0 num) as [_ |]; [| lia]. cbn [andb].
      pose proof (Hlow (num - 1) ltac:(lia)) as Hrow.
      destruct (table !! Z.to_nat (num - 1)) as [row |] eqn:Hlook; [| discriminate Hrow].
      cbn in Hrow. apply (inj Some) in Hrow.
      assert (Hprow : prev = frequency row) by (now rewrite Hrow, Hp, Hpad).
      destruct (frequency row =? CPUFREQ_ENTRY_INVALID).
      * match goal with |- context [attempt (qcom_cpufreq_update_opp true ?c0 ?f ?v)] =>
          destruct (attempt_update_opp_regfile c0 f v d t) as [t1 Ht1]
        end.
        eexists _, t1. split; [| split].
        -- erewrite bind_run_ok; [reflexivity |].
           erewrite bind_run_ok by exact Ht1. reflexivity.
        -- now rewrite length_insert.
        -- intros j Hj. destruct (Z.eq_dec j (num - 1)) as [-> | Hj'].
           ++ rewrite list_lookup_insert_eq by (rewrite Hlen; lia).
              cbn. now rewrite Hprow, Hrow.
           ++ rewrite list_lookup_insert_ne by lia. apply Hlow; lia.
      * eexists table, t. split; [| split].
        -- erewrite bind_run_ok; reflexivity.
        -- exact Hlen.
        -- intros j Hj. apply Hlow; lia.
    + (* a row of the table *)
      rewrite andb_true_r.
      assert (Hstep : exists table1 t1,
        (if negb (khz i =? prev)
         then let* ok := attempt (qcom_cpufreq_update_opp true cpu_dev (khz i)
                           (u32 (FIELD_GET LUT_VOLT
                                   (u32 (default 0 (d !! (b + 344 + i * 32)))) * 1000))) in
              ret (alter (set_frequency (if ok : bool then khz i else CPUFREQ_ENTRY_INVALID))
                         (Z.to_nat i) table)
         else ret table) {| hw := d; trace := t |}
        = (Ok table1, {| hw := d; trace := t1 |}) /\
        length table1 = 41%nat /\
        (forall j, 0 <= j < i + 1 -> frequency <$> table1 !! Z.to_nat j = Some (khz j)) /\
        (forall j, i + 1 <= j < 41 -> frequency <$> table1 !! Z.to_nat j = Some 0)).
      { destruct (Z.eqb_spec (khz i) prev) as [Hfp | Hfp]; cbn [negb].
        - assert (Hi0 : i = 0).
          { destruct (Z.eq_dec i 0) as [| Hi0]; [assumption | exfalso].
            rewrite Hprev in Hfp. destruct (Z.eqb_spec i 0); [lia |].
            apply (Hdist (i - 1)); [lia | lia |].
            replace (i - 1 + 1) with i by lia. now symmetry. }
          subst i. cbn in Hprev. subst prev.
          exists table, t. split; [reflexivity |]. split; [exact Hlen |]. split.
          + intros j Hj. replace j with 0 by lia. rewrite Hfp. apply Hhigh. lia.
          + intros j Hj. apply Hhigh. lia.
        - destruct (attempt_update_opp_regfile cpu_dev (khz i)
                      (u32 (FIELD_GET LUT_VOLT
                              (u32 (default 0 (d !! (b + 344 + i * 32)))) * 1000)) d t)
            as [t1 Ht1].
          eexists _, t1. split; [| split; [| split]].
          + erewrite bind_run_ok by exact Ht1. reflexivity.
          + now rewrite length_alter.
          + intros j Hj. destruct (Z.eq_dec j i) as [-> | Hj'].
            * rewrite list_lookup_alter_eq.
              pose proof (Hhigh i ltac:(lia)) as Hrow.
              destruct (table !! Z.to_nat i); [reflexivity | discriminate Hrow].
            * rewrite list_lookup_alter_ne by lia. apply Hlow. lia.
          + intros j Hj. rewrite list_lookup_alter_ne by lia. apply Hhigh. lia. }
      destruct Hstep as (table1 & t1 & Hrun & Hlen1 & Hlow1 & Hhigh1).
      rewrite (bind_run_ok _ _ _ _ _ Hrun).
      assert (Hc2 : (0 <? i) && (prev =? khz i) = false).
      { destruct (Z.ltb_spec 0 i); [| reflexivity]. cbn [andb].
        apply Z.eqb_neq. rewrite Hprev. destruct (Z.eqb_spec i 0); [lia |].
        replace i with (i - 1 + 1) at 2 by lia. apply Hdist; lia. }
      rewrite Hc2.
      apply IH; try assumption; [lia | lia |].
      destruct (Z.eqb_spec (i + 1) 0); [lia |]. now replace (i + 1 - 1) with i by lia.
Qed.
End RegfileReadBack.

(** X27: what the LUT programming writes, the LUT read reads back.  On a
    register file (registers hold the last value written), after a
    programming of the msm8998 map that returned 0 for a table of fewer
    than forty rows whose rows carry no turbo core count and decode to
    pairwise different neighbouring frequencies, the read returns 0 with a
    table of 41 rows: row [j] holds the frequency decoded from the [j]-th
    generated row, and the end marker sits right after the last row,
    where the padding of the LUT repeats the last frequency. *)
Theorem lut_write_read_roundtrip (b irq : Z) (c : bool)
    (xo_rate cpu_hw_rate cpu_dev start cpu_count : Z) (src : genpd_source)
    (g : Z * Z * Z * Z) (out : gen_out) (w w1 : world (gmap Z Z)) :
  let word j := u32 (freq_lut_val (hw_tbl out !!! Z.to_nat j)) in
  let khz j := lut_freq_khz msm8998_soc_data xo_rate cpu_hw_rate (word j) in
  qcom_cpufreq_gen_params msm8998_soc_data xo_rate cpu_count src gen_out_init = Ok out ->
  num_entries out < LUT_MAX_ENTRIES ->
  (forall j, 0 <= j < num_entries out ->
             FIELD_GET LUT_CORE_COUNT (word j) <> LUT_TURBO_IND) ->
  (forall j, 0 <= j -> j + 1 < num_entries out -> khz j <> khz (j + 1)) ->
  qcom_cpufreq_hw_write_lut (msm8998_domain b irq c) xo_rate (Some start) src cpu_count g w
  = (Ok tt, w1) ->
  exists r w2,
    qcom_cpufreq_hw_read_lut (msm8998_domain b irq c) xo_rate cpu_hw_rate cpu_dev w1
    = (Ok r, w2) /\
    hw w2 = hw w1 /\
    length (rl_table r) = 41%nat /\
    (forall j, 0 <= j < num_entries out ->
               frequency <$> rl_table r !! Z.to_nat j = Some (khz j)) /\
    frequency <$> rl_table r !! Z.to_nat (num_entries out) = Some CPUFREQ_TABLE_END.
Proof.
  intros word khz Hgen Hlt Hcore Hdist Hwrite.
  destruct (write_lut_success _ _ _ _ _ _ _ _ Hwrite) as (out' & acc & Hgen' & Hnum & _ & _).
  cbn [soc_data msm8998_domain] in Hgen'. rewrite Hgen in Hgen'.
  assert (Hout : out' = out) by congruence. subst out'. clear Hgen'.
  destruct w1 as [d1 t1].
  set (word' := fun j => u32 (freq_lut_val (lut_entry (hw_tbl out) (num_entries out) j))).
  assert (Hd : forall j, 0 <= j < LUT_MAX_ENTRIES -> d1 !! (b + 0x154 + j * 32) = Some (word' j)).
  { intros j Hj.
    pose proof (write_lut_regfile_words b irq c xo_rate start src cpu_count g out w j
                  Hgen Hnum Hj) as Hw.
    rewrite Hwrite in Hw. exact Hw. }
  assert (Hlow : forall j, j < num_entries out -> word' j = word j).
  { intros j Hj. unfold word', word, lut_entry.
    destruct (Z.ltb_spec j (num_entries out)); [reflexivity | lia]. }
  assert (Hpad : word' (num_entries out) = word (num_entries out - 1)).
  { unfold word', word, lut_entry.
    destruct (Z.ltb_spec (num_entries out) (num_entries out)); [lia | reflexivity]. }
  assert (Hlt' : num_entries out < 40) by exact Hlt.
  destruct (read_lut_loop_regfile b irq c xo_rate cpu_hw_rate cpu_dev d1 word'
              (num_entries out)
              (fun j => lut_freq_khz msm8998_soc_data xo_rate cpu_hw_rate (word' j))) with
      (n := Z.to_nat LUT_MAX_ENTRIES) (i := 0) (prev := 0)
      (table := replicate (Z.to_nat (LUT_MAX_ENTRIES + 1)) {| flags := 0; frequency := 0 |})
      (t := t1 ++ [EvOppCall (OppOfAddTable cpu_dev)])
    as (table' & t' & Hloop & Hlen' & Hrows).
  - reflexivity.
  - exact Hd.
  - intros j. unfold word', u32. rewrite Z.mod_mod by lia. reflexivity.
  - unfold LUT_MAX_ENTRIES. lia.
  - intros j Hj. destruct (Z.eq_dec j (num_entries out)) as [-> | Hne].
    + rewrite Hpad. apply Hcore. lia.
    + rewrite Hlow by lia. apply Hcore. lia.
  - intros j Hj0 Hj1. cbv beta. rewrite !Hlow by lia. now apply Hdist.
  - cbv beta. rewrite Hpad, Hlow by lia. reflexivity.
  - lia.
  - unfold LUT_MAX_ENTRIES. lia.
  - reflexivity.
  - now rewrite length_replicate.
  - intros j Hj. lia.
  - intros j Hj. rewrite lookup_replicate_2 by (unfold LUT_MAX_ENTRIES; lia). reflexivity.
  - exists {| rl_table := alter (set_frequency CPUFREQ_TABLE_END)
                                (Z.to_nat (num_entries out)) table';
              rl_icc_scaling_enabled := true |},
           {| hw := d1; trace := t' |}.
    split; [| split; [| split; [| split]]].
    + unfold qcom_cpufreq_hw_read_lut.
      assert (Hadd : dev_pm_opp_ret (OppOfAddTable cpu_dev) {| hw := d1; trace := t1 |}
                     = (Ok 0, {| hw := d1;
                                 trace := t1 ++ [EvOppCall (OppOfAddTable cpu_dev)] |}))
        by reflexivity.
      rewrite (bind_run_ok _ _ _ _ _ Hadd). cbv beta.
      match goal with |- bind ?m _ ?w0 = _ =>
        assert (Hicc : m w0 = (Ok true, w0)) by reflexivity;
        rewrite (bind_run_ok _ _ _ _ _ Hicc)
      end.
      cbv beta. rewrite (bind_run_ok _ _ _ _ _ Hloop). reflexivity.
    + reflexivity.
    + cbn [rl_table]. now rewrite length_alter.
    + intros j Hj. cbn [rl_table].
      rewrite list_lookup_alter_ne by lia. rewrite Hrows by exact Hj.
      cbv beta. now rewrite Hlow by lia.
    + cbn [rl_table]. rewrite list_lookup_alter_eq.
      destruct (table' !! Z.to_nat (num_entries out)) as [row |] eqn:Hrow; [reflexivity |].
      apply lookup_ge_None in Hrow. lia.
Qed.

Lemma lut_write_read_roundtrip_witness :
  exists w1 r w2,
    qcom_cpufreq_hw_write_lut (msm8998_domain 0x17900000 33 false) 19200000 (Some osm_domain0)
      three_levels_src 4 (0, 0, 0, 0) boot_world = (Ok tt, w1) /\
    qcom_cpufreq_hw_read_lut (msm8998_domain 0x17900000 33 false) 19200000 300000000 0 w1
    = (Ok r, w2) /\
    frequency <$> rl_table r !! 0%nat = Some 300000 /\
    frequency <$> rl_table r !! 1%nat = Some 595200 /\
    frequency <$> rl_table r !! 2%nat = Some 883200 /\
    frequency <$> rl_table r !! 3%nat = Some CPUFREQ_TABLE_END.
Proof.
  assert (Hfst : fst (qcom_cpufreq_hw_write_lut (msm8998_domain 0x17900000 33 false) 19200000
                        (Some osm_domain0) three_levels_src 4 (0, 0, 0, 0) boot_world)
                 = Ok tt)
    by (vm_compute; reflexivity).
  destruct (qcom_cpufreq_hw_write_lut (msm8998_domain 0x17900000 33 false) 19200000
              (Some osm_domain0) three_levels_src 4 (0, 0, 0, 0) boot_world)
    as [res w1] eqn:Hrun.
  cbn [fst] in Hfst. subst res.
  assert (Hcore : forall j, 0 <= j < num_entries three_levels_out ->
            FIELD_GET LUT_CORE_COUNT
              (u32 (freq_lut_val (hw_tbl three_levels_out !!! Z.to_nat j))) <> LUT_TURBO_IND).
  { intros j Hj. cbn [num_entries three_levels_out] in Hj.
    assert (Hc : j = 0 \/ j = 1 \/ j = 2) by lia.
    destruct Hc as [-> | [-> | ->]]; vm_compute; discriminate. }
  assert (Hdist : forall j, 0 <= j -> j + 1 < num_entries three_levels_out ->
            lut_freq_khz msm8998_soc_data 19200000 300000000
              (u32 (freq_lut_val (hw_tbl three_levels_out !!! Z.to_nat j)))
            <> lut_freq_khz msm8998_soc_data 19200000 300000000
                 (u32 (freq_lut_val (hw_tbl three_levels_out !!! Z.to_nat (j + 1))))).
  { intros j Hj0 Hj1. cbn [num_entries three_levels_out] in Hj1.
    assert (Hc : j = 0 \/ j = 1) by lia.
    destruct Hc as [-> | ->]; vm_compute; discriminate. }
  assert (Hlt : num_entries three_levels_out < LUT_MAX_ENTRIES) by reflexivity.
  destruct (lut_write_read_roundtrip 0x17900000 33 false 19200000 300000000 0 osm_domain0 4
              three_levels_src (0, 0, 0, 0) three_levels_out boot_world w1
              three_levels_generated Hlt Hcore Hdist Hrun)
    as (r & w2 & Hread & _ & _ & Hrows & Hend).
  exists w1, r, w2. split; [reflexivity |]. split; [exact Hread |].
  split; [exact (Hrows 0 ltac:(cbn; lia)) |].
  split; [exact (Hrows 1 ltac:(cbn; lia)) |].
  split; [exact (Hrows 2 ltac:(cbn; lia)) |].
  exact Hend.
Defined.
